(** * Banking-System: the Front End transaction engine

    A shallow embedding of [account.py], [transaction.py], [validator.py],
    [file_handler.py] and [banking_system.py], and the properties of the
    specification proved (or refuted) on it.

    Modelling choices, shared by the whole development:
    - a Python [float] is an IEEE-754 binary64 number: Rocq's primitive
      [float], with [PrimFloat.add], [PrimFloat.sub], [PrimFloat.ltb] and
      [PrimFloat.leb] for [+], [-], [<] and [<=];
    - a Python [str] is a [string], a sequence of characters with code
      points 0..255; [==] on strings is equality of the sequences;
    - a Python [int] is a [Z];
    - the account list is a [list] of records; an [Account] object is
      identified by its position in the list, so that a method mutating the
      object found by a lookup is an [alter] at the index the lookup
      returned, and two lookups returning the same object return the same
      index;
    - every [process_*] method takes the controller's state and gives an
      [outcome]: the state after the call with the pair (success flag,
      message) that the method returns, or the exception it raises. *)

From Stdlib Require Import ZArith NArith String Ascii Bool List Lia.
From Stdlib Require Import Floats.PrimFloat Floats.FloatOps Floats.SpecFloat.
From Stdlib Require Floats.FloatAxioms.
From Stdlib Require Import Numbers.DecimalString Numbers.DecimalPos Numbers.DecimalN.
From stdpp Require Import base option list strings gmap.

Set Warnings "-inexact-float".

Local Open Scope string_scope.
Local Open Scope Z_scope.

(** ** Python built-ins used by the program *)

Module Py.

(** [c * n] for a one-character string [c]. *)
Fixpoint replicate_char (n : nat) (c : ascii) : string :=
  match n with
  | O => EmptyString
  | S n' => String c (replicate_char n' c)
  end.

(** [s.ljust(w)]: pad with spaces on the right up to width [w]. *)
Definition ljust (w : nat) (s : string) : string :=
  s +:+ replicate_char (w - String.length s) " "%char.

(** [s[:n]] *)
Definition slice_to (n : nat) (s : string) : string :=
  String.substring 0 n s.

(** [s[-2:]] *)
Definition last2 (s : string) : string :=
  String.substring (String.length s - 2) 2 s.

(** [s.zfill(w)]: pad with zeros on the left up to width [w]; a leading
    sign stays in front of the zeros. *)
Definition zfill (w : nat) (s : string) : string :=
  let fill := replicate_char (w - String.length s) "0"%char in
  match s with
  | String c rest =>
      if (Ascii.eqb c "+" || Ascii.eqb c "-")%bool
      then String c (fill +:+ rest)
      else fill +:+ s
  | EmptyString => fill
  end.

(** [str(n)] for a natural number. *)
Definition str_N (n : N) : string :=
  NilZero.string_of_uint (N.to_uint n).

(** [str(z)] for an integer. *)
Definition str (z : Z) : string :=
  if z <? 0 then String "-" (str_N (Z.abs_N z)) else str_N (Z.abs_N z).

(** The white space [int()] skips around its argument (code points below
    256): tab, line feed, vertical tab, form feed, carriage return, space,
    NEL and the no-break space. *)
Definition is_int_space (c : ascii) : bool :=
  let n := nat_of_ascii c in
  ((9 <=? n)%nat && (n <=? 13)%nat) || (n =? 32)%nat || (n =? 133)%nat
  || (n =? 160)%nat.

Fixpoint lstrip (s : string) : string :=
  match s with
  | String c rest => if is_int_space c then lstrip rest else s
  | EmptyString => EmptyString
  end.

Fixpoint rstrip (s : string) : string :=
  match s with
  | String c rest =>
      match rstrip rest with
      | EmptyString => if is_int_space c then EmptyString else String c EmptyString
      | r => String c r
      end
  | EmptyString => EmptyString
  end.

Definition strip (s : string) : string := rstrip (lstrip s).

(** The decimal digit a character stands for. *)
Definition digit_of_char (c : ascii) : option (Decimal.uint -> Decimal.uint) :=
  match c with
  | "0" => Some Decimal.D0 | "1" => Some Decimal.D1 | "2" => Some Decimal.D2
  | "3" => Some Decimal.D3 | "4" => Some Decimal.D4 | "5" => Some Decimal.D5
  | "6" => Some Decimal.D6 | "7" => Some Decimal.D7 | "8" => Some Decimal.D8
  | "9" => Some Decimal.D9
  | _ => None
  end%char.

(** The digits of an integer literal: decimal digits, with single
    underscores allowed between two digits. [after_digit] tells whether
    the previous character was a digit. *)
Fixpoint int_digits (after_digit : bool) (s : string) : option Decimal.uint :=
  match s with
  | EmptyString => if after_digit then Some Decimal.Nil else None
  | String c rest =>
      match digit_of_char c with
      | Some d => d <$> int_digits true rest
      | None =>
          if (Ascii.eqb c "_" && after_digit)%bool
          then int_digits false rest
          else None
      end
  end.

(** [int(s)] in base 10; [None] stands for [ValueError]. The interpreter's
    limit on the number of digits (4300 by default) is left out: an account
    number read from the accounts file has at most five characters. *)
Definition int (s : string) : option Z :=
  match strip s with
  | String "+" rest => (fun d => Z.of_N (N.of_uint d)) <$> int_digits false rest
  | String "-" rest => (fun d => - Z.of_N (N.of_uint d)) <$> int_digits false rest
  | body => (fun d => Z.of_N (N.of_uint d)) <$> int_digits false body
  end.

(** [m * 2^e * 100] rounded to the nearest integer, ties to even: the
    number of hundredths that [format(x, '.2f')] prints for the finite
    value [m * 2^e]. *)
Definition hundredths (m : positive) (e : Z) : Z :=
  let num := Z.pos m * 100 in
  if 0 <=? e then num * 2 ^ e
  else
    let den := 2 ^ (- e) in
    let q := num / den in
    let r := num mod den in
    match 2 * r ?= den with
    | Lt => q
    | Gt => q + 1
    | Eq => if Z.even q then q else q + 1
    end.

Definition sign_str (s : bool) : string := if s then "-" else "".

(** [f"{x:.2f}"] *)
Definition format_2f (x : float) : string :=
  match Prim2SF x with
  | S754_nan => "nan"
  | S754_infinity s => sign_str s +:+ "inf"
  | S754_zero s => sign_str s +:+ "0.00"
  | S754_finite s m e =>
      let h := hundredths m e in
      sign_str s +:+ str (h / 100) +:+ "." +:+ zfill 2 (str (h mod 100))
  end.

(** [sep.join(l)] *)
Fixpoint join (sep : string) (l : list string) : string :=
  match l with
  | [] => ""
  | [x] => x
  | x :: rest => x +:+ sep +:+ join sep rest
  end.

(** The line feed character, ['\n']. *)
Definition nl : string := String (ascii_of_nat 10) EmptyString.

(** The double quote character. *)
Definition dquote : string := String (ascii_of_nat 34) EmptyString.

(** *** Strings: [str.isspace], [str.strip], [str.splitlines], [in], slices *)

(** [c.isspace()] for a character with a code point below 256. *)
Definition isspace (c : ascii) : bool :=
  let n := nat_of_ascii c in
  ((9 <=? n)%nat && (n <=? 13)%nat) || ((28 <=? n)%nat && (n <=? 32)%nat)
  || (n =? 133)%nat || (n =? 160)%nat.

Fixpoint str_lstrip (s : string) : string :=
  match s with
  | String c rest => if isspace c then str_lstrip rest else s
  | EmptyString => EmptyString
  end.

Fixpoint str_rstrip (s : string) : string :=
  match s with
  | String c rest =>
      match str_rstrip rest with
      | EmptyString => if isspace c then EmptyString else String c EmptyString
      | r => String c r
      end
  | EmptyString => EmptyString
  end.

(** [s.strip()] *)
Definition str_strip (s : string) : string := str_rstrip (str_lstrip s).

(** [s[a:b]] for [0 <= a <= b]. *)
Definition slice (a b : nat) (s : string) : string :=
  String.substring a (b - a) s.

(** [needle in s] *)
Fixpoint contains (needle s : string) : bool :=
  String.prefix needle s
  || match s with
     | String _ rest => contains needle rest
     | EmptyString => false
     end.

(** The characters at which [str.splitlines] breaks a text (code points
    below 256): line feed, vertical tab, form feed, carriage return, the
    file, group and record separators, and NEL. *)
Definition is_linebreak (c : ascii) : bool :=
  let n := nat_of_ascii c in
  ((10 <=? n)%nat && (n <=? 13)%nat) || ((28 <=? n)%nat && (n <=? 30)%nat)
  || (n =? 133)%nat.

(** [s.splitlines()]: a carriage return followed by a line feed is one
    break, and a final break opens no further line. *)
Fixpoint splitlines (s : string) : list string :=
  match s with
  | EmptyString => []
  | String c rest =>
      if is_linebreak c then
        match rest with
        | String c' _ =>
            if (nat_of_ascii c =? 13)%nat && (nat_of_ascii c' =? 10)%nat
            then splitlines rest
            else EmptyString :: splitlines rest
        | EmptyString => [EmptyString]
        end
      else
        match splitlines rest with
        | [] => [String c EmptyString]
        | line :: lines => String c line :: lines
        end
  end.

(** *** [float(s)] *)

Definition is_digit (c : ascii) : bool :=
  let n := nat_of_ascii c in (48 <=? n)%nat && (n <=? 57)%nat.

(** The text without its underscores, provided each of them stands between
    two digits; [prev] is the character before [s]. *)
Fixpoint drop_underscores (prev : option ascii) (s : string) : option string :=
  match s with
  | EmptyString =>
      match prev with
      | Some "_"%char => None
      | _ => Some EmptyString
      end
  | String c rest =>
      if Ascii.eqb c "_" then
        match prev with
        | Some p => if is_digit p then drop_underscores (Some c) rest else None
        | None => None
        end
      else
        match prev with
        | Some "_"%char =>
            if is_digit c then String c <$> drop_underscores (Some c) rest else None
        | _ => String c <$> drop_underscores (Some c) rest
        end
  end.

(** The leading digits of [s]: their value after [acc], how many they are,
    and what follows them. *)
Fixpoint read_digits (s : string) (acc : Z) (count : nat) : Z * nat * string :=
  match s with
  | String c rest =>
      if is_digit c
      then read_digits rest (10 * acc + Z.of_nat (nat_of_ascii c - 48)) (S count)
      else (acc, count, s)
  | EmptyString => (acc, count, s)
  end.

(** A leading sign: whether it is a minus, and what follows it. *)
Definition read_sign (s : string) : bool * string :=
  match s with
  | String "-" rest => (true, rest)
  | String "+" rest => (false, rest)
  | _ => (false, s)
  end.

(** [s.lower()] for the letters of [inf], [infinity] and [nan]. *)
Definition lower (c : ascii) : ascii :=
  let n := nat_of_ascii c in
  if (65 <=? n)%nat && (n <=? 90)%nat then ascii_of_nat (n + 32) else c.

Fixpoint lower_str (s : string) : string :=
  match s with
  | String c rest => String (lower c) (lower_str rest)
  | EmptyString => EmptyString
  end.

(** The binary64 number nearest to [m * 10^e], ties to even; beyond the
    largest finite number it is an infinity. *)
Definition decimal_to_float (neg : bool) (m : Z) (e : Z) : float :=
  SF2Prim
    match m with
    | Zpos _ =>
        if 0 <=? e then binary_round prec emax neg (Z.to_pos (m * 10 ^ e)) 0
        else
          let d := 10 ^ (- e) in
          let k := 64 + Z.log2_up d in
          let n := m * 2 ^ k in
          let r := n mod d in
          binary_round_aux prec emax neg (n / d) (- k)
            (if r =? 0 then loc_Exact else loc_Inexact (2 * r ?= d))
    | _ => S754_zero neg
    end.

(** The exponent part: nothing, or [e] or [E], an optional sign and at
    least one digit. [None] when there is something else. *)
Definition read_exponent (s : string) : option Z :=
  match s with
  | EmptyString => Some 0
  | String c rest =>
      if Ascii.eqb (lower c) "e" then
        let '(neg, rest) := read_sign rest in
        match read_digits rest 0 0 with
        | (value, S _, EmptyString) => Some (if neg then - value else value)
        | _ => None
        end
      else None
  end.

(** A decimal number: digits, an optional point with digits, at least one
    digit in all, and an optional exponent. *)
Definition read_decimal (neg : bool) (s : string) : option float :=
  let '(int_value, int_count, rest) := read_digits s 0 0 in
  let '(value, frac_count, rest) :=
    match rest with
    | String "." rest' =>
        let '(value, count, rest'') := read_digits rest' int_value 0 in
        (value, count, rest'')
    | _ => (int_value, 0%nat, rest)
    end in
  match (int_count + frac_count)%nat with
  | O => None
  | S _ =>
      (fun e => decimal_to_float neg value (e - Z.of_nat frac_count))
        <$> read_exponent rest
  end.

(** [float(s)] for a string; [None] stands for [ValueError]. *)
Definition float_of_str (s : string) : option float :=
  match strip s with
  | EmptyString => None
  | body =>
      match drop_underscores None body with
      | None => None
      | Some body =>
          let '(neg, rest) := read_sign body in
          let word := lower_str rest in
          if String.eqb word "inf" || String.eqb word "infinity"
          then Some (if neg then neg_infinity else infinity)
          else if String.eqb word "nan" then Some nan
          else read_decimal neg rest
      end
  end.


(** *** Strings: [str.lower], [str.upper], [str.replace] *)

(** [c.lower()] for a code point below 256: the letters A-Z and the
    capital letters of Latin-1 (192-222 without the multiplication sign
    215) move up by 32. *)
Definition lower_char (c : ascii) : ascii :=
  let n := nat_of_ascii c in
  if ((65 <=? n)%nat && (n <=? 90)%nat)
     || ((192 <=? n)%nat && (n <=? 222)%nat && negb (n =? 215)%nat)
  then ascii_of_nat (n + 32) else c.

(** [s.lower()] *)
Fixpoint str_lower (s : string) : string :=
  match s with
  | String c rest => String (lower_char c) (str_lower rest)
  | EmptyString => EmptyString
  end.

(** [c.upper()] for a code point below 256: the letters a-z and the small
    letters of Latin-1 (224-254 without the division sign 247) move down by
    32, and the sharp s (223) becomes SS. The micro sign (181) and the y
    with diaeresis (255) have their capitals above 255, outside the strings
    of this development: they are left as they are, so for a text that
    holds one of them [str_upper] differs from Python (in that character
    only, which is no ASCII letter on either side). *)
Definition upper_char (c : ascii) : string :=
  let n := nat_of_ascii c in
  if ((97 <=? n)%nat && (n <=? 122)%nat)
     || ((224 <=? n)%nat && (n <=? 254)%nat && negb (n =? 247)%nat)
  then String (ascii_of_nat (n - 32)) EmptyString
  else if (n =? 223)%nat then "SS"
  else String c EmptyString.

(** [s.upper()] *)
Fixpoint str_upper (s : string) : string :=
  match s with
  | String c rest => upper_char c +:+ str_upper rest
  | EmptyString => EmptyString
  end.

(** [s.replace(old, new)] for a non-empty [old]: the occurrences of [old]
    are replaced from left to right, without overlap. [skip] counts the
    characters of an occurrence still to pass over. *)
Fixpoint replace_from (skip : nat) (old new s : string) : string :=
  match s with
  | EmptyString => EmptyString
  | String c rest =>
      match skip with
      | S skip' => replace_from skip' old new rest
      | O =>
          if String.prefix old s
          then new +:+ replace_from (String.length old - 1) old new rest
          else String c (replace_from 0 old new rest)
      end
  end.

Definition replace (old new s : string) : string := replace_from 0 old new s.

End Py.

(** ** account.py *)

Module Account.

(** The [Account] entity: [status] is the one-character status field of the
    accounts file (['A'], ['D'], or whatever the file holds). *)
Record Account := mkAccount {
  account_number : string;
  holder_name : string;
  status : string;
  balance : float
}.

Definition get_account_number (self : Account) : string := account_number self.
Definition get_holder_name (self : Account) : string := holder_name self.
Definition get_balance (self : Account) : float := balance self.

Definition set_balance (self : Account) (b : float) : Account :=
  mkAccount (account_number self) (holder_name self) (status self) b.

Definition is_disabled (self : Account) : bool := String.eqb (status self) "D".

Definition disable (self : Account) : Account :=
  mkAccount (account_number self) (holder_name self) "D" (balance self).

(** [withdraw] returns its boolean result and the object after the call. *)
Definition withdraw (self : Account) (amount : float) : bool * Account :=
  if PrimFloat.ltb (balance self) amount then (false, self)
  else (true, set_balance self (PrimFloat.sub (balance self) amount)).

Definition deposit (self : Account) (amount : float) : Account :=
  set_balance self (PrimFloat.add (balance self) amount).

Definition to_file_string (self : Account) : string :=
  let account_num := Py.zfill 5 (account_number self) in
  let name := Py.slice_to 20 (Py.ljust 20 (holder_name self)) in
  let balance := Py.zfill 8 (Py.format_2f (balance self)) in
  account_num +:+ " " +:+ name +:+ " " +:+ status self +:+ " " +:+ balance.

End Account.

(** ** transaction.py *)

Module Transaction.

Inductive CodeKey :=
| WITHDRAWAL | TRANSFER | PAYBILL | DEPOSIT | CREATE | DELETE | DISABLE
| CHANGEPLAN | END_SESSION.

Definition CODES (k : CodeKey) : string :=
  match k with
  | WITHDRAWAL => "01"
  | TRANSFER => "02"
  | PAYBILL => "03"
  | DEPOSIT => "04"
  | CREATE => "05"
  | DELETE => "06"
  | DISABLE => "07"
  | CHANGEPLAN => "08"
  | END_SESSION => "00"
  end.

Record Transaction := mkTransaction {
  code : string;
  account_holder_name : string;
  account_number : string;
  amount : float;
  misc : string
}.

Definition to_file_string (self : Transaction) : string :=
  let name := Py.slice_to 20 (Py.ljust 20 (account_holder_name self)) in
  let account_num := Py.zfill 5 (account_number self) in
  let amount := Py.zfill 8 (Py.format_2f (amount self)) in
  let misc := Py.slice_to 2 (Py.ljust 2 (misc self)) in
  code self +:+ " " +:+ name +:+ " " +:+ account_num +:+ " " +:+ amount +:+ misc.

Definition create_withdrawal (account_holder_name account_number : string)
    (amount : float) : Transaction :=
  mkTransaction (CODES WITHDRAWAL) account_holder_name account_number amount "  ".

Definition create_transfer (account_holder_name from_account to_account : string)
    (amount : float) : Transaction :=
  let to_padded := Py.zfill 5 to_account in
  mkTransaction (CODES TRANSFER) account_holder_name from_account amount
    (Py.last2 to_padded).

Definition create_paybill (account_holder_name account_number : string)
    (amount : float) (company : string) : Transaction :=
  mkTransaction (CODES PAYBILL) account_holder_name account_number amount company.

Definition create_deposit (account_holder_name account_number : string)
    (amount : float) : Transaction :=
  mkTransaction (CODES DEPOSIT) account_holder_name account_number amount "  ".

Definition create_account (account_holder_name account_number : string)
    (initial_balance : float) : Transaction :=
  mkTransaction (CODES CREATE) account_holder_name account_number initial_balance "  ".

Definition create_delete (account_holder_name account_number : string) : Transaction :=
  mkTransaction (CODES DELETE) account_holder_name account_number 0 "  ".

Definition create_disable (account_holder_name account_number : string) : Transaction :=
  mkTransaction (CODES DISABLE) account_holder_name account_number 0 "  ".

Definition create_changeplan (account_holder_name account_number : string) : Transaction :=
  mkTransaction (CODES CHANGEPLAN) account_holder_name account_number 0 "  ".

Definition create_end_session : Transaction :=
  mkTransaction (CODES END_SESSION) (Py.replicate_char 20 " ") "00000" 0 "  ".

End Transaction.

(** ** validator.py *)

Module Validator.
Import Account.

Definition MAX_WITHDRAWAL_STANDARD : float := 500.00.
Definition MAX_TRANSFER_STANDARD : float := 1000.00.
Definition MAX_PAYBILL_STANDARD : float := 2000.00.
Definition MAX_ACCOUNT_BALANCE : float := 99999.99.
Definition MAX_NAME_LENGTH : nat := 20.
Definition VALID_COMPANIES : list string := ["EC"; "CQ"; "FI"].

(** Every validator returns [None] when the request is valid and
    [Some message] otherwise. *)

Definition validate_withdrawal (account : option Account) (amount : float)
    (is_admin : bool) (session_total : float) : option string :=
  match account with
  | None => Some "Account not found."
  | Some account =>
      if is_disabled account then Some "Account is disabled."
      else if PrimFloat.leb amount 0 then Some "Amount must be positive."
      else if negb is_admin
              && PrimFloat.ltb MAX_WITHDRAWAL_STANDARD (PrimFloat.add session_total amount)
      then Some ("Maximum withdrawal per session is $"
                 +:+ Py.format_2f MAX_WITHDRAWAL_STANDARD +:+ ".")
      else if PrimFloat.ltb (get_balance account) amount then Some "Insufficient funds."
      else None
  end.

Definition validate_transfer (source target : option Account) (amount : float)
    (is_admin : bool) (session_total : float) : option string :=
  match source with
  | None => Some "Source account not found."
  | Some source =>
      match target with
      | None => Some "Destination account not found."
      | Some target =>
          if is_disabled source || is_disabled target
          then Some "Source or destination account is disabled."
          else if PrimFloat.leb amount 0 then Some "Amount must be positive."
          else if negb is_admin
                  && PrimFloat.ltb MAX_TRANSFER_STANDARD (PrimFloat.add session_total amount)
          then Some ("Maximum transfer per session is $"
                     +:+ Py.format_2f MAX_TRANSFER_STANDARD +:+ ".")
          else if PrimFloat.ltb (get_balance source) amount
          then Some "Insufficient funds in source account."
          else None
      end
  end.

Definition validate_paybill (account : option Account) (amount : float)
    (company : string) (is_admin : bool) (session_total : float) : option string :=
  match account with
  | None => Some "Account not found."
  | Some account =>
      if is_disabled account then Some "Account is disabled."
      else if negb (bool_decide (company ∈ VALID_COMPANIES))
      then Some "Invalid company code. Valid codes: EC, CQ, FI."
      else if PrimFloat.leb amount 0 then Some "Amount must be positive."
      else if negb is_admin
              && PrimFloat.ltb MAX_PAYBILL_STANDARD (PrimFloat.add session_total amount)
      then Some ("Maximum paybill per session is $"
                 +:+ Py.format_2f MAX_PAYBILL_STANDARD +:+ ".")
      else if PrimFloat.ltb (get_balance account) amount then Some "Insufficient funds."
      else None
  end.

Definition validate_deposit (account : option Account) (amount : float)
    : option string :=
  match account with
  | None => Some "Account not found."
  | Some account =>
      if is_disabled account then Some "Account is disabled."
      else if PrimFloat.leb amount 0 then Some "Amount must be positive."
      else None
  end.

Definition validate_create (holder_name : string) (initial_balance : float)
    (account_exists : bool) : option string :=
  if (MAX_NAME_LENGTH <? String.length holder_name)%nat
  then Some ("Account holder name must be at most "
             +:+ Py.str (Z.of_nat MAX_NAME_LENGTH) +:+ " characters.")
  else if PrimFloat.ltb initial_balance 0
  then Some "Initial balance cannot be negative."
  else if PrimFloat.ltb MAX_ACCOUNT_BALANCE initial_balance
  then Some ("Maximum account balance is $"
             +:+ Py.format_2f MAX_ACCOUNT_BALANCE +:+ ".")
  else if account_exists then Some "Account number already exists."
  else None.

Definition validate_account_exists (account : option Account) : option string :=
  match account with
  | None => Some "Account not found."
  | Some _ => None
  end.

Definition validate_disable (account : option Account) : option string :=
  match account with
  | None => Some "Account not found."
  | Some account =>
      if is_disabled account then Some "Account is already disabled."
      else None
  end.

End Validator.

(** ** file_handler.py *)

Module FileHandler.

(** [generate_transaction_file]: the lines of the session's transactions,
    then the line of the end-of-session marker, joined by line feeds, and
    a final line feed. *)
Definition generate_transaction_file
    (transactions : list Transaction.Transaction) : string :=
  let lines := map Transaction.to_file_string transactions in
  let lines := (lines ++ [Transaction.to_file_string Transaction.create_end_session])%list in
  Py.join Py.nl lines +:+ Py.nl.

(** One turn of the loop of [parse_accounts_file] for a line that is
    neither blank nor the end marker: [None] when the line is too short or
    its balance field is no number. *)
Definition parse_account_line (line : string) : option Account.Account :=
  if (String.length line <? 37)%nat then None
  else
    let account_number := Py.str_strip (Py.slice 0 5 line) in
    let holder_name := Py.str_strip (Py.slice 6 26 line) in
    let status := Py.str_strip (Py.slice 27 28 line) in
    let balance_text := Py.str_strip (Py.slice 29 37 line) in
    match Py.float_of_str balance_text with
    | None => None
    | Some balance =>
        Some (Account.mkAccount account_number holder_name status balance)
    end.

(** The loop of [parse_accounts_file] over the lines of the file: blank
    lines are passed over, a line holding END_OF_FILE ends the loop, and
    each other line gives an account or is passed over. *)
Fixpoint parse_account_lines (lines : list string) : list Account.Account :=
  match lines with
  | [] => []
  | line :: rest =>
      if String.eqb (Py.str_strip line) "" then parse_account_lines rest
      else if Py.contains "END_OF_FILE" line then []
      else
        match parse_account_line line with
        | None => parse_account_lines rest
        | Some account => account :: parse_account_lines rest
        end
  end.

Definition parse_accounts_file (file_content : string) : list Account.Account :=
  parse_account_lines (Py.splitlines file_content).

End FileHandler.

(** ** banking_system.py *)

Module BankingSystem.
Import Account.

(** The controller's state. [file_handler] and [validator] hold no state
    and are left out. *)
Record BankingSystem := mkBankingSystem {
  accounts : list Account;
  transactions : list Transaction.Transaction;
  is_logged_in : bool;
  is_admin : bool;
  current_user : option string;
  session_withdrawals : float;
  session_transfers : float;
  session_paybills : float
}.

(** [__init__] *)
Definition __init__ : BankingSystem :=
  mkBankingSystem [] [] false false None 0 0 0.

(** What a call does: it returns the pair (success, message), leaving the
    controller in state [self'], or it raises. *)
Inductive outcome :=
| Return (self' : BankingSystem) (success : bool) (message : string)
| Raise (exc : string).

(** [load_accounts], after [FileHandler.parse_accounts_file] has turned the
    file's text into [parsed]. The parser is not part of this development:
    any list of accounts stands for its result. *)
Definition load_accounts (self : BankingSystem) (parsed : list Account)
    : BankingSystem :=
  mkBankingSystem parsed (transactions self) (is_logged_in self) (is_admin self)
    (current_user self) (session_withdrawals self) (session_transfers self)
    (session_paybills self).

(** The lookups return the first matching object: its position in the
    account list and its current fields. *)
Definition find_account_by_number (self : BankingSystem) (account_number : string)
    : option (nat * Account) :=
  list_find (fun account => get_account_number account = account_number)
    (accounts self).

(** [holder_name] may be [None] (an admin call without a name), which no
    holder name equals. *)
Definition find_user_account (self : BankingSystem) (holder_name : option string)
    (account_number : string) : option (nat * Account) :=
  list_find (fun account => Some (get_holder_name account) = holder_name
                            /\ get_account_number account = account_number)
    (accounts self).

Definition process_login (self : BankingSystem) (mode : string)
    (user_name : option string) : outcome :=
  if is_logged_in self then Return self false "Already logged in. Please logout first."
  else if String.eqb mode "admin" then
    Return (mkBankingSystem (accounts self) (transactions self) true true
              (Some "Admin") (session_withdrawals self) (session_transfers self)
              (session_paybills self))
      true "Admin session started."
  else if String.eqb mode "standard" then
    match user_name with
    | Some (String _ _ as user_name) =>
        Return (mkBankingSystem (accounts self) (transactions self) true false
                  (Some user_name) (session_withdrawals self)
                  (session_transfers self) (session_paybills self))
          true ("Standard user " +:+ user_name +:+ " logged in.")
    | _ => Return self false "Account holder name required for standard login."
    end
  else Return self false ("Invalid login mode. Use " +:+ Py.dquote +:+ "standard"
                          +:+ Py.dquote +:+ " or " +:+ Py.dquote +:+ "admin"
                          +:+ Py.dquote +:+ ".").

Definition process_logout (self : BankingSystem) : outcome :=
  if negb (is_logged_in self) then Return self false "Not logged in."
  else
    Return (mkBankingSystem (accounts self) (transactions self) false false None 0 0 0)
      true "Session ended. Transaction file ready for download.".

(** [holder_name if self.is_admin else (self.current_user or '')] *)
Definition acting_owner (self : BankingSystem) (holder_name : option string)
    : option string :=
  if is_admin self then holder_name else Some (default "" (current_user self)).

(** The owner as the string the transaction record stores. Past
    validation the owner has matched an account's holder name, so it is a
    string. *)
Definition owner_name (owner : option string) : string := default "" owner.

Definition process_withdrawal (self : BankingSystem) (account_number : string)
    (amount : float) (holder_name : option string) : outcome :=
  if negb (is_logged_in self)
  then Return self false "Must be logged in to perform transactions."
  else
    let owner := acting_owner self holder_name in
    let account := find_user_account self owner account_number in
    match Validator.validate_withdrawal (snd <$> account) amount (is_admin self)
            (session_withdrawals self) with
    | Some (String _ _ as error) => Return self false error
    | _ =>
        match account with
        | None => Raise "AttributeError"
        | Some (i, account) =>
            let account' := snd (withdraw account amount) in
            Return
              (mkBankingSystem
                 (alter (fun a => snd (withdraw a amount)) i (accounts self))
                 (transactions self
                    ++ [Transaction.create_withdrawal (owner_name owner)
                          account_number amount])%list
                 (is_logged_in self) (is_admin self) (current_user self)
                 (PrimFloat.add (session_withdrawals self) amount)
                 (session_transfers self) (session_paybills self))
              true
              ("Withdrawal of $" +:+ Py.format_2f amount
               +:+ " successful. New balance: $"
               +:+ Py.format_2f (get_balance account'))
        end
    end.

(** [source] and [target] may be one and the same object: the deposit acts
    on the object at the target's position as the withdrawal left it. *)
Definition process_transfer (self : BankingSystem) (source_number target_number : string)
    (amount : float) (holder_name : option string) : outcome :=
  if negb (is_logged_in self)
  then Return self false "Must be logged in to perform transactions."
  else
    let owner := acting_owner self holder_name in
    let source := find_user_account self owner source_number in
    let target := find_account_by_number self target_number in
    match Validator.validate_transfer (snd <$> source) (snd <$> target) amount
            (is_admin self) (session_transfers self) with
    | Some (String _ _ as error) => Return self false error
    | _ =>
        match source, target with
        | Some (i, _), Some (j, _) =>
            Return
              (mkBankingSystem
                 (alter (fun a => deposit a amount) j
                    (alter (fun a => snd (withdraw a amount)) i (accounts self)))
                 (transactions self
                    ++ [Transaction.create_transfer (owner_name owner)
                          source_number target_number amount])%list
                 (is_logged_in self) (is_admin self) (current_user self)
                 (session_withdrawals self)
                 (PrimFloat.add (session_transfers self) amount)
                 (session_paybills self))
              true
              ("Transfer of $" +:+ Py.format_2f amount +:+ " successful.")
        | _, _ => Raise "AttributeError"
        end
    end.

Definition process_paybill (self : BankingSystem) (account_number : string)
    (amount : float) (company : string) (holder_name : option string) : outcome :=
  if negb (is_logged_in self)
  then Return self false "Must be logged in to perform transactions."
  else
    let owner := acting_owner self holder_name in
    let account := find_user_account self owner account_number in
    match Validator.validate_paybill (snd <$> account) amount company (is_admin self)
            (session_paybills self) with
    | Some (String _ _ as error) => Return self false error
    | _ =>
        match account with
        | None => Raise "AttributeError"
        | Some (i, _) =>
            Return
              (mkBankingSystem
                 (alter (fun a => snd (withdraw a amount)) i (accounts self))
                 (transactions self
                    ++ [Transaction.create_paybill (owner_name owner)
                          account_number amount company])%list
                 (is_logged_in self) (is_admin self) (current_user self)
                 (session_withdrawals self) (session_transfers self)
                 (PrimFloat.add (session_paybills self) amount))
              true
              ("Bill payment of $" +:+ Py.format_2f amount +:+ " to " +:+ company
               +:+ " successful.")
        end
    end.

Definition process_deposit (self : BankingSystem) (account_number : string)
    (amount : float) (holder_name : option string) : outcome :=
  if negb (is_logged_in self)
  then Return self false "Must be logged in to perform transactions."
  else
    let owner := acting_owner self holder_name in
    let account := find_user_account self owner account_number in
    match Validator.validate_deposit (snd <$> account) amount with
    | Some (String _ _ as error) => Return self false error
    | _ =>
        Return
          (mkBankingSystem (accounts self)
             (transactions self
                ++ [Transaction.create_deposit (owner_name owner)
                      account_number amount])%list
             (is_logged_in self) (is_admin self) (current_user self)
             (session_withdrawals self) (session_transfers self)
             (session_paybills self))
          true
          ("Deposit of $" +:+ Py.format_2f amount
           +:+ " accepted (available next session).")
    end.

(** The largest account number that parses as an integer (or 0), plus one,
    zero-filled to five characters. *)
Definition max_account_number (accounts : list Account) : Z :=
  fold_left
    (fun max_number account =>
       match Py.int (get_account_number account) with
       | None => max_number
       | Some value => if max_number <? value then value else max_number
       end)
    accounts 0.

Definition _generate_account_number (self : BankingSystem) : string :=
  Py.zfill 5 (Py.str (max_account_number (accounts self) + 1)).

Definition process_create (self : BankingSystem) (holder_name : string)
    (initial_balance : float) : outcome :=
  if negb (is_logged_in self)
  then Return self false "Must be logged in to perform transactions."
  else if negb (is_admin self)
  then Return self false
         "Create account is a privileged transaction. Admin access required."
  else
    let new_number := _generate_account_number self in
    let exists_ := bool_decide (is_Some (find_account_by_number self new_number)) in
    match Validator.validate_create holder_name initial_balance exists_ with
    | Some (String _ _ as error) => Return self false error
    | _ =>
        Return
          (mkBankingSystem (accounts self)
             (transactions self
                ++ [Transaction.create_account holder_name new_number
                      initial_balance])%list
             (is_logged_in self) (is_admin self) (current_user self)
             (session_withdrawals self) (session_transfers self)
             (session_paybills self))
          true
          ("Account " +:+ new_number +:+ " created for " +:+ holder_name
           +:+ " (available next session).")
    end.

Definition process_delete (self : BankingSystem) (holder_name account_number : string)
    : outcome :=
  if negb (is_logged_in self)
  then Return self false "Must be logged in to perform transactions."
  else if negb (is_admin self)
  then Return self false
         "Delete account is a privileged transaction. Admin access required."
  else
    let account := find_user_account self (Some holder_name) account_number in
    match Validator.validate_account_exists (snd <$> account) with
    | Some (String _ _ as error) => Return self false error
    | _ =>
        Return
          (mkBankingSystem
             (filter (fun a => ~ (get_holder_name a = holder_name
                                  /\ get_account_number a = account_number))
                (accounts self))
             (transactions self
                ++ [Transaction.create_delete holder_name account_number])%list
             (is_logged_in self) (is_admin self) (current_user self)
             (session_withdrawals self) (session_transfers self)
             (session_paybills self))
          true
          ("Account " +:+ account_number +:+ " for " +:+ holder_name +:+ " deleted.")
    end.

Definition process_disable (self : BankingSystem) (holder_name account_number : string)
    : outcome :=
  if negb (is_logged_in self)
  then Return self false "Must be logged in to perform transactions."
  else if negb (is_admin self)
  then Return self false
         "Disable account is a privileged transaction. Admin access required."
  else
    let account := find_user_account self (Some holder_name) account_number in
    match Validator.validate_disable (snd <$> account) with
    | Some (String _ _ as error) => Return self false error
    | _ =>
        match account with
        | None => Raise "AttributeError"
        | Some (i, _) =>
            Return
              (mkBankingSystem (alter disable i (accounts self))
                 (transactions self
                    ++ [Transaction.create_disable holder_name account_number])%list
                 (is_logged_in self) (is_admin self) (current_user self)
                 (session_withdrawals self) (session_transfers self)
                 (session_paybills self))
              true
              ("Account " +:+ account_number +:+ " for " +:+ holder_name
               +:+ " disabled.")
        end
    end.

Definition process_changeplan (self : BankingSystem)
    (holder_name account_number : string) : outcome :=
  if negb (is_logged_in self)
  then Return self false "Must be logged in to perform transactions."
  else if negb (is_admin self)
  then Return self false
         "Change plan is a privileged transaction. Admin access required."
  else
    let account := find_user_account self (Some holder_name) account_number in
    match Validator.validate_account_exists (snd <$> account) with
    | Some (String _ _ as error) => Return self false error
    | _ =>
        Return
          (mkBankingSystem (accounts self)
             (transactions self
                ++ [Transaction.create_changeplan holder_name account_number])%list
             (is_logged_in self) (is_admin self) (current_user self)
             (session_withdrawals self) (session_transfers self)
             (session_paybills self))
          true
          ("Payment plan changed for account " +:+ account_number +:+ ".")
    end.

Definition generate_transaction_file (self : BankingSystem) : string :=
  FileHandler.generate_transaction_file (transactions self).

End BankingSystem.

(** ** main.py: the console *)

Module BankingConsole.
Import BankingSystem.

(** [parse_positive_amount]: [None] when the text is no number or the
    number is not greater than zero. *)
Definition parse_positive_amount (text : string) : option float :=
  match Py.float_of_str text with
  | None => None
  | Some amount => if PrimFloat.ltb 0 amount then Some amount else None
  end.

(** [parse_non_negative_amount]: [None] when the text is no number or the
    number is not greater than or equal to zero. *)
Definition parse_non_negative_amount (text : string) : option float :=
  match Py.float_of_str text with
  | None => None
  | Some amount => if PrimFloat.leb 0 amount then Some amount else None
  end.

(** What the program does to the outside: a line written by [print], the
    prompt written by a call of [input], and a call of
    [FileHandler.write_file]. *)
Inductive Output :=
| Print (line : string)
| Prompt (text : string)
| WriteFile (content file_path : string).

(** The console object: the controller, the prompt flow in progress and
    the answers collected so far. *)
Record BankingConsole := mkBankingConsole {
  system : BankingSystem;
  current_flow : option string;
  flow_data : gmap string string
}.

(** [__init__] *)
Definition __init__ : BankingConsole :=
  mkBankingConsole BankingSystem.__init__ None ∅.

Section Console.

(** The file system and the clock are the outside world's: [read_file]
    gives the text of the file or the text of the exception that [open] or
    [read] raised, [write_file] the name of the exception it raised, if
    any, and [today] is [datetime.now().strftime('%Y-%m-%d')]. Each may
    change the world. *)
Context {World : Type}.
Variable read_file : string -> World -> (string + string) * World.
Variable write_file : string -> string -> World -> option string * World.
Variable today : World -> string * World.

(** Standard input as the lines still to be read, standard output and the
    file writes as the list of what was done so far, and the world. *)
Record IO := mkIO {
  stdin : list string;
  stdout : list Output;
  world : World
}.

(** A call returns a value or raises, and leaves its input and output
    behind. *)
Inductive result (A : Type) :=
| Ok (a : A) (io : IO)
| Raised (exc : string) (io : IO).
Arguments Ok {A} a io.
Arguments Raised {A} exc io.

Definition M (A : Type) : Type := IO -> result A.

Definition ret {A} (a : A) : M A := fun io => Ok a io.

Definition bind {A B} (m : M A) (f : A -> M B) : M B :=
  fun io =>
    match m io with
    | Ok a io' => f a io'
    | Raised exc io' => Raised exc io'
    end.

Notation "'let*' x ':=' m 'in' f" := (bind m (fun x => f))
  (at level 10, x pattern, m at level 100, f at level 200, only parsing).

Definition raise {A} (exc : string) : M A := fun io => Raised exc io.

Definition write (o : Output) : M unit :=
  fun io => Ok tt (mkIO (stdin io) (stdout io ++ [o]) (world io)).

(** [print(line)] *)
Definition print (line : string) : M unit := write (Print line).

(** [input(prompt)]: the next line of standard input, without its line
    feed; [EOFError] when there is none. *)
Definition input (prompt : string) : M string :=
  fun io =>
    match stdin io with
    | [] => Raised "EOFError" (mkIO [] (stdout io ++ [Prompt prompt]) (world io))
    | line :: rest => Ok line (mkIO rest (stdout io ++ [Prompt prompt]) (world io))
    end.

Definition out (message : string) : M unit := print message.

Definition err (message : string) : M unit := print ("ERROR: " +:+ message).

(** [self.out(msg) if ok else self.err(msg)] *)
Definition report (ok : bool) (msg : string) : M unit :=
  if ok then out msg else err msg.

(** The pair that a [process_*] call returns and the controller after it,
    or the exception it raises. *)
Definition returned (o : outcome) : M (BankingSystem * bool * string) :=
  match o with
  | Return system' ok msg => ret (system', ok, msg)
  | Raise exc => raise exc
  end.

(** [self.flow_data[key]] *)
Definition item (self : BankingConsole) (key : string) : M string :=
  match flow_data self !! key with
  | Some value => ret value
  | None => raise "KeyError"
  end.

(** [flow == name], for a flow that may be [None]. *)
Definition is_flow (flow : option string) (name : string) : bool :=
  match flow with
  | Some flow => String.eqb flow name
  | None => false
  end.

(** [load_accounts]: the object after the call and the boolean returned. *)
Definition load_accounts (self : BankingConsole) : M (BankingConsole * bool) :=
  let* line := input "Enter path to Current Bank Accounts file: " in
  let path := Py.str_strip line in
  if String.eqb path "" then
    let* _ := err "No file path provided." in ret (self, false)
  else
    fun io =>
      match read_file path (world io) with
      | (inr exc, world') =>
          (let* _ := err ("Error loading file: " +:+ exc) in ret (self, false))
            (mkIO (stdin io) (stdout io) world')
      | (inl content, world') =>
          let system' :=
            BankingSystem.load_accounts (system self)
              (FileHandler.parse_accounts_file content) in
          (let* _ := out ("Loaded " +:+ Py.str (Z.of_nat (length (accounts system')))
                          +:+ " accounts.") in
           ret (mkBankingConsole system' (current_flow self) (flow_data self), true))
            (mkIO (stdin io) (stdout io) world')
      end.

(** [write_transaction_file] *)
Definition write_transaction_file (self : BankingConsole) : M unit :=
  let content := generate_transaction_file (system self) in
  fun io =>
    let '(date, world') := today (world io) in
    let filename := "transaction_file_" +:+ date +:+ ".txt" in
    let '(raised, world'') := write_file content filename world' in
    let io' := mkIO (stdin io) (stdout io ++ [WriteFile content filename]) world'' in
    match raised with
    | Some exc => Raised exc io'
    | None => out ("Transaction file written: " +:+ filename) io'
    end.

(** The console with another flow, and with another answer stored. *)
Definition set_flow (self : BankingConsole) (flow : option string) : BankingConsole :=
  mkBankingConsole (system self) flow (flow_data self).

Definition set_item (self : BankingConsole) (key value : string) : BankingConsole :=
  mkBankingConsole (system self) (current_flow self) (<[key := value]> (flow_data self)).

(** The end of a flow: the controller after the call, the message
    reported, no flow in progress. *)
Definition finish (self : BankingConsole) (o : outcome) : M BankingConsole :=
  let* (system', ok, msg) := returned o in
  let* _ := report ok msg in
  ret (mkBankingConsole system' None (flow_data self)).

(** [start_transaction_flow] *)
Definition start_transaction_flow (self : BankingConsole) (command : string)
    : M BankingConsole :=
  if negb (is_logged_in (system self)) then
    let* _ := err "Must be logged in to perform transactions." in ret self
  else
    let tx := if String.eqb command "withdraw" then "withdrawal" else command in
    let self := mkBankingConsole (system self) (Some tx) ∅ in
    let is_admin := is_admin (system self) in
    if String.eqb tx "withdrawal" then
      let* _ := out (if is_admin then "Enter account holder name:"
                     else "Enter account number:") in
      ret (set_flow self (Some (if is_admin then "withdrawal_name"
                                else "withdrawal_account")))
    else if String.eqb tx "transfer" then
      let* _ := out (if is_admin then "Enter account holder name:"
                     else "Enter source account number:") in
      ret (set_flow self (Some (if is_admin then "transfer_name"
                                else "transfer_source")))
    else if String.eqb tx "paybill" then
      let* _ := out (if is_admin then "Enter account holder name:"
                     else "Enter account number:") in
      ret (set_flow self (Some (if is_admin then "paybill_name"
                                else "paybill_account")))
    else if String.eqb tx "deposit" then
      let* _ := out (if is_admin then "Enter account holder name:"
                     else "Enter account number:") in
      ret (set_flow self (Some (if is_admin then "deposit_name"
                                else "deposit_account")))
    else if String.eqb tx "create" then
      let* _ := out "Enter new account holder name:" in
      ret (set_flow self (Some "create_name"))
    else if String.eqb tx "delete" then
      let* _ := out "Enter account holder name:" in
      ret (set_flow self (Some "delete_name"))
    else if String.eqb tx "disable" then
      let* _ := out "Enter account holder name:" in
      ret (set_flow self (Some "disable_name"))
    else if String.eqb tx "changeplan" then
      let* _ := out "Enter account holder name:" in
      ret (set_flow self (Some "changeplan_name"))
    else ret self.

(** The commands that start a transaction flow. *)
Definition transaction_commands : list string :=
  ["withdrawal"; "withdraw"; "transfer"; "paybill"; "deposit"; "create"; "delete";
   "disable"; "changeplan"].

(** [handle_command] *)
Definition handle_command (self : BankingConsole) (command : string)
    : M BankingConsole :=
  if String.eqb command "login" then
    if is_logged_in (system self) then
      let* _ := err "Already logged in. Please logout first." in ret self
    else
      let* _ := out "Enter session type (standard/admin):" in
      ret (set_flow self (Some "login_mode"))
  else if String.eqb command "logout" then
    let* (system', ok, msg) := returned (process_logout (system self)) in
    let self := mkBankingConsole system' (current_flow self) (flow_data self) in
    if negb ok then let* _ := err msg in ret self
    else
      let* _ := out msg in
      let* _ := write_transaction_file self in
      ret self
  else if bool_decide (command ∈ transaction_commands) then
    start_transaction_flow self command
  else
    let* _ := err ("Invalid command. Use login, logout, withdrawal, transfer, "
                   +:+ "paybill, deposit, create, delete, disable, changeplan.") in
    ret self.

(** A step of a flow that stores the answer and asks the next question. *)
Definition ask_next (self : BankingConsole) (key text next question : string)
    : M BankingConsole :=
  let* _ := out question in
  ret (set_flow (set_item self key text) (Some next)).

(** [handle_transaction_flow] *)
Definition handle_transaction_flow (self : BankingConsole) (text : string)
    : M BankingConsole :=
  let flow := current_flow self in
  if is_flow flow "withdrawal_name" then
    ask_next self "name" text "withdrawal_account" "Enter account number:"
  else if is_flow flow "withdrawal_account" then
    ask_next self "account" text "withdrawal_amount" "Enter amount to withdraw:"
  else if is_flow flow "withdrawal_amount" then
    match parse_positive_amount text with
    | None => let* _ := err "Invalid amount. Enter a positive number." in ret self
    | Some amount =>
        let* account := item self "account" in
        finish self
          (process_withdrawal (system self) account amount (flow_data self !! "name"))
    end
  else if is_flow flow "transfer_name" then
    ask_next self "name" text "transfer_source" "Enter source account number:"
  else if is_flow flow "transfer_source" then
    ask_next self "source" text "transfer_target" "Enter destination account number:"
  else if is_flow flow "transfer_target" then
    ask_next self "target" text "transfer_amount" "Enter amount to transfer:"
  else if is_flow flow "transfer_amount" then
    match parse_positive_amount text with
    | None => let* _ := err "Invalid amount. Enter a positive number." in ret self
    | Some amount =>
        let* source := item self "source" in
        let* target := item self "target" in
        finish self
          (process_transfer (system self) source target amount
             (flow_data self !! "name"))
    end
  else if is_flow flow "paybill_name" then
    ask_next self "name" text "paybill_account" "Enter account number:"
  else if is_flow flow "paybill_account" then
    ask_next self "account" text "paybill_company" "Enter company code (EC, CQ, FI):"
  else if is_flow flow "paybill_company" then
    ask_next self "company" (Py.str_upper text) "paybill_amount" "Enter amount to pay:"
  else if is_flow flow "paybill_amount" then
    match parse_positive_amount text with
    | None => let* _ := err "Invalid amount. Enter a positive number." in ret self
    | Some amount =>
        let* account := item self "account" in
        let* company := item self "company" in
        finish self
          (process_paybill (system self) account amount company
             (flow_data self !! "name"))
    end
  else if is_flow flow "deposit_name" then
    ask_next self "name" text "deposit_account" "Enter account number:"
  else if is_flow flow "deposit_account" then
    ask_next self "account" text "deposit_amount" "Enter amount to deposit:"
  else if is_flow flow "deposit_amount" then
    match parse_positive_amount text with
    | None => let* _ := err "Invalid amount. Enter a positive number." in ret self
    | Some amount =>
        let* account := item self "account" in
        finish self
          (process_deposit (system self) account amount (flow_data self !! "name"))
    end
  else if is_flow flow "create_name" then
    ask_next self "name" text "create_balance" "Enter initial balance:"
  else if is_flow flow "create_balance" then
    match parse_non_negative_amount text with
    | None => let* _ := err "Invalid amount. Enter a non-negative number." in ret self
    | Some amount =>
        let* name := item self "name" in
        finish self (process_create (system self) name amount)
    end
  else if is_flow flow "delete_name" || is_flow flow "disable_name"
          || is_flow flow "changeplan_name" then
    ask_next self "name" text
      (Py.replace "_name" "_account" (default "" flow)) "Enter account number:"
  else if is_flow flow "delete_account" then
    let* name := item self "name" in
    finish self (process_delete (system self) name text)
  else if is_flow flow "disable_account" then
    let* name := item self "name" in
    finish self (process_disable (system self) name text)
  else if is_flow flow "changeplan_account" then
    let* name := item self "name" in
    finish self (process_changeplan (system self) name text)
  else ret self.

(** The login that follows [load_accounts] in the two login flows: when
    the file did not load the flow is dropped. *)
Definition load_and_login (self : BankingConsole) (mode : string)
    (user_name : option string) : M BankingConsole :=
  let* (self, loaded) := load_accounts self in
  if negb loaded then ret (set_flow self None)
  else finish self (process_login (system self) mode user_name).

(** [handle_flow_input] *)
Definition handle_flow_input (self : BankingConsole) (text : string)
    : M BankingConsole :=
  let flow := current_flow self in
  if is_flow flow "login_mode" then
    let mode := Py.str_lower text in
    if String.eqb mode "admin" then load_and_login self "admin" None
    else if String.eqb mode "standard" then
      let* _ := out "Enter account holder name:" in
      ret (set_flow self (Some "login_name"))
    else let* _ := err "Invalid mode. Use standard or admin." in ret self
  else if is_flow flow "login_name" then
    load_and_login self "standard" (Some text)
  else handle_transaction_flow self text.

(** One turn of the loop of [run], for the line [text] that [input]
    returned, stripped. *)
Definition turn (self : BankingConsole) (text : string) : M BankingConsole :=
  if String.eqb text "" then ret self
  else
    match current_flow self with
    | Some (String _ _) => handle_flow_input self text
    | _ => handle_command self (Py.str_lower text)
    end.

(** The loop of [run]: it ends when [input] raises [EOFError], or with the
    exception that a turn raises. Every turn reads a line, so a number of
    turns above the number of lines left is enough; [None] is a loop that
    was given fewer. *)
Fixpoint loop (turns : nat) (self : BankingConsole) (io : IO)
    : option (result BankingConsole) :=
  match turns with
  | O => None
  | S turns' =>
      match input "> " io with
      | Raised exc io' =>
          if String.eqb exc "EOFError"
          then Some ((let* _ := out "Exiting." in ret self) io')
          else Some (Raised exc io')
      | Ok line io' =>
          match turn self (Py.str_strip line) io' with
          | Ok self' io'' => loop turns' self' io''
          | Raised exc io'' => Some (Raised exc io'')
          end
      end
  end.

(** [run]: the object when the call returns, or the exception it raises. *)
Definition run (self : BankingConsole) (io : IO) : option (result BankingConsole) :=
  match (let* _ := out "Banking System Front End (Console)" in
         out ("Enter " +:+ Py.dquote +:+ "login" +:+ Py.dquote
              +:+ " to start a session.")) io with
  | Ok _ io' => loop (S (length (stdin io'))) self io'
  | Raised exc io' => Some (Raised exc io')
  end.

(** [main] *)
Definition main (io : IO) : option (result BankingConsole) := run __init__ io.

End Console.

Arguments IO World : clear implicits.
Arguments result World A : clear implicits.
Arguments M World A : clear implicits.
Arguments Ok {World A} a io.
Arguments Raised {World A} exc io.

End BankingConsole.

(** [load_accounts] on the text of an accounts file. *)
Definition load_accounts_file (self : BankingSystem.BankingSystem)
    (file_content : string) : BankingSystem.BankingSystem :=
  BankingSystem.load_accounts self (FileHandler.parse_accounts_file file_content).

(** ** Sessions: sequences of calls on one controller *)

Module Session.
Import Account BankingSystem.

(** One call of the operation surface. *)
Inductive Request :=
| Login (mode : string) (user_name : option string)
| Logout
| Withdrawal (account_number : string) (amount : float) (holder_name : option string)
| Transfer (source_number target_number : string) (amount : float)
    (holder_name : option string)
| Paybill (account_number : string) (amount : float) (company : string)
    (holder_name : option string)
| Deposit (account_number : string) (amount : float) (holder_name : option string)
| Create (holder_name : string) (initial_balance : float)
| Delete (holder_name account_number : string)
| Disable (holder_name account_number : string)
| Changeplan (holder_name account_number : string).

Definition call (self : BankingSystem) (r : Request) : outcome :=
  match r with
  | Login mode user_name => process_login self mode user_name
  | Logout => process_logout self
  | Withdrawal n amount h => process_withdrawal self n amount h
  | Transfer n1 n2 amount h => process_transfer self n1 n2 amount h
  | Paybill n amount company h => process_paybill self n amount company h
  | Deposit n amount h => process_deposit self n amount h
  | Create h b => process_create self h b
  | Delete h n => process_delete self h n
  | Disable h n => process_disable self h n
  | Changeplan h n => process_changeplan self h n
  end.

(** What the caller does to a controller: load an accounts file, or call
    one operation. *)
Inductive Event :=
| Load (parsed : list Account)
| Call (r : Request).

(** The states a controller goes through, from [__init__] on. *)
Inductive reachable : BankingSystem -> Prop :=
| reachable_init : reachable __init__
| reachable_load self parsed :
    reachable self -> reachable (load_accounts self parsed)
| reachable_call self r self' success message :
    reachable self -> call self r = Return self' success message ->
    reachable self'.

(** Running a list of events; [None] when a call raises. *)
Fixpoint run (self : BankingSystem) (events : list Event) : option BankingSystem :=
  match events with
  | [] => Some self
  | Load parsed :: rest => run (load_accounts self parsed) rest
  | Call r :: rest =>
      match call self r with
      | Return self' _ _ => run self' rest
      | Raise _ => None
      end
  end.

(** The state in which the call returned (the unchanged state if it
    raised). *)
Definition state_of (o : outcome) (self : BankingSystem) : BankingSystem :=
  match o with Return self' _ _ => self' | Raise _ => self end.

End Session.

(** ** The rule order of the specification *)

Module SpecRules.
Import Account Validator.

(** The categories of checks, in the order in which the specification lists
    them. *)
Inductive RuleKind :=
| Existence | DisabledStatus | DomainCheck | SessionCap | BalanceSufficiency.

Definition rank (k : RuleKind) : nat :=
  match k with
  | Existence => 0
  | DisabledStatus => 1
  | DomainCheck => 2
  | SessionCap => 3
  | BalanceSufficiency => 4
  end.

(** One check: its category, whether the request violates it, and the
    message for that. *)
Record Rule := mkRule {
  kind : RuleKind;
  violated : bool;
  message : string
}.

(** The message of the first violated rule of a list. *)
Fixpoint first_violation (rules : list Rule) : option string :=
  match rules with
  | [] => None
  | r :: rest => if violated r then Some (message r) else first_violation rest
  end.

(** The categories never go back along the list. *)
Fixpoint in_spec_order (rules : list Rule) : bool :=
  match rules with
  | r1 :: rest =>
      match rest with
      | r2 :: _ => (rank (kind r1) <=? rank (kind r2))%nat && in_spec_order rest
      | [] => true
      end
  | [] => true
  end.

(** A check on the fields of an account that may be missing; a missing
    account violates the existence rule only. *)
Definition on_account (account : option Account) (check : Account -> bool) : bool :=
  match account with
  | Some a => check a
  | None => false
  end.

Definition missing (account : option Account) : bool :=
  match account with
  | Some _ => false
  | None => true
  end.

Definition cap_message (what : string) (cap : float) : string :=
  "Maximum " +:+ what +:+ " per session is $" +:+ Py.format_2f cap +:+ ".".

(** The rules of the specification for each validator, as lists in the
    order in which the specification gives them. The test of each rule is
    the comparison the validator makes; the lists add the category and the
    order. *)
Definition withdrawal_rules (account : option Account) (amount : float)
    (is_admin : bool) (session_total : float) : list Rule :=
  [ mkRule Existence (missing account) "Account not found.";
    mkRule DisabledStatus (on_account account is_disabled) "Account is disabled.";
    mkRule DomainCheck (PrimFloat.leb amount 0) "Amount must be positive.";
    mkRule SessionCap
      (negb is_admin
       && PrimFloat.ltb MAX_WITHDRAWAL_STANDARD (PrimFloat.add session_total amount))
      (cap_message "withdrawal" MAX_WITHDRAWAL_STANDARD);
    mkRule BalanceSufficiency
      (on_account account (fun a => PrimFloat.ltb (balance a) amount))
      "Insufficient funds." ].

Definition transfer_rules (source target : option Account) (amount : float)
    (is_admin : bool) (session_total : float) : list Rule :=
  [ mkRule Existence (missing source) "Source account not found.";
    mkRule Existence (missing target) "Destination account not found.";
    mkRule DisabledStatus
      (on_account source is_disabled || on_account target is_disabled)
      "Source or destination account is disabled.";
    mkRule DomainCheck (PrimFloat.leb amount 0) "Amount must be positive.";
    mkRule SessionCap
      (negb is_admin
       && PrimFloat.ltb MAX_TRANSFER_STANDARD (PrimFloat.add session_total amount))
      (cap_message "transfer" MAX_TRANSFER_STANDARD);
    mkRule BalanceSufficiency
      (on_account source (fun a => PrimFloat.ltb (balance a) amount))
      "Insufficient funds in source account." ].

Definition paybill_rules (account : option Account) (amount : float)
    (company : string) (is_admin : bool) (session_total : float) : list Rule :=
  [ mkRule Existence (missing account) "Account not found.";
    mkRule DisabledStatus (on_account account is_disabled) "Account is disabled.";
    mkRule DomainCheck (negb (bool_decide (company ∈ VALID_COMPANIES)))
      "Invalid company code. Valid codes: EC, CQ, FI.";
    mkRule DomainCheck (PrimFloat.leb amount 0) "Amount must be positive.";
    mkRule SessionCap
      (negb is_admin
       && PrimFloat.ltb MAX_PAYBILL_STANDARD (PrimFloat.add session_total amount))
      (cap_message "paybill" MAX_PAYBILL_STANDARD);
    mkRule BalanceSufficiency
      (on_account account (fun a => PrimFloat.ltb (balance a) amount))
      "Insufficient funds." ].

Definition deposit_rules (account : option Account) (amount : float) : list Rule :=
  [ mkRule Existence (missing account) "Account not found.";
    mkRule DisabledStatus (on_account account is_disabled) "Account is disabled.";
    mkRule DomainCheck (PrimFloat.leb amount 0) "Amount must be positive." ].

Definition disable_rules (account : option Account) : list Rule :=
  [ mkRule Existence (missing account) "Account not found.";
    mkRule DisabledStatus (on_account account is_disabled)
      "Account is already disabled." ].

End SpecRules.

(** ** Notions used in the statements *)

Module Notions.
Import Account Validator BankingSystem.

(** The state after an accepted request: [accounts'] and the three totals
    as given, one record appended to the log, the login state kept. *)
Definition accepted (self : BankingSystem) (accounts' : list Account)
    (t : Transaction.Transaction) (w tr p : float) : BankingSystem :=
  mkBankingSystem accounts' (transactions self ++ [t])%list
    (is_logged_in self) (is_admin self) (current_user self) w tr p.

(** The state after a call that only appends one record to the log. *)
Definition recorded (self : BankingSystem) (t : Transaction.Transaction)
    : BankingSystem :=
  accepted self (accounts self) t (session_withdrawals self)
    (session_transfers self) (session_paybills self).

Definition totals_zero (self : BankingSystem) : Prop :=
  session_withdrawals self = 0%float
  /\ session_transfers self = 0%float
  /\ session_paybills self = 0%float.

(** [total > cap] is false for each of the three categories. *)
Definition within_caps (self : BankingSystem) : Prop :=
  PrimFloat.ltb MAX_WITHDRAWAL_STANDARD (session_withdrawals self) = false
  /\ PrimFloat.ltb MAX_TRANSFER_STANDARD (session_transfers self) = false
  /\ PrimFloat.ltb MAX_PAYBILL_STANDARD (session_paybills self) = false.

(** The codes of the records that the operations write. *)
Definition operation_codes : list string :=
  ["01"; "02"; "03"; "04"; "05"; "06"; "07"; "08"].

(** One turn of the loop of [_generate_account_number]. *)
Definition keep_max (max_number : Z) (account : Account) : Z :=
  match Py.int (get_account_number account) with
  | None => max_number
  | Some value => if max_number <? value then value else max_number
  end.

(** The text made of the given lines, each followed by a line feed. *)
Definition newline_terminated (lines : list string) : string :=
  fold_right (fun line text => line +:+ Py.nl +:+ text) "" lines.

(** The number of line feeds in a text. *)
Fixpoint count_nl (s : string) : nat :=
  match s with
  | EmptyString => 0
  | String c rest =>
      ((if Ascii.eqb c (ascii_of_nat 10) then 1 else 0) + count_nl rest)%nat
  end.

(** The statement of C6 at one request: after a successful transfer the
    source account holds its former balance minus the amount, the
    destination account its former balance plus the amount, and the record
    appended to the log has the last two characters of the zero-filled
    destination number as its misc field. *)
Definition transfer_moves_amount (self : BankingSystem) (n1 n2 : string)
    (amount : float) (h : option string) : Prop :=
  forall self' message i a j b,
    process_transfer self n1 n2 amount h = Return self' true message ->
    find_user_account self (acting_owner self h) n1 = Some (i, a) ->
    find_account_by_number self n2 = Some (j, b) ->
    (exists a', accounts self' !! i = Some a'
                /\ balance a' = PrimFloat.sub (balance a) amount)
    /\ (exists b', accounts self' !! j = Some b'
                   /\ balance b' = PrimFloat.add (balance b) amount)
    /\ exists t, transactions self' = (transactions self ++ [t])%list
                 /\ Transaction.misc t = Py.last2 (Py.zfill 5 n2).

End Notions.

(** ** Notions for the lines of the transaction file *)

Module FileNotions.
Import BankingSystem Notions.

(** The statement of C5 at one controller: its transaction file has one
    line feed per record of the log, and one for the End-Session line. *)
Definition one_line_per_record (self : BankingSystem) : Prop :=
  count_nl (generate_transaction_file self) = S (length (transactions self)).

(** A record none of whose text fields holds a line feed. *)
Definition no_line_feed (t : Transaction.Transaction) : Prop :=
  count_nl (Transaction.account_holder_name t) = 0%nat
  /\ count_nl (Transaction.account_number t) = 0%nat
  /\ count_nl (Transaction.misc t) = 0%nat.

End FileNotions.

(** ** The states and accounts of the examples *)

Module Fixtures.
Import Account BankingSystem Session.

Definition alice : Account := mkAccount "00001" "Alice" "A" 1000.
Definition bob : Account := mkAccount "00002" "Bob" "A" 50.

Definition alice_session : list Event :=
  [Load [alice]; Call (Login "standard" (Some "Alice"))].

(** A standard session that has withdrawn 500.00 from account 00001. *)
Definition alice_after_withdrawal : BankingSystem :=
  mkBankingSystem [mkAccount "00001" "Alice" "A" 500]
    [Transaction.mkTransaction "01" "Alice" "00001" 500 "  "]
    true false (Some "Alice") 500 0 0.

(** A standard session of Alice, whose account 00001 holds 500.00. *)
Definition alice_500 : BankingSystem :=
  mkBankingSystem [mkAccount "00001" "Alice" "A" 500] [] true false (Some "Alice")
    0 0 0.

(** An admin session has recorded one Create and has been closed. *)
Definition after_first_session : BankingSystem :=
  mkBankingSystem [] [Transaction.mkTransaction "05" "Bob" "00001" 100 "  "]
    false false None 0 0 0.

End Fixtures.

(** ** Notions for the console *)

Module ConsoleNotions.
Import Account BankingSystem Session BankingConsole.

(** The texts handed to [FileHandler.write_file], in the order of the
    calls. *)
Definition written (outs : list Output) : list string :=
  omap (fun o => match o with WriteFile content _ => Some content | _ => None end)
    outs.

(** Where a flow stands with the holder name: the prompt that asks an
    admin for it, a prompt after that point (or the first one of a standard
    user, who is not asked), or a flow that stores the name as one of its
    answers. *)
Inductive Holder := Asking | Settled | Answer.

(** The prompts at which a transaction flow waits, with the answers stored
    in [flow_data] by then. *)
Definition prompts : list (string * (list string * Holder)) :=
  [("withdrawal_name", ([], Asking));
   ("withdrawal_account", ([], Settled));
   ("withdrawal_amount", (["account"], Settled));
   ("transfer_name", ([], Asking));
   ("transfer_source", ([], Settled));
   ("transfer_target", (["source"], Settled));
   ("transfer_amount", (["source"; "target"], Settled));
   ("paybill_name", ([], Asking));
   ("paybill_account", ([], Settled));
   ("paybill_company", (["account"], Settled));
   ("paybill_amount", (["account"; "company"], Settled));
   ("deposit_name", ([], Asking));
   ("deposit_account", ([], Settled));
   ("deposit_amount", (["account"], Settled));
   ("create_name", ([], Answer));
   ("create_balance", (["name"], Answer));
   ("delete_name", ([], Answer));
   ("delete_account", (["name"], Answer));
   ("disable_name", ([], Answer));
   ("disable_account", (["name"], Answer));
   ("changeplan_name", ([], Answer));
   ("changeplan_account", (["name"], Answer))].

(** The state of the console between two turns of the loop: a login flow
    runs only while logged out, a transaction flow only while logged in,
    at one of the prompts above and with the answers of that prompt
    stored. Only an admin is asked for the holder name of a withdrawal, a
    transfer, a bill payment or a deposit; past that prompt the name is
    stored in an admin session and absent in a standard one. *)
Definition flow_ok (self : BankingConsole) : Prop :=
  match current_flow self with
  | None => True
  | Some flow =>
      (flow ∈ ["login_mode"; "login_name"] /\ is_logged_in (system self) = false)
      \/ (is_logged_in (system self) = true
          /\ exists keys holder,
              (flow, (keys, holder)) ∈ prompts
              /\ (forall k, k ∈ keys -> is_Some (flow_data self !! k))
              /\ match holder with
                 | Asking => is_admin (system self) = true
                 | Settled =>
                     if is_admin (system self)
                     then is_Some (flow_data self !! "name")
                     else flow_data self !! "name" = None
                 | Answer => True
                 end)
  end.

(** The requests that the console sends to the controller: never a login
    on its own; a transaction only while logged in; an amount that
    [parse_positive_amount] let through, or [parse_non_negative_amount]
    for a create; the holder name in an admin session and none in a
    standard session. *)
Definition console_request (s : BankingSystem) (r : Request) : Prop :=
  match r with
  | Login _ _ => False
  | Logout => True
  | Withdrawal _ amount h | Transfer _ _ amount h | Paybill _ amount _ h
  | Deposit _ amount h =>
      is_logged_in s = true /\ PrimFloat.ltb 0 amount = true
      /\ (if is_admin s then is_Some h else h = None)
  | Create _ b => is_logged_in s = true /\ PrimFloat.leb 0 b = true
  | Delete _ _ | Disable _ _ | Changeplan _ _ => is_logged_in s = true
  end.

(** What one turn of the loop does to the controller in state [s]: nothing,
    one request, or, at the end of a login flow, the load of a file that was
    read followed by the login. *)
Inductive turn_events (s : BankingSystem) : list Event -> Prop :=
| turn_nothing : turn_events s []
| turn_request r : console_request s r -> turn_events s [Call r]
| turn_login content mode user_name :
    is_logged_in s = false ->
    (mode = "admin" /\ user_name = None)
    \/ (mode = "standard" /\ exists name, user_name = Some name /\ name <> "") ->
    turn_events s [Load (FileHandler.parse_accounts_file content);
                   Call (Login mode user_name)].

(** The events of successive turns, from the controller in state [s]. *)
Inductive console_run : BankingSystem -> list Event -> Prop :=
| console_run_nil s : console_run s []
| console_run_turn s events s' rest :
    turn_events s events -> Session.run s events = Some s' ->
    console_run s' rest -> console_run s (events ++ rest)%list.

(** The transaction files of a run of events: one per accepted logout,
    made from the log as it stands then. *)
Fixpoint files_of (s : BankingSystem) (events : list Event) : list string :=
  match events with
  | [] => []
  | Load parsed :: rest => files_of (BankingSystem.load_accounts s parsed) rest
  | Call r :: rest =>
      match call s r with
      | Return s' ok _ =>
          match r with
          | Logout =>
              if ok then generate_transaction_file s' :: files_of s' rest
              else files_of s' rest
          | _ => files_of s' rest
          end
      | Raise _ => []
      end
  end.

(** Logs of which each one begins with the one before it. *)
Fixpoint increasing (logs : list (list Transaction.Transaction)) : Prop :=
  match logs with
  | log :: (next :: _) as rest => log `prefix_of` next /\ increasing rest
  | _ => True
  end.

(** The amounts of the records by code: above zero for a withdrawal, a
    transfer, a bill payment and a deposit, not below zero for a create,
    zero for the others. *)
Definition amount_ok (t : Transaction.Transaction) : Prop :=
  if bool_decide (Transaction.code t ∈ ["01"; "02"; "03"; "04"])
  then PrimFloat.ltb 0 (Transaction.amount t) = true
  else if String.eqb (Transaction.code t) "05"
  then PrimFloat.leb 0 (Transaction.amount t) = true
  else Transaction.amount t = 0%float.

End ConsoleNotions.

(** ** A sample world for the console *)

Module ConsoleFixtures.
Import BankingConsole.

(** The text of an accounts file with two accounts. *)
Definition accounts_txt : string :=
  "00001 Alice                A 01000.00" +:+ Py.nl
  +:+ "00002 Bob                  A 00050.00" +:+ Py.nl
  +:+ "END_OF_FILE" +:+ Py.nl.

(** A world with that one file, in which every write succeeds and the date
    does not change. *)
Definition sample_read (path : string) (w : unit) : (string + string) * unit :=
  (if String.eqb path "accounts.txt" then inl accounts_txt
   else inr ("[Errno 2] No such file or directory: '" +:+ path +:+ "'"), w).

Definition sample_write (content file_path : string) (w : unit)
    : option string * unit := (None, w).

Definition sample_today (w : unit) : string * unit := ("2026-01-01", w).

(** Alice logs in, withdraws 100.00, pays a bill of 5.00 and logs out. *)
Definition alice_lines : list string :=
  ["login"; "standard"; "Alice"; "accounts.txt"; "withdrawal"; "00001"; "100";
   "paybill"; "00001"; "ec"; "5"; "logout"].

(** The console waiting for the session type. *)
Definition at_login_mode : BankingConsole :=
  mkBankingConsole BankingSystem.__init__ (Some "login_mode") ∅.

End ConsoleFixtures.


(** ** The built-ins on examples *)

Module PyTests.
Import Py.

Example zfill_plain : zfill 5 "1" = "00001". Proof. reflexivity. Qed.
Example zfill_sign : zfill 5 "-1" = "-0001". Proof. reflexivity. Qed.
Example zfill_sign2 : zfill 5 "--1" = "-00-1". Proof. reflexivity. Qed.
Example zfill_long : zfill 5 "123456" = "123456". Proof. reflexivity. Qed.
Example zfill_empty : zfill 5 "" = "00000". Proof. reflexivity. Qed.
Example ljust_short : ljust 3 "a" = "a  ". Proof. reflexivity. Qed.
Example ljust_long : slice_to 2 (ljust 2 "abc") = "ab". Proof. reflexivity. Qed.
Example last2_ex : last2 "00002" = "02". Proof. reflexivity. Qed.
Example last2_short : last2 "7" = "7". Proof. reflexivity. Qed.
Example str_ex : str 8 = "8" /\ str 0 = "0" /\ str (-12) = "-12" /\ str 12345 = "12345".
Proof. repeat split; reflexivity. Qed.

Example int_ok : int "0002" = Some 2 /\ int " 12 " = Some 12 /\ int "-0" = Some 0
                 /\ int "+12" = Some 12 /\ int "1_2" = Some 12 /\ int "-7" = Some (-7).
Proof. repeat split; reflexivity. Qed.
Example int_err : int "" = None /\ int "  " = None /\ int "_12" = None
                  /\ int "12_" = None /\ int "1__2" = None /\ int "+ 12" = None
                  /\ int "1 2" = None /\ int "+-1" = None /\ int "-" = None
                  /\ int "1.0" = None /\ int "A0001" = None.
Proof. repeat split; reflexivity. Qed.

Example fmt_zero : format_2f 0 = "0.00". Proof. reflexivity. Qed.
Example fmt_500 : format_2f 500 = "500.00". Proof. reflexivity. Qed.
Example fmt_max : format_2f 99999.99 = "99999.99". Proof. reflexivity. Qed.
Example fmt_tie_even : format_2f 0.125 = "0.12" /\ format_2f 0.375 = "0.38".
Proof. split; reflexivity. Qed.
Example fmt_near_tie : format_2f 2.675 = "2.67" /\ format_2f 0.005 = "0.01"
                       /\ format_2f 1.005 = "1.00" /\ format_2f 0.995 = "0.99".
Proof. repeat split; reflexivity. Qed.
Example fmt_neg : format_2f (-0.001) = "-0.00" /\ format_2f (-0) = "-0.00"
                  /\ format_2f (-12.5) = "-12.50".
Proof. repeat split; reflexivity. Qed.
Example fmt_special : format_2f infinity = "inf" /\ format_2f neg_infinity = "-inf"
                      /\ format_2f nan = "nan".
Proof. repeat split; reflexivity. Qed.
Example fmt_big : format_2f 1e23 = "99999999999999991611392.00".
Proof. reflexivity. Qed.
Example fmt_tiny : format_2f 5e-324 = "0.00". Proof. reflexivity. Qed.

End PyTests.

(** ** The scenarios of the specification, run on the model *)

Module Scenarios.
Import Account BankingSystem Session Fixtures.

Example withdraw_500 :
  forall s, run __init__ alice_session = Some s ->
    call s (Withdrawal "00001" 500 None)
    = Return (mkBankingSystem [mkAccount "00001" "Alice" "A" 500]
                [Transaction.mkTransaction "01" "Alice" "00001" 500 "  "]
                true false (Some "Alice") 500 0 0)
        true "Withdrawal of $500.00 successful. New balance: $500.00".
Proof. intros s [= <-]. reflexivity. Qed.

Example withdraw_over_cap :
  forall s, run __init__ (alice_session ++ [Call (Withdrawal "00001" 500 None)]) = Some s ->
    call s (Withdrawal "00001" 1 None)
    = Return s false "Maximum withdrawal per session is $500.00.".
Proof. intros s [= <-]. reflexivity. Qed.

Example disabled_then_withdraw :
  forall s,
    run __init__ [Load [alice]; Call (Login "admin" None);
              Call (Disable "Alice" "00001"); Call Logout;
              Call (Login "standard" (Some "Alice"))] = Some s ->
    call s (Withdrawal "00001" 10 None) = Return s false "Account is disabled.".
Proof. intros s [= <-]. reflexivity. Qed.

Example create_is_deferred :
  forall s,
    run __init__ [Load [mkAccount "00007" "Carol" "A" 10]; Call (Login "admin" None);
              Call (Create "Bob" 50000)] = Some s ->
    transactions s = [Transaction.mkTransaction "05" "Bob" "00008" 50000 "  "]
    /\ find_account_by_number s "00008" = None.
Proof. intros s [= <-]. split; reflexivity. Qed.

Example transfer_300 :
  forall s,
    run __init__ [Load [mkAccount "00001" "Alice" "A" 500; bob];
              Call (Login "standard" (Some "Alice"));
              Call (Transfer "00001" "00002" 300 None)] = Some s ->
    accounts s = [mkAccount "00001" "Alice" "A" 200; mkAccount "00002" "Bob" "A" 350]
    /\ transactions s = [Transaction.mkTransaction "02" "Alice" "00001" 300 "02"].
Proof. intros s [= <-]. split; reflexivity. Qed.

Example transaction_file :
  forall s,
    run __init__ [Load [alice]; Call (Login "standard" (Some "Alice"));
              Call (Withdrawal "00001" 12.5 None)] = Some s ->
    generate_transaction_file s
    = "01 Alice                00001 00012.50  " +:+ Py.nl
      +:+ "00                      00000 00000.00  " +:+ Py.nl.
Proof. intros s [= <-]. reflexivity. Qed.

End Scenarios.

(** ** Facts about the built-ins: printing and parsing integers *)

Module PyFacts.
Import Py.

(** The string of the digits of [d], most significant first. *)
Abbreviation digits_string := NilEmpty.string_of_uint.

Lemma int_digits_after_digit d : int_digits true (digits_string d) = Some d.
Proof. induction d; simpl; rewrite ?IHd; reflexivity. Qed.

Lemma int_digits_digits_string d :
  d <> Decimal.Nil -> int_digits false (digits_string d) = Some d.
Proof. destruct d; [done|..]; intros _; simpl; by rewrite int_digits_after_digit. Qed.

Lemma lstrip_digits_string d : lstrip (digits_string d) = digits_string d.
Proof. by destruct d. Qed.

Lemma rstrip_digits_string d : rstrip (digits_string d) = digits_string d.
Proof.
  induction d; [done|..]; simpl; rewrite IHd; by destruct (digits_string d).
Qed.

(** [int] reads back a string of digits. *)
Lemma int_digits_string d :
  d <> Decimal.Nil -> int (digits_string d) = Some (Z.of_N (N.of_uint d)).
Proof.
  intros Hd. unfold int, strip.
  rewrite lstrip_digits_string, rstrip_digits_string.
  pose proof (int_digits_digits_string d Hd) as H.
  destruct d; [done|..]; simpl in *; by rewrite H.
Qed.

Lemma zeros_digits_string k d :
  replicate_char k "0" +:+ digits_string d = digits_string (Nat.iter k Decimal.D0 d).
Proof.
  induction k; [done|].
  change (String "0" (replicate_char k "0" +:+ digits_string d)
          = String "0" (digits_string (Nat.iter k Decimal.D0 d))).
  by f_equal.
Qed.

Lemma of_uint_leading_zeros k d :
  N.of_uint (Nat.iter k Decimal.D0 d) = N.of_uint d.
Proof. induction k; simpl; [done|]. exact IHk. Qed.

Lemma iter_D0_nonnil k d : d <> Decimal.Nil -> Nat.iter k Decimal.D0 d <> Decimal.Nil.
Proof. destruct k; simpl; [done|]. discriminate. Qed.

(** Zero-filling a string of digits prepends zeros (there is no sign to keep
    in front). *)
Lemma zfill_digits_string w d :
  d <> Decimal.Nil ->
  zfill w (digits_string d)
  = digits_string (Nat.iter (w - String.length (digits_string d)) Decimal.D0 d).
Proof.
  intros Hd. rewrite <- zeros_digits_string. unfold zfill.
  destruct d; [done|..]; reflexivity.
Qed.

Lemma to_uint_nonnil n : N.to_uint n <> Decimal.Nil.
Proof. destruct n; simpl; [discriminate|]. apply DecimalPos.Unsigned.to_uint_nonnil. Qed.

Lemma str_N_digits n : str_N n = digits_string (N.to_uint n).
Proof.
  unfold str_N, NilZero.string_of_uint.
  pose proof (to_uint_nonnil n). by destruct (N.to_uint n).
Qed.

(** [str(z).zfill(w)] is a non-empty string of digits for a natural number [z]. *)
Lemma zfill_str_digits w z :
  0 <= z -> exists d, d <> Decimal.Nil /\ zfill w (str z) = digits_string d.
Proof.
  intros Hz. unfold str. destruct (Z.ltb_spec z 0) as [|_]; [lia|].
  rewrite str_N_digits, zfill_digits_string by apply to_uint_nonnil.
  eexists. split; [|reflexivity]. apply iter_D0_nonnil, to_uint_nonnil.
Qed.

(** [int(str(z).zfill(w)) == z] for a natural number [z]. *)
Lemma int_zfill_str w z : 0 <= z -> int (zfill w (str z)) = Some z.
Proof.
  intros Hz. unfold str. destruct (Z.ltb_spec z 0) as [|_]; [lia|].
  rewrite str_N_digits, zfill_digits_string by apply to_uint_nonnil.
  rewrite int_digits_string by (apply iter_D0_nonnil, to_uint_nonnil).
  rewrite of_uint_leading_zeros, DecimalN.Unsigned.of_to. f_equal. lia.
Qed.

End PyFacts.

(** ** Facts about the comparisons of floats *)

Module FloatFacts.

(** Swapping the arguments of the comparison of two binary64 values swaps
    its answer. *)
Lemma SFcompare_swap (f1 f2 : spec_float) :
  SFcompare f2 f1 = option_map CompOpp (SFcompare f1 f2).
Proof.
  destruct f1 as [s1|s1| |s1 m1 e1], f2 as [s2|s2| |s2 m2 e2]; simpl;
    try done; try (by destruct s1); try (by destruct s2);
    try (by destruct s1, s2).
  change (PosDef.Pos.compare_cont Eq m2 m1) with (Pos.compare m2 m1).
  change (PosDef.Pos.compare_cont Eq m1 m2) with (Pos.compare m1 m2).
  rewrite (Z.compare_antisym e1 e2), (Pos.compare_antisym m1 m2).
  by destruct s1, s2, (e1 ?= e2); simpl; try destruct (m1 ?= m2)%positive.
Qed.

Lemma not_nan_Prim2SF (x : float) : is_nan x = false -> Prim2SF x <> S754_nan.
Proof.
  unfold is_nan. rewrite FloatAxioms.eqb_spec. intros H Hnan.
  rewrite Hnan in H. discriminate H.
Qed.

(** Between two numbers, "not greater" is "less or equal". *)
Lemma not_gt_le (x y : float) :
  is_nan x = false -> is_nan y = false ->
  PrimFloat.ltb y x = false -> PrimFloat.leb x y = true.
Proof.
  intros Hx%not_nan_Prim2SF Hy%not_nan_Prim2SF.
  rewrite FloatAxioms.ltb_spec, FloatAxioms.leb_spec. unfold SFltb, SFleb.
  rewrite (SFcompare_swap (Prim2SF x) (Prim2SF y)).
  destruct (Prim2SF x) as [s1|s1| |s1 m1 e1] eqn:Ex; [..|done|];
    (destruct (Prim2SF y) as [s2|s2| |s2 m2 e2] eqn:Ey; [..|done|]);
    simpl; repeat case_match; simplify_eq; done.
Qed.

End FloatFacts.

(** ** Facts about the validators *)

Module ValidatorFacts.
Import Account Validator.

(** Destructs the tests of a validator's body, one after the other. *)
Ltac validator_cases :=
  repeat match goal with
    | |- context [match ?o with Some _ => _ | None => _ end] => destruct o
    | |- context [if ?b then _ else _] => destruct b eqn:?
    end.

(** No validator ever answers with the empty message, which the
    controllers' [if error:] would take for "no error". *)
Lemma validate_withdrawal_nonempty account amount is_admin total :
  validate_withdrawal account amount is_admin total <> Some "".
Proof. unfold validate_withdrawal. validator_cases; discriminate. Qed.

Lemma validate_transfer_nonempty source target amount is_admin total :
  validate_transfer source target amount is_admin total <> Some "".
Proof. unfold validate_transfer. validator_cases; discriminate. Qed.

Lemma validate_paybill_nonempty account amount company is_admin total :
  validate_paybill account amount company is_admin total <> Some "".
Proof. unfold validate_paybill. validator_cases; discriminate. Qed.

Lemma validate_deposit_nonempty account amount :
  validate_deposit account amount <> Some "".
Proof. unfold validate_deposit. validator_cases; discriminate. Qed.

Lemma validate_create_nonempty holder_name initial_balance account_exists :
  validate_create holder_name initial_balance account_exists <> Some "".
Proof. unfold validate_create. validator_cases; discriminate. Qed.

Lemma validate_account_exists_nonempty account :
  validate_account_exists account <> Some "".
Proof. unfold validate_account_exists. validator_cases; discriminate. Qed.

Lemma validate_disable_nonempty account :
  validate_disable account <> Some "".
Proof. unfold validate_disable. validator_cases; discriminate. Qed.

(** What an accepted request has passed. *)
Lemma validate_withdrawal_None account amount is_admin total :
  validate_withdrawal account amount is_admin total = None ->
  exists a, account = Some a
    /\ is_disabled a = false
    /\ PrimFloat.leb amount 0 = false
    /\ (is_admin = false ->
        PrimFloat.ltb MAX_WITHDRAWAL_STANDARD (PrimFloat.add total amount) = false)
    /\ PrimFloat.ltb (balance a) amount = false.
Proof.
  unfold validate_withdrawal, get_balance.
  destruct account as [a|]; [|discriminate].
  destruct (is_disabled a) eqn:?; [discriminate|].
  destruct (PrimFloat.leb amount 0) eqn:?; [discriminate|].
  destruct is_admin; simpl; repeat case_match; try discriminate;
    intros _; exists a; repeat split; auto; intros; discriminate.
Qed.

Lemma validate_transfer_None source target amount is_admin total :
  validate_transfer source target amount is_admin total = None ->
  exists a b, source = Some a /\ target = Some b
    /\ is_disabled a = false /\ is_disabled b = false
    /\ PrimFloat.leb amount 0 = false
    /\ (is_admin = false ->
        PrimFloat.ltb MAX_TRANSFER_STANDARD (PrimFloat.add total amount) = false)
    /\ PrimFloat.ltb (balance a) amount = false.
Proof.
  unfold validate_transfer, get_balance.
  destruct source as [a|]; [|discriminate].
  destruct target as [b|]; [|discriminate].
  destruct (is_disabled a) eqn:?; [discriminate|].
  destruct (is_disabled b) eqn:?; [discriminate|]. simpl.
  destruct (PrimFloat.leb amount 0) eqn:?; [discriminate|].
  destruct is_admin; simpl; repeat case_match; try discriminate;
    intros _; exists a, b; repeat split; auto; intros; discriminate.
Qed.

Lemma validate_paybill_None account amount company is_admin total :
  validate_paybill account amount company is_admin total = None ->
  exists a, account = Some a
    /\ is_disabled a = false
    /\ company ∈ VALID_COMPANIES
    /\ PrimFloat.leb amount 0 = false
    /\ (is_admin = false ->
        PrimFloat.ltb MAX_PAYBILL_STANDARD (PrimFloat.add total amount) = false)
    /\ PrimFloat.ltb (balance a) amount = false.
Proof.
  unfold validate_paybill, get_balance.
  destruct account as [a|]; [|discriminate].
  destruct (is_disabled a) eqn:?; [discriminate|].
  destruct (bool_decide (company ∈ VALID_COMPANIES)) eqn:Hc; [|discriminate].
  apply bool_decide_eq_true in Hc. simpl.
  destruct (PrimFloat.leb amount 0) eqn:?; [discriminate|].
  destruct is_admin; simpl; repeat case_match; try discriminate;
    intros _; exists a; repeat split; auto; intros; discriminate.
Qed.

Lemma validate_disable_None account :
  validate_disable account = None ->
  exists a, account = Some a /\ is_disabled a = false.
Proof.
  unfold validate_disable. destruct account as [a|]; [|discriminate].
  destruct (is_disabled a) eqn:E; [discriminate|]. eauto.
Qed.

End ValidatorFacts.

(** ** Facts about the controller *)

Module ControllerFacts.
Import Account Validator ValidatorFacts BankingSystem Session Notions.

Lemma fmap_snd_Some {A B} (o : option (A * B)) (b : B) :
  snd <$> o = Some b -> exists a, o = Some (a, b).
Proof. destruct o as [[a b']|]; simpl; [intros [= ->]; eauto | discriminate]. Qed.

(** Splits on the answer of a validator: an error message, the empty
    message (which no validator gives), or no error. *)
Ltac on_validation H :=
  match goal with
  | |- context [match ?v with Some _ => _ | None => _ end] =>
      destruct v as [[|? ?]|] eqn:H
  end.

Lemma process_withdrawal_success self n amount h self' message :
  process_withdrawal self n amount h = Return self' true message ->
  is_logged_in self = true
  /\ exists i a,
      find_user_account self (acting_owner self h) n = Some (i, a)
      /\ is_disabled a = false
      /\ PrimFloat.leb amount 0 = false
      /\ (is_admin self = false ->
          PrimFloat.ltb MAX_WITHDRAWAL_STANDARD
            (PrimFloat.add (session_withdrawals self) amount) = false)
      /\ PrimFloat.ltb (balance a) amount = false
      /\ self' = accepted self
                   (alter (fun a => snd (withdraw a amount)) i (accounts self))
                   (Transaction.create_withdrawal
                      (owner_name (acting_owner self h)) n amount)
                   (PrimFloat.add (session_withdrawals self) amount)
                   (session_transfers self) (session_paybills self).
Proof.
  unfold process_withdrawal.
  destruct (is_logged_in self) eqn:Hin; simpl; [|discriminate].
  on_validation Hv; try discriminate.
  - by apply validate_withdrawal_nonempty in Hv.
  - apply validate_withdrawal_None in Hv as (a & Ha & Hd & Hpos & Hcap & Hbal).
    apply fmap_snd_Some in Ha as [i ->].
    intros [= <- _]. split; [done|]. exists i, a. unfold accepted. rewrite Hin. by repeat split.
Qed.

Lemma process_transfer_success self n1 n2 amount h self' message :
  process_transfer self n1 n2 amount h = Return self' true message ->
  is_logged_in self = true
  /\ exists i a j b,
      find_user_account self (acting_owner self h) n1 = Some (i, a)
      /\ find_account_by_number self n2 = Some (j, b)
      /\ is_disabled a = false /\ is_disabled b = false
      /\ PrimFloat.leb amount 0 = false
      /\ (is_admin self = false ->
          PrimFloat.ltb MAX_TRANSFER_STANDARD
            (PrimFloat.add (session_transfers self) amount) = false)
      /\ PrimFloat.ltb (balance a) amount = false
      /\ self' = accepted self
                   (alter (fun a => deposit a amount) j
                      (alter (fun a => snd (withdraw a amount)) i (accounts self)))
                   (Transaction.create_transfer
                      (owner_name (acting_owner self h)) n1 n2 amount)
                   (session_withdrawals self)
                   (PrimFloat.add (session_transfers self) amount)
                   (session_paybills self).
Proof.
  unfold process_transfer.
  destruct (is_logged_in self) eqn:Hin; simpl; [|discriminate].
  on_validation Hv; try discriminate.
  - by apply validate_transfer_nonempty in Hv.
  - apply validate_transfer_None
      in Hv as (a & b & Ha & Hb & Hda & Hdb & Hpos & Hcap & Hbal).
    apply fmap_snd_Some in Ha as [i ->]. apply fmap_snd_Some in Hb as [j ->].
    intros [= <- _]. split; [done|]. exists i, a, j, b.
    unfold accepted. rewrite Hin. by repeat split.
Qed.

Lemma process_paybill_success self n amount company h self' message :
  process_paybill self n amount company h = Return self' true message ->
  is_logged_in self = true
  /\ exists i a,
      find_user_account self (acting_owner self h) n = Some (i, a)
      /\ is_disabled a = false
      /\ company ∈ VALID_COMPANIES
      /\ PrimFloat.leb amount 0 = false
      /\ (is_admin self = false ->
          PrimFloat.ltb MAX_PAYBILL_STANDARD
            (PrimFloat.add (session_paybills self) amount) = false)
      /\ PrimFloat.ltb (balance a) amount = false
      /\ self' = accepted self
                   (alter (fun a => snd (withdraw a amount)) i (accounts self))
                   (Transaction.create_paybill
                      (owner_name (acting_owner self h)) n amount company)
                   (session_withdrawals self) (session_transfers self)
                   (PrimFloat.add (session_paybills self) amount).
Proof.
  unfold process_paybill.
  destruct (is_logged_in self) eqn:Hin; simpl; [|discriminate].
  on_validation Hv; try discriminate.
  - by apply validate_paybill_nonempty in Hv.
  - apply validate_paybill_None in Hv as (a & Ha & Hd & Hc & Hpos & Hcap & Hbal).
    apply fmap_snd_Some in Ha as [i ->].
    intros [= <- _]. split; [done|]. exists i, a. unfold accepted. rewrite Hin. by repeat split.
Qed.

Lemma process_deposit_success self n amount h self' message :
  process_deposit self n amount h = Return self' true message ->
  is_logged_in self = true
  /\ self' = recorded self
               (Transaction.create_deposit (owner_name (acting_owner self h)) n amount).
Proof.
  unfold process_deposit.
  destruct (is_logged_in self) eqn:Hin; simpl; [|discriminate].
  on_validation Hv; try discriminate; intros [= <- _];
    unfold recorded, accepted; by rewrite ?Hin, ?Hadm.
Qed.

Lemma process_create_success self h b self' message :
  process_create self h b = Return self' true message ->
  is_logged_in self = true /\ is_admin self = true
  /\ self' = recorded self
               (Transaction.create_account h (_generate_account_number self) b).
Proof.
  unfold process_create.
  destruct (is_logged_in self) eqn:Hin; simpl; [|discriminate].
  destruct (is_admin self) eqn:Hadm; simpl; [|discriminate].
  on_validation Hv; try discriminate; intros [= <- _];
    unfold recorded, accepted; by rewrite ?Hin, ?Hadm.
Qed.

Lemma process_delete_success self h n self' message :
  process_delete self h n = Return self' true message ->
  is_logged_in self = true /\ is_admin self = true
  /\ self' = accepted self
               (filter (fun a => ~ (get_holder_name a = h
                                    /\ get_account_number a = n)) (accounts self))
               (Transaction.create_delete h n)
               (session_withdrawals self) (session_transfers self)
               (session_paybills self).
Proof.
  unfold process_delete.
  destruct (is_logged_in self) eqn:Hin; simpl; [|discriminate].
  destruct (is_admin self) eqn:Hadm; simpl; [|discriminate].
  on_validation Hv; try discriminate; intros [= <- _];
    unfold recorded, accepted; by rewrite ?Hin, ?Hadm.
Qed.

Lemma process_disable_success self h n self' message :
  process_disable self h n = Return self' true message ->
  is_logged_in self = true /\ is_admin self = true
  /\ exists i a,
      find_user_account self (Some h) n = Some (i, a)
      /\ is_disabled a = false
      /\ self' = accepted self (alter disable i (accounts self))
                   (Transaction.create_disable h n)
                   (session_withdrawals self) (session_transfers self)
                   (session_paybills self).
Proof.
  unfold process_disable.
  destruct (is_logged_in self) eqn:Hin; simpl; [|discriminate].
  destruct (is_admin self) eqn:Hadm; simpl; [|discriminate].
  on_validation Hv; try discriminate.
  - by apply validate_disable_nonempty in Hv.
  - apply validate_disable_None in Hv as (a & Ha & Hd).
    apply fmap_snd_Some in Ha as [i ->].
    intros [= <- _]. repeat split; try done. exists i, a.
    unfold accepted. by rewrite Hin, Hadm.
Qed.

Lemma process_changeplan_success self h n self' message :
  process_changeplan self h n = Return self' true message ->
  is_logged_in self = true /\ is_admin self = true
  /\ self' = recorded self (Transaction.create_changeplan h n).
Proof.
  unfold process_changeplan.
  destruct (is_logged_in self) eqn:Hin; simpl; [|discriminate].
  destruct (is_admin self) eqn:Hadm; simpl; [|discriminate].
  on_validation Hv; try discriminate; intros [= <- _];
    unfold recorded, accepted; by rewrite ?Hin, ?Hadm.
Qed.

Lemma process_login_success self mode user_name self' message :
  process_login self mode user_name = Return self' true message ->
  is_logged_in self = false
  /\ exists admin user,
      self' = mkBankingSystem (accounts self) (transactions self) true admin
                (Some user) (session_withdrawals self) (session_transfers self)
                (session_paybills self).
Proof.
  unfold process_login.
  destruct (is_logged_in self) eqn:Hin; [discriminate|].
  repeat case_match; try discriminate; intros [= <- _]; split; eauto.
Qed.

Lemma process_logout_success self self' message :
  process_logout self = Return self' true message ->
  is_logged_in self = true
  /\ self' = mkBankingSystem (accounts self) (transactions self) false false
               None 0 0 0.
Proof.
  unfold process_logout.
  destruct (is_logged_in self) eqn:Hin; simpl; [|discriminate].
  by intros [= <- _].
Qed.

(** A call that reports failure has returned before touching anything. *)
Lemma call_failure self r self' message :
  call self r = Return self' false message -> self' = self.
Proof.
  destruct r; simpl;
    unfold process_login, process_logout, process_withdrawal, process_transfer,
      process_paybill, process_deposit, process_create, process_delete,
      process_disable, process_changeplan;
    repeat case_match; try discriminate; by intros [= <- _].
Qed.

(** No call raises: past validation the looked-up accounts are there. *)
Ltac found_account Hv lem :=
  apply lem in Hv as (? & Ha & _);
  apply fmap_snd_Some in Ha as [? Hi]; rewrite Hi; by eauto.

Lemma call_returns self r :
  exists self' success message, call self r = Return self' success message.
Proof.
  destruct r; simpl;
    unfold process_login, process_logout, process_withdrawal, process_transfer,
      process_paybill, process_deposit, process_create, process_delete,
      process_disable, process_changeplan;
    repeat (match goal with
            | |- context [if ?b then _ else _] => destruct b eqn:?
            end; simpl); eauto;
    try (on_validation Hv; eauto);
    try (repeat case_match; by eauto).
  all: try by (apply validate_withdrawal_nonempty in Hv
               || apply validate_transfer_nonempty in Hv
               || apply validate_paybill_nonempty in Hv
               || apply validate_disable_nonempty in Hv).
  all: try (found_account Hv validate_withdrawal_None).
  all: try (found_account Hv validate_paybill_None).
  all: try (found_account Hv validate_disable_None).
  all: apply validate_transfer_None in Hv as (a & b & Ha & Hb & _);
    apply fmap_snd_Some in Ha as [i Hi]; apply fmap_snd_Some in Hb as [j Hj];
    rewrite Hi, Hj; by eauto.
Qed.

(** The lookups return an object of the list, at its position. *)
Lemma find_user_account_lookup self holder_name n i a :
  find_user_account self holder_name n = Some (i, a) ->
  accounts self !! i = Some a
  /\ Some (get_holder_name a) = holder_name /\ get_account_number a = n.
Proof.
  unfold find_user_account. intros H.
  apply list_find_Some in H as (Hl & [Hh Hn] & _). by repeat split.
Qed.

Lemma find_account_by_number_lookup self n j b :
  find_account_by_number self n = Some (j, b) ->
  accounts self !! j = Some b /\ get_account_number b = n.
Proof.
  unfold find_account_by_number. intros H.
  by apply list_find_Some in H as (Hl & Hn & _).
Qed.

(** A withdrawal that the balance covers subtracts the amount. *)
Lemma withdraw_covered a amount :
  PrimFloat.ltb (balance a) amount = false ->
  withdraw a amount = (true, set_balance a (PrimFloat.sub (balance a) amount)).
Proof. unfold withdraw. by intros ->. Qed.

Lemma run_reachable events : forall self self',
  reachable self -> run self events = Some self' -> reachable self'.
Proof.
  induction events as [|[parsed|r] rest IH]; simpl; intros self self' Hr Hrun.
  - by injection Hrun as <-.
  - eapply IH; [|done]. by constructor.
  - destruct (call self r) eqn:Hc; [|discriminate].
    eapply IH; [|done]. by econstructor.
Qed.

End ControllerFacts.

(** ** Account-number generation *)

Module AccountNumbers.
Import Account BankingSystem Notions.

Lemma max_account_number_fold accounts :
  max_account_number accounts = fold_left keep_max accounts 0.
Proof. reflexivity. Qed.

Lemma keep_max_ge m a : m <= keep_max m a.
Proof. unfold keep_max. repeat case_match; lia. Qed.

Lemma fold_keep_max_ge accounts : forall m, m <= fold_left keep_max accounts m.
Proof.
  induction accounts as [|a rest IH]; simpl; intros m; [lia|].
  specialize (IH (keep_max m a)). pose proof (keep_max_ge m a). lia.
Qed.

(** The loop ends on a number at least as large as every account number
    that parses. *)
Lemma fold_keep_max_bounds accounts : forall m a value,
  a ∈ accounts -> Py.int (get_account_number a) = Some value ->
  value <= fold_left keep_max accounts m.
Proof.
  induction accounts as [|b rest IH]; simpl; intros m a value Hin Hint.
  - by apply elem_of_nil in Hin.
  - apply elem_of_cons in Hin as [->|Hin]; [|by eapply IH].
    pose proof (fold_keep_max_ge rest (keep_max m b)) as Hge.
    assert (value <= keep_max m b); [|lia].
    unfold keep_max. rewrite Hint. case_match; lia.
Qed.

Lemma max_account_number_nonneg accounts : 0 <= max_account_number accounts.
Proof. rewrite max_account_number_fold. apply fold_keep_max_ge. Qed.

(** The generated number reads back as the maximum plus one. *)
Lemma generated_number_value self :
  Py.int (_generate_account_number self) = Some (max_account_number (accounts self) + 1).
Proof.
  unfold _generate_account_number. apply PyFacts.int_zfill_str.
  pose proof (max_account_number_nonneg (accounts self)). lia.
Qed.

Lemma generated_number_digits self :
  exists d, d <> Decimal.Nil
            /\ _generate_account_number self = PyFacts.digits_string d.
Proof.
  unfold _generate_account_number. apply PyFacts.zfill_str_digits.
  pose proof (max_account_number_nonneg (accounts self)). lia.
Qed.

Lemma generated_number_fresh self a :
  a ∈ accounts self -> get_account_number a <> _generate_account_number self.
Proof.
  intros Hin Heq.
  pose proof (generated_number_value self) as Hv. rewrite <- Heq in Hv.
  apply (fold_keep_max_bounds _ 0 _ _ Hin) in Hv.
  rewrite <- max_account_number_fold in Hv. lia.
Qed.

Lemma generated_number_not_found self :
  find_account_by_number self (_generate_account_number self) = None.
Proof.
  unfold find_account_by_number. apply list_find_None, Forall_forall.
  intros a Hin. by apply generated_number_fresh.
Qed.

End AccountNumbers.

(** ** Invariants of the reachable states *)

Module Invariants.
Import Account Validator ValidatorFacts BankingSystem Session Notions ControllerFacts.

(** Inverts an accepted call into the facts of the matching
    [process_*_success] lemma. *)
Ltac invert_accepted H :=
  match type of H with
  | call _ ?r = _ =>
      destruct r; simpl in H;
      [ apply process_login_success in H as (Hin & admin & user & ->)
      | apply process_logout_success in H as (Hin & ->)
      | apply process_withdrawal_success in H
          as (Hin & i & a & Hfind & Hdis & Hpos & Hcap & Hbal & ->)
      | apply process_transfer_success in H
          as (Hin & i & a & j & b & Hfind & Hfind' & Hdis & Hdis' & Hpos & Hcap
              & Hbal & ->)
      | apply process_paybill_success in H
          as (Hin & i & a & Hfind & Hdis & Hcomp & Hpos & Hcap & Hbal & ->)
      | apply process_deposit_success in H as (Hin & ->)
      | apply process_create_success in H as (Hin & Hadm & ->)
      | apply process_delete_success in H as (Hin & Hadm & ->)
      | apply process_disable_success in H
          as (Hin & Hadm & i & a & Hfind & Hdis & ->)
      | apply process_changeplan_success in H as (Hin & Hadm & ->) ]
  end.

(** While nobody is logged in, the three totals are zero: [__init__] and
    [process_logout] zero them, and only accepted withdrawals, transfers
    and bill payments, which need a login, change them. *)
Lemma logged_out_totals_zero self :
  reachable self -> is_logged_in self = false -> totals_zero self.
Proof.
  induction 1 as [|self parsed Hr IH|self r self' success message Hr IH Hcall].
  - by repeat split.
  - exact IH.
  - destruct success; [|apply call_failure in Hcall as ->; exact IH].
    invert_accepted Hcall; unfold accepted, recorded, totals_zero; simpl;
      intros Hout; try congruence. by repeat split.
Qed.

(** In a standard session no total is above its cap. *)
Lemma standard_session_within_caps self :
  reachable self -> is_logged_in self = true -> is_admin self = false ->
  within_caps self.
Proof.
  induction 1 as [|self parsed Hr IH|self r self' success message Hr IH Hcall].
  - discriminate.
  - exact IH.
  - destruct success; [|apply call_failure in Hcall as ->; exact IH].
    invert_accepted Hcall; unfold accepted, recorded, within_caps in *; simpl;
      intros Hlog Hstd; try discriminate; try (by apply IH);
      try (destruct (IH Hin Hstd) as (Hw & Ht & Hp); by auto).
    apply logged_out_totals_zero in Hin as (-> & -> & ->); [|done].
    by repeat split.
Qed.

(** The log only holds records written by the operations. *)
Lemma log_has_operation_codes self :
  reachable self ->
  Forall (fun t => Transaction.code t ∈ operation_codes) (transactions self).
Proof.
  induction 1 as [|self parsed Hr IH|self r self' success message Hr IH Hcall].
  - constructor.
  - exact IH.
  - destruct success; [|apply call_failure in Hcall as ->; exact IH].
    invert_accepted Hcall; unfold accepted, recorded; simpl; try exact IH;
      (apply Forall_app; split; [exact IH|]);
      repeat constructor; simpl; by apply (bool_decide_unpack _).
Qed.

End Invariants.

(** ** Facts about the transaction file *)

Module FileFacts.
Import Notions.

Lemma append_cons (c : ascii) (s1 s2 : string) :
  String c s1 +:+ s2 = String c (s1 +:+ s2).
Proof. reflexivity. Qed.

Lemma append_assoc (s1 s2 s3 : string) : (s1 +:+ s2) +:+ s3 = s1 +:+ (s2 +:+ s3).
Proof. induction s1 as [|c s1 IH]; [done|]. rewrite !append_cons. by f_equal. Qed.

Lemma append_empty_r (s : string) : s +:+ "" = s.
Proof. induction s as [|c s IH]; [done|]. rewrite append_cons. by f_equal. Qed.

Lemma count_nl_append (s1 s2 : string) :
  count_nl (s1 +:+ s2) = (count_nl s1 + count_nl s2)%nat.
Proof.
  induction s1 as [|c s1 IH]; [done|]. rewrite append_cons. simpl. rewrite IH. lia.
Qed.

(** Joining with line feeds and adding a final one terminates every line. *)
Lemma join_newline_terminated (lines : list string) :
  lines <> [] -> Py.join Py.nl lines +:+ Py.nl = newline_terminated lines.
Proof.
  induction lines as [|x rest IH]; [done|]. intros _.
  destruct rest as [|y rest].
  - simpl. by rewrite append_empty_r.
  - change (Py.join Py.nl (x :: y :: rest))
      with (x +:+ Py.nl +:+ Py.join Py.nl (y :: rest)).
    rewrite !append_assoc, IH by done. reflexivity.
Qed.

Lemma count_nl_newline_terminated (lines : list string) :
  Forall (fun line => count_nl line = 0%nat) lines ->
  count_nl (newline_terminated lines) = length lines.
Proof.
  induction 1 as [|x rest Hx _ IH]; simpl; [done|].
  rewrite !count_nl_append, Hx, IH. reflexivity.
Qed.

Lemma generate_transaction_file_lines (transactions : list Transaction.Transaction) :
  FileHandler.generate_transaction_file transactions
  = newline_terminated
      (map Transaction.to_file_string
         (transactions ++ [Transaction.create_end_session])).
Proof.
  unfold FileHandler.generate_transaction_file.
  rewrite join_newline_terminated, map_app; [done|].
  by destruct (map Transaction.to_file_string transactions).
Qed.

End FileFacts.

(** ** Facts about the example states, and about transfers within one account *)

Module SessionFacts.
Import Account Validator BankingSystem Session Notions Fixtures ControllerFacts.

Lemma alice_after_withdrawal_reachable : reachable alice_after_withdrawal.
Proof.
  apply (run_reachable
           (alice_session ++ [Call (Withdrawal "00001" 500 None)])
           __init__); [constructor | reflexivity].
Qed.

Lemma alice_500_reachable : reachable alice_500.
Proof.
  apply (run_reachable
           [Load [mkAccount "00001" "Alice" "A" 500];
            Call (Login "standard" (Some "Alice"))] __init__);
    [constructor | reflexivity].
Qed.

Lemma after_first_session_reachable : reachable after_first_session.
Proof.
  apply (run_reachable
           [Call (Login "admin" None); Call (Create "Bob" 100); Call Logout] __init__);
    [constructor | reflexivity].
Qed.

(** An admin session goes past the standard caps: 600.00 withdrawn at once,
    and the running total stands at 600.00. *)
Example admin_is_not_capped :
  forall s,
    run __init__ [Load [alice]; Call (Login "admin" None);
              Call (Withdrawal "00001" 600 (Some "Alice"))] = Some s ->
    session_withdrawals s = 600%float
    /\ PrimFloat.ltb MAX_WITHDRAWAL_STANDARD (session_withdrawals s) = true.
Proof. intros s [= <-]. split; reflexivity. Qed.

(** The same account as source and destination: the amount is taken off and
    put back. *)
Lemma transfer_within_one_account self n1 n2 amount h self' message i a b :
  process_transfer self n1 n2 amount h = Return self' true message ->
  find_user_account self (acting_owner self h) n1 = Some (i, a) ->
  find_account_by_number self n2 = Some (i, b) ->
  accounts self' !! i
  = Some (set_balance a (PrimFloat.add (PrimFloat.sub (balance a) amount) amount)).
Proof.
  intros Hcall Hsrc Htgt.
  apply process_transfer_success in Hcall
    as (_ & i' & a' & j' & b' & Hsrc' & Htgt' & _ & _ & _ & _ & Hbal & ->).
  rewrite Hsrc in Hsrc'. injection Hsrc' as <- <-.
  rewrite Htgt in Htgt'. injection Htgt' as <- <-.
  apply find_user_account_lookup in Hsrc as (Hl & _). simpl.
  rewrite !list_lookup_alter_eq, Hl. simpl. by rewrite withdraw_covered.
Qed.

(** An amount that is not a number passes every comparison of the
    validator ([nan <= 0], [total + nan > 500.00] and [balance < nan] are all
    false): the withdrawal is accepted, and balance and running total are
    not numbers afterwards. The running total is then not above the cap,
    and not below it either. *)
Example nan_amount_is_accepted :
  call alice_500 (Withdrawal "00001" nan None)
  = Return (mkBankingSystem [mkAccount "00001" "Alice" "A" nan]
              [Transaction.mkTransaction "01" "Alice" "00001" nan "  "]
              true false (Some "Alice") nan 0 0)
      true "Withdrawal of $nan successful. New balance: $nan"
  /\ PrimFloat.ltb MAX_WITHDRAWAL_STANDARD nan = false
  /\ PrimFloat.leb nan MAX_WITHDRAWAL_STANDARD = false.
Proof. repeat split; reflexivity. Qed.

End SessionFacts.

(** ** Admin sessions and the caps *)

Module AdminFacts.
Import Account Validator ValidatorFacts BankingSystem Session Notions ControllerFacts.

Lemma acting_owner_admin self h : is_admin self = true -> acting_owner self h = h.
Proof. unfold acting_owner. by intros ->. Qed.

(** What decides an admin's withdrawal: the account, its status, the sign
    of the amount and the balance. The running total is not among them. *)
Lemma admin_withdrawal_accepted self n amount h :
  is_logged_in self = true -> is_admin self = true ->
  (exists self' message,
     process_withdrawal self n amount h = Return self' true message)
  <-> (exists i a,
         find_user_account self h n = Some (i, a)
         /\ is_disabled a = false /\ PrimFloat.leb amount 0 = false
         /\ PrimFloat.ltb (balance a) amount = false).
Proof.
  intros Hin Hadm. split.
  - intros (self' & message & Hcall).
    apply process_withdrawal_success in Hcall
      as (_ & i & a & Hfind & Hdis & Hpos & _ & Hbal & _).
    rewrite acting_owner_admin in Hfind by done. by exists i, a.
  - intros (i & a & Hfind & Hdis & Hpos & Hbal).
    unfold process_withdrawal. rewrite Hin, acting_owner_admin, Hfind by done.
    unfold validate_withdrawal, get_balance. simpl.
    rewrite Hdis, Hpos, Hadm, Hbal. simpl. by eauto.
Qed.

Lemma admin_transfer_accepted self n1 n2 amount h :
  is_logged_in self = true -> is_admin self = true ->
  (exists self' message,
     process_transfer self n1 n2 amount h = Return self' true message)
  <-> (exists i a j b,
         find_user_account self h n1 = Some (i, a)
         /\ find_account_by_number self n2 = Some (j, b)
         /\ is_disabled a = false /\ is_disabled b = false
         /\ PrimFloat.leb amount 0 = false
         /\ PrimFloat.ltb (balance a) amount = false).
Proof.
  intros Hin Hadm. split.
  - intros (self' & message & Hcall).
    apply process_transfer_success in Hcall
      as (_ & i & a & j & b & Hfind & Hfind' & Hdis & Hdis' & Hpos & _ & Hbal & _).
    rewrite acting_owner_admin in Hfind by done. by exists i, a, j, b.
  - intros (i & a & j & b & Hfind & Hfind' & Hdis & Hdis' & Hpos & Hbal).
    unfold process_transfer. rewrite Hin, acting_owner_admin, Hfind, Hfind' by done.
    unfold validate_transfer, get_balance. simpl.
    rewrite Hdis, Hdis', Hpos, Hadm, Hbal. simpl. by eauto.
Qed.

Lemma admin_paybill_accepted self n amount company h :
  is_logged_in self = true -> is_admin self = true ->
  (exists self' message,
     process_paybill self n amount company h = Return self' true message)
  <-> (exists i a,
         find_user_account self h n = Some (i, a)
         /\ is_disabled a = false /\ company ∈ VALID_COMPANIES
         /\ PrimFloat.leb amount 0 = false
         /\ PrimFloat.ltb (balance a) amount = false).
Proof.
  intros Hin Hadm. split.
  - intros (self' & message & Hcall).
    apply process_paybill_success in Hcall
      as (_ & i & a & Hfind & Hdis & Hcomp & Hpos & _ & Hbal & _).
    rewrite acting_owner_admin in Hfind by done. by exists i, a.
  - intros (i & a & Hfind & Hdis & Hcomp & Hpos & Hbal).
    unfold process_paybill. rewrite Hin, acting_owner_admin, Hfind by done.
    unfold validate_paybill, get_balance. simpl.
    rewrite Hdis, (bool_decide_eq_true_2 _ Hcomp), Hpos, Hadm, Hbal. simpl.
    by eauto.
Qed.

(** An accepted request adds its amount to the running total of its
    category, in an admin session as in a standard one. *)
Lemma accepted_amount_is_added self r self' message :
  call self r = Return self' true message ->
  match r with
  | Withdrawal _ amount _ =>
      session_withdrawals self' = PrimFloat.add (session_withdrawals self) amount
  | Transfer _ _ amount _ =>
      session_transfers self' = PrimFloat.add (session_transfers self) amount
  | Paybill _ amount _ _ =>
      session_paybills self' = PrimFloat.add (session_paybills self) amount
  | _ => True
  end.
Proof.
  intros Hcall. destruct r; try done; simpl in Hcall.
  - by apply process_withdrawal_success in Hcall as (_ & i & a & _ & _ & _ & _ & _ & ->).
  - by apply process_transfer_success in Hcall
      as (_ & i & a & j & b & _ & _ & _ & _ & _ & _ & _ & ->).
  - by apply process_paybill_success in Hcall
      as (_ & i & a & _ & _ & _ & _ & _ & _ & ->).
Qed.

(** An admin session in which 600.00 was withdrawn at once from an account
    that held 1000.00. *)
Lemma admin_over_the_cap :
  exists s,
    reachable s /\ is_logged_in s = true /\ is_admin s = true
    /\ PrimFloat.ltb MAX_WITHDRAWAL_STANDARD (session_withdrawals s) = true.
Proof.
  exists (mkBankingSystem [mkAccount "00001" "Alice" "A" 400]
            [Transaction.mkTransaction "01" "Alice" "00001" 600 "  "]
            true true (Some "Admin") 600 0 0).
  split; [|by repeat split].
  apply (run_reachable
           [Load [Fixtures.alice]; Call (Login "admin" None);
            Call (Withdrawal "00001" 600 (Some "Alice"))] __init__);
    [constructor|reflexivity].
Qed.

End AdminFacts.

(** ** Line feeds in the lines of the transaction file *)

Module LineFeedFacts.
Import Py Notions FileFacts PyFacts.

(** The line feeds of a text made of lines: one per line, and those that
    the lines hold themselves. *)
Lemma count_nl_lines (lines : list string) :
  count_nl (newline_terminated lines)
  = (length lines + list_sum (map count_nl lines))%nat.
Proof.
  induction lines as [|x rest IH]; simpl; [done|].
  rewrite !count_nl_append, IH. simpl. lia.
Qed.

Lemma list_sum_zero (l : list nat) :
  list_sum l = 0%nat <-> Forall (fun n => n = 0%nat) l.
Proof.
  induction l as [|n l IH]; simpl.
  - split; [constructor|done].
  - split.
    + intros H. constructor; [lia|]. apply IH. lia.
    + intros H. apply Forall_cons in H as [-> H]. by apply IH.
Qed.

Lemma count_nl_replicate_char (n : nat) (c : ascii) :
  Ascii.eqb c (ascii_of_nat 10) = false -> count_nl (replicate_char n c) = 0%nat.
Proof. intros Hc. induction n as [|n IH]; simpl; [done|]. by rewrite Hc, IH. Qed.

Lemma count_nl_substring (a n : nat) (s : string) :
  count_nl s = 0%nat -> count_nl (String.substring a n s) = 0%nat.
Proof.
  revert a n. induction s as [|c s IH]; intros a n; simpl.
  - by destruct a, n.
  - intros H. destruct a as [|a], n as [|n]; simpl; try done.
    + rewrite (IH 0%nat n) by lia. lia.
    + apply IH. lia.
    + apply IH. lia.
Qed.

(** A field padded to its width and cut to it. *)
Lemma count_nl_field (w : nat) (s : string) :
  count_nl s = 0%nat -> count_nl (slice_to w (ljust w s)) = 0%nat.
Proof.
  intros H. apply count_nl_substring. unfold ljust.
  by rewrite count_nl_append, H, count_nl_replicate_char.
Qed.

Lemma count_nl_zfill (w : nat) (s : string) :
  count_nl s = 0%nat -> count_nl (zfill w s) = 0%nat.
Proof.
  intros H. unfold zfill.
  pose proof (count_nl_replicate_char (w - String.length s) "0" eq_refl) as Hz.
  destruct s as [|c s]; [done|].
  destruct (Ascii.eqb c "+" || Ascii.eqb c "-")%bool.
  - simpl in *. rewrite count_nl_append, Hz. lia.
  - by rewrite count_nl_append, Hz, H.
Qed.

Lemma count_nl_digits_string (d : Decimal.uint) : count_nl (digits_string d) = 0%nat.
Proof. induction d; simpl; by rewrite ?IHd. Qed.

Lemma count_nl_str (z : Z) : count_nl (str z) = 0%nat.
Proof.
  unfold str. rewrite str_N_digits.
  destruct (z <? 0); simpl; by rewrite count_nl_digits_string.
Qed.

(** A printed amount holds no line feed. *)
Lemma count_nl_format_2f (x : float) : count_nl (format_2f x) = 0%nat.
Proof.
  unfold format_2f.
  destruct (Prim2SF x) as [s|s| |s m e]; try done; try (by destruct s).
  cbv zeta.
  rewrite !count_nl_append, count_nl_str, count_nl_zfill by apply count_nl_str.
  by destruct s.
Qed.

(** The line of a record holds no line feed when its code, its holder name,
    its account number and its misc field hold none. *)
Lemma count_nl_record_line (t : Transaction.Transaction) :
  count_nl (Transaction.code t) = 0%nat ->
  count_nl (Transaction.account_holder_name t) = 0%nat ->
  count_nl (Transaction.account_number t) = 0%nat ->
  count_nl (Transaction.misc t) = 0%nat ->
  count_nl (Transaction.to_file_string t) = 0%nat.
Proof.
  intros Hc Hh Hn Hm. unfold Transaction.to_file_string. cbv zeta.
  rewrite !count_nl_append, Hc, !count_nl_field, !count_nl_zfill;
    try done; apply count_nl_format_2f.
Qed.

End LineFeedFacts.

(** * The properties of the specification *)

Import Account Validator BankingSystem Session Notions Fixtures.
Import ControllerFacts Invariants SessionFacts.

(** C1. In every state that a controller reaches in a standard session,
    whatever calls led there, none of the three running totals is above its
    cap (500.00 for withdrawals, 1000.00 for transfers, 2000.00 for bill
    payments): [total > cap] is false, and [total <= cap] is true as soon as
    the total is a number. In an admin session no cap is checked:
    [process_withdrawal], [process_transfer] and [process_paybill] accept a
    request exactly when the account is found and not disabled, the amount
    is not zero or below (the company is a valid one) and the balance
    covers the amount, whatever the running total is; the accepted amount
    is added to the running total, which does go above the cap: there is
    an admin session with a total of withdrawals above 500.00. The
    validators called for an admin do not look at the running total at
    all: their answer is the same for any two totals. *)
Theorem session_totals_within_caps (self : BankingSystem) :
  reachable self ->
  (is_logged_in self = true -> is_admin self = false ->
   PrimFloat.ltb MAX_WITHDRAWAL_STANDARD (session_withdrawals self) = false
   /\ PrimFloat.ltb MAX_TRANSFER_STANDARD (session_transfers self) = false
   /\ PrimFloat.ltb MAX_PAYBILL_STANDARD (session_paybills self) = false)
  /\ (is_logged_in self = true -> is_admin self = false ->
      (is_nan (session_withdrawals self) = false ->
       PrimFloat.leb (session_withdrawals self) MAX_WITHDRAWAL_STANDARD = true)
      /\ (is_nan (session_transfers self) = false ->
          PrimFloat.leb (session_transfers self) MAX_TRANSFER_STANDARD = true)
      /\ (is_nan (session_paybills self) = false ->
          PrimFloat.leb (session_paybills self) MAX_PAYBILL_STANDARD = true))
  /\ (forall account amount total total',
        validate_withdrawal account amount true total
        = validate_withdrawal account amount true total')
  /\ (forall source target amount total total',
        validate_transfer source target amount true total
        = validate_transfer source target amount true total')
  /\ (forall account amount company total total',
        validate_paybill account amount company true total
        = validate_paybill account amount company true total')
  /\ (is_logged_in self = true -> is_admin self = true ->
      (forall n amount h,
         (exists self' message,
            process_withdrawal self n amount h = Return self' true message)
         <-> (exists i a,
                find_user_account self h n = Some (i, a)
                /\ is_disabled a = false /\ PrimFloat.leb amount 0 = false
                /\ PrimFloat.ltb (balance a) amount = false))
      /\ (forall n1 n2 amount h,
            (exists self' message,
               process_transfer self n1 n2 amount h = Return self' true message)
            <-> (exists i a j b,
                   find_user_account self h n1 = Some (i, a)
                   /\ find_account_by_number self n2 = Some (j, b)
                   /\ is_disabled a = false /\ is_disabled b = false
                   /\ PrimFloat.leb amount 0 = false
                   /\ PrimFloat.ltb (balance a) amount = false))
      /\ (forall n amount company h,
            (exists self' message,
               process_paybill self n amount company h = Return self' true message)
            <-> (exists i a,
                   find_user_account self h n = Some (i, a)
                   /\ is_disabled a = false /\ company ∈ VALID_COMPANIES
                   /\ PrimFloat.leb amount 0 = false
                   /\ PrimFloat.ltb (balance a) amount = false)))
  /\ (forall n amount h self' message,
        process_withdrawal self n amount h = Return self' true message ->
        session_withdrawals self' = PrimFloat.add (session_withdrawals self) amount)
  /\ (forall n1 n2 amount h self' message,
        process_transfer self n1 n2 amount h = Return self' true message ->
        session_transfers self' = PrimFloat.add (session_transfers self) amount)
  /\ (forall n amount company h self' message,
        process_paybill self n amount company h = Return self' true message ->
        session_paybills self' = PrimFloat.add (session_paybills self) amount)
  /\ (exists s,
        reachable s /\ is_logged_in s = true /\ is_admin s = true
        /\ PrimFloat.ltb MAX_WITHDRAWAL_STANDARD (session_withdrawals s) = true).
Proof.
  intros Hr. split; [|split]; [..|do 3 (split; [done|])].
  - intros Hin Hstd. by apply standard_session_within_caps.
  - intros Hin Hstd.
    destruct (standard_session_within_caps self Hr Hin Hstd) as (Hw & Ht & Hp).
    repeat split; intros Hnum; by apply FloatFacts.not_gt_le.
  - split; [|split; [|split; [|split]]].
    + intros Hin Hadm. split; [|split]; intros.
      * by apply AdminFacts.admin_withdrawal_accepted.
      * by apply AdminFacts.admin_transfer_accepted.
      * by apply AdminFacts.admin_paybill_accepted.
    + intros n amount h self' message Hcall.
      exact (AdminFacts.accepted_amount_is_added self (Withdrawal n amount h)
               self' message Hcall).
    + intros n1 n2 amount h self' message Hcall.
      exact (AdminFacts.accepted_amount_is_added self (Transfer n1 n2 amount h)
               self' message Hcall).
    + intros n amount company h self' message Hcall.
      exact (AdminFacts.accepted_amount_is_added self (Paybill n amount company h)
               self' message Hcall).
    + apply AdminFacts.admin_over_the_cap.
Qed.

Lemma session_totals_within_caps_witness :
  reachable alice_after_withdrawal
  /\ PrimFloat.ltb MAX_WITHDRAWAL_STANDARD
       (session_withdrawals alice_after_withdrawal) = false.
Proof.
  split; [exact alice_after_withdrawal_reachable|].
  exact (proj1 (proj1 (session_totals_within_caps alice_after_withdrawal
                         alice_after_withdrawal_reachable)
                  eq_refl eq_refl)).
Defined.

(** C2. A withdrawal, a transfer or a bill payment whose resolved (source)
    account has a balance strictly below the amount returns with success
    False, leaving the state as it was. After a successful
    [process_withdrawal] the resolved account has its number, holder name
    and status as before and, as balance, its former balance minus the
    amount; the other accounts are as before, and the amount is added to
    the running total of withdrawals. *)
Theorem no_success_below_balance (self : BankingSystem) :
  (forall n amount h i a,
     find_user_account self (acting_owner self h) n = Some (i, a) ->
     PrimFloat.ltb (balance a) amount = true ->
     exists message, process_withdrawal self n amount h = Return self false message)
  /\ (forall n1 n2 amount h i a,
        find_user_account self (acting_owner self h) n1 = Some (i, a) ->
        PrimFloat.ltb (balance a) amount = true ->
        exists message,
          process_transfer self n1 n2 amount h = Return self false message)
  /\ (forall n amount company h i a,
        find_user_account self (acting_owner self h) n = Some (i, a) ->
        PrimFloat.ltb (balance a) amount = true ->
        exists message,
          process_paybill self n amount company h = Return self false message)
  /\ (forall n amount h self' message,
        process_withdrawal self n amount h = Return self' true message ->
        exists i a,
          find_user_account self (acting_owner self h) n = Some (i, a)
          /\ accounts self' !! i
             = Some (mkAccount (account_number a) (holder_name a) (status a)
                       (PrimFloat.sub (balance a) amount))
          /\ (forall k, k <> i -> accounts self' !! k = accounts self !! k)
          /\ length (accounts self') = length (accounts self)
          /\ session_withdrawals self'
             = PrimFloat.add (session_withdrawals self) amount).
Proof.
  repeat split.
  - intros n amount h i a Hfind Hlow.
    destruct (call_returns self (Withdrawal n amount h))
      as (self' & [] & message & Hcall); simpl in Hcall.
    + apply process_withdrawal_success in Hcall
        as (_ & i' & a' & Hfind' & _ & _ & _ & Hbal & _).
      rewrite Hfind in Hfind'. injection Hfind' as <- <-. congruence.
    + pose proof (call_failure self (Withdrawal n amount h) _ _ Hcall) as ->.
      by exists message.
  - intros n1 n2 amount h i a Hfind Hlow.
    destruct (call_returns self (Transfer n1 n2 amount h))
      as (self' & [] & message & Hcall); simpl in Hcall.
    + apply process_transfer_success in Hcall
        as (_ & i' & a' & j & b & Hfind' & _ & _ & _ & _ & _ & Hbal & _).
      rewrite Hfind in Hfind'. injection Hfind' as <- <-. congruence.
    + pose proof (call_failure self (Transfer n1 n2 amount h) _ _ Hcall) as ->.
      by exists message.
  - intros n amount company h i a Hfind Hlow.
    destruct (call_returns self (Paybill n amount company h))
      as (self' & [] & message & Hcall); simpl in Hcall.
    + apply process_paybill_success in Hcall
        as (_ & i' & a' & Hfind' & _ & _ & _ & _ & Hbal & _).
      rewrite Hfind in Hfind'. injection Hfind' as <- <-. congruence.
    + pose proof (call_failure self (Paybill n amount company h) _ _ Hcall) as ->.
      by exists message.
  - intros n amount h self' message Hcall.
    apply process_withdrawal_success in Hcall
      as (_ & i & a & Hfind & _ & _ & _ & Hbal & ->).
    exists i, a. simpl. split; [done|].
    apply find_user_account_lookup in Hfind as (Hl & _).
    repeat split.
    + rewrite list_lookup_alter_eq, Hl. simpl. by rewrite withdraw_covered.
    + intros k Hk. by apply list_lookup_alter_ne.
    + apply length_alter.
Qed.

Lemma no_success_below_balance_witness :
  exists message,
    process_withdrawal alice_after_withdrawal "00001" 501 None
    = Return alice_after_withdrawal false message.
Proof.
  exact (proj1 (no_success_below_balance alice_after_withdrawal)
           "00001" 501%float None 0%nat (mkAccount "00001" "Alice" "A" 500)
           eq_refl eq_refl).
Defined.

(** C3. [process_deposit] and [process_create] leave the account list, and
    so every balance, as it was. When they succeed the new state is the old
    one with exactly one record appended to the log (code 04 for a deposit,
    05 for a create); when they fail nothing changes. *)
Theorem deposit_and_create_only_record (self : BankingSystem) :
  (forall n amount h self' success message,
     process_deposit self n amount h = Return self' success message ->
     accounts self' = accounts self
     /\ if success
        then exists t, Transaction.code t = "04" /\ self' = recorded self t
        else self' = self)
  /\ (forall h b self' success message,
        process_create self h b = Return self' success message ->
        accounts self' = accounts self
        /\ if success
           then exists t, Transaction.code t = "05" /\ self' = recorded self t
           else self' = self).
Proof.
  split.
  - intros n amount h self' [] message H.
    + apply process_deposit_success in H as (_ & ->). split; [done|].
      eexists; split; [|reflexivity]; reflexivity.
    + by apply (call_failure self (Deposit n amount h)) in H as ->.
  - intros h b self' [] message H.
    + apply process_create_success in H as (_ & _ & ->). split; [done|].
      eexists; split; [|reflexivity]; reflexivity.
    + by apply (call_failure self (Create h b)) in H as ->.
Qed.

Lemma deposit_and_create_only_record_witness :
  accounts (state_of (process_deposit alice_after_withdrawal "00001" 25 None)
              alice_after_withdrawal)
  = accounts alice_after_withdrawal.
Proof.
  exact (proj1 (proj1 (deposit_and_create_only_record alice_after_withdrawal)
                  "00001" 25%float None _ true _ eq_refl)).
Defined.

(** C4, refuted as stated: the second login of a run succeeds and the log
    still holds the record of the first session. *)
Lemma second_login_keeps_the_log :
  reachable after_first_session
  /\ process_login after_first_session "admin" None
     = Return (mkBankingSystem []
                 [Transaction.mkTransaction "05" "Bob" "00001" 100 "  "]
                 true true (Some "Admin") 0 0 0)
         true "Admin session started."
  /\ ~ (forall self mode user_name self' message,
          reachable self ->
          process_login self mode user_name = Return self' true message ->
          transactions self' = []).
Proof.
  split; [exact after_first_session_reachable|]. split; [reflexivity|].
  intros H.
  specialize (H after_first_session "admin" None _ _
                after_first_session_reachable eq_refl).
  discriminate H.
Qed.

(** C4, amended. No operation clears the transaction log: a call leaves the
    log as it was or appends one record to it, and a login leaves both the
    log and the account list as they were. *)
Theorem log_is_never_cleared (self : BankingSystem) (r : Request)
    (self' : BankingSystem) (success : bool) (message : string) :
  call self r = Return self' success message ->
  (transactions self' = transactions self
   \/ exists t, transactions self' = (transactions self ++ [t])%list)
  /\ (forall mode user_name,
        r = Login mode user_name ->
        transactions self' = transactions self /\ accounts self' = accounts self).
Proof.
  intros Hcall. destruct success.
  - invert_accepted Hcall; unfold recorded, accepted; simpl;
      (split; [eauto | intros mode' user' [=]; subst; auto]).
  - apply call_failure in Hcall as ->. split; [by left | done].
Qed.

Lemma log_is_never_cleared_witness :
  transactions
    (state_of (call after_first_session (Login "admin" None)) after_first_session)
  = transactions after_first_session.
Proof.
  exact (proj1 (proj2 (log_is_never_cleared after_first_session
                         (Login "admin" None) _ true _ eq_refl)
                  "admin" None eq_refl)).
Defined.

(** C5, refuted as stated: an admin creates an account for a holder whose
    name holds a line feed. [validate_create] checks the length of the name
    and the balance only, so the request is accepted, and the file of this
    log of one record has three line feeds, not two: the record's line is
    broken in two. *)
Lemma create_with_line_feed_adds_a_line :
  let s := mkBankingSystem []
             [Transaction.mkTransaction "05" ("Al" +:+ Py.nl +:+ "ice") "00001" 1 "  "]
             true true (Some "Admin") 0 0 0 in
  run __init__ [Call (Login "admin" None);
                Call (Create ("Al" +:+ Py.nl +:+ "ice") 1)] = Some s
  /\ reachable s
  /\ length (transactions s) = 1%nat
  /\ generate_transaction_file s
     = "05 Al" +:+ Py.nl +:+ "ice               00001 00001.00  " +:+ Py.nl
       +:+ "00                      00000 00000.00  " +:+ Py.nl
  /\ count_nl (generate_transaction_file s) = 3%nat
  /\ ~ FileNotions.one_line_per_record s.
Proof.
  intros s. split; [reflexivity|].
  split; [apply (run_reachable
                   [Call (Login "admin" None);
                    Call (Create ("Al" +:+ Py.nl +:+ "ice") 1)] __init__);
          [constructor|reflexivity]|].
  split; [reflexivity|]. split; [reflexivity|]. split; [reflexivity|].
  unfold FileNotions.one_line_per_record. by vm_compute.
Qed.

(** C5, amended. The transaction file of a controller whose log holds N
    records is the text of N+1 record lines, each followed by a line feed:
    the lines of the N records in the order of the log, then the line of
    the End-Session record, which has code 00, twenty spaces as name,
    account number 00000 and amount 0. No record of the log has code 00, so
    the End-Session line comes once, last, and only in the file. The file
    has N+1 line feeds and those that the record lines hold themselves: it
    has exactly N+1 of them if and only if no record line holds one, and
    that is so when no holder name, account number or misc field of the log
    holds a line feed. *)
Theorem transaction_file_has_one_more_line (self : BankingSystem) :
  reachable self ->
  let records := (transactions self ++ [Transaction.create_end_session])%list in
  generate_transaction_file self
  = newline_terminated (map Transaction.to_file_string records)
  /\ length (map Transaction.to_file_string records) = S (length (transactions self))
  /\ last records = Some Transaction.create_end_session
  /\ Transaction.create_end_session
     = Transaction.mkTransaction "00" "                    " "00000" 0 "  "
  /\ Transaction.to_file_string Transaction.create_end_session
     = "00                      00000 00000.00  "
  /\ Forall (fun t => Transaction.code t <> "00") (transactions self)
  /\ (Forall (fun t => count_nl (Transaction.to_file_string t) = 0%nat)
        (transactions self) ->
      count_nl (generate_transaction_file self)
      = S (length (transactions self)))
  /\ count_nl (generate_transaction_file self)
     = (S (length (transactions self))
        + list_sum (map (fun t => count_nl (Transaction.to_file_string t))
                      (transactions self)))%nat
  /\ (FileNotions.one_line_per_record self
      <-> Forall (fun t => count_nl (Transaction.to_file_string t) = 0%nat)
            (transactions self))
  /\ (Forall FileNotions.no_line_feed (transactions self) ->
      FileNotions.one_line_per_record self).
Proof.
  intros Hr records. unfold generate_transaction_file.
  rewrite FileFacts.generate_transaction_file_lines. fold records.
  assert (count_nl (newline_terminated (map Transaction.to_file_string records))
          = (S (length (transactions self))
             + list_sum (map (fun t => count_nl (Transaction.to_file_string t))
                           (transactions self)))%nat) as Hcount.
  { rewrite LineFeedFacts.count_nl_lines. subst records.
    rewrite length_map, length_app, !map_app, list_sum_app, map_map. simpl. lia. }
  assert (FileNotions.one_line_per_record self
          <-> Forall (fun t => count_nl (Transaction.to_file_string t) = 0%nat)
                (transactions self)) as Hiff.
  { unfold FileNotions.one_line_per_record, generate_transaction_file.
    rewrite FileFacts.generate_transaction_file_lines. fold records.
    rewrite Hcount, <- (List.Forall_map
                          (fun t => count_nl (Transaction.to_file_string t))
                          (fun n => n = 0%nat)),
      <- LineFeedFacts.list_sum_zero. lia. }
  split; [reflexivity|].
  split; [subst records; rewrite length_map, length_app; simpl; lia|].
  split; [apply last_snoc|].
  split; [reflexivity|]. split; [reflexivity|].
  split; [|split; [|split; [done|split; [done|]]]].
  - eapply Forall_impl; [apply (log_has_operation_codes self Hr)|].
    intros t Ht Heq. simpl in Ht. rewrite Heq in Ht.
    apply (bool_decide_pack _) in Ht. by vm_compute in Ht.
  - intros Hlines. rewrite FileFacts.count_nl_newline_terminated.
    + subst records. rewrite length_map, length_app. simpl. lia.
    + subst records. rewrite map_app. apply Forall_app. split.
      * by apply Forall_fmap.
      * by repeat constructor.
  - intros Hfields. apply Hiff.
    pose proof (log_has_operation_codes self Hr) as Hcodes.
    apply Forall_forall. intros t Ht.
    eapply Forall_forall in Hcodes; [|done]. eapply Forall_forall in Hfields; [|done].
    destruct Hfields as (Hh & Hn & Hm).
    apply LineFeedFacts.count_nl_record_line; try done.
    simpl in Hcodes. unfold operation_codes in Hcodes.
    repeat (apply elem_of_cons in Hcodes as [->|Hcodes]; [reflexivity|]).
    by apply elem_of_nil in Hcodes.
Qed.

Lemma transaction_file_has_one_more_line_witness :
  generate_transaction_file alice_after_withdrawal
  = "01 Alice                00001 00500.00  " +:+ Py.nl
    +:+ "00                      00000 00000.00  " +:+ Py.nl.
Proof.
  exact (proj1 (transaction_file_has_one_more_line alice_after_withdrawal
                  alice_after_withdrawal_reachable)).
Defined.

(** C6, refuted as stated: Alice transfers 300.00 from account 00001 to
    account 00001. The request is accepted, source and destination are the
    same object, and its balance is 500.00 afterwards, not 200.00. *)
Lemma transfer_to_same_account_keeps_balance :
  reachable alice_500
  /\ process_transfer alice_500 "00001" "00001" 300 None
  = Return (mkBankingSystem [mkAccount "00001" "Alice" "A" 500]
              [Transaction.mkTransaction "02" "Alice" "00001" 300 "01"]
              true false (Some "Alice") 0 300 0)
      true "Transfer of $300.00 successful."
  /\ ~ transfer_moves_amount alice_500 "00001" "00001" 300 None.
Proof.
  split; [exact alice_500_reachable|]. split; [reflexivity|].
  intros H.
  destruct (H _ _ 0%nat (mkAccount "00001" "Alice" "A" 500)
              0%nat (mkAccount "00001" "Alice" "A" 500)
              eq_refl eq_refl eq_refl) as ((a' & Hl & Hb) & _).
  injection Hl as <-.
  apply (f_equal (PrimFloat.eqb 200)) in Hb. discriminate Hb.
Qed.

(** C6, amended. A successful transfer between two different accounts
    takes the amount off the source's balance and adds it to the
    destination's, at once: afterwards the source account has the balance
    it had minus the amount, the destination account the balance it had
    plus the amount, both with their number, holder name and status as
    before, and every other account is left alone; the record
    appended to the log is a transfer record (code 02) for the amount whose
    misc field is the last two characters of the destination number
    zero-filled to five. *)
Theorem transfer_between_two_accounts (self : BankingSystem) (n1 n2 : string)
    (amount : float) (h : option string) (self' : BankingSystem) (message : string) :
  process_transfer self n1 n2 amount h = Return self' true message ->
  exists i a j b,
    find_user_account self (acting_owner self h) n1 = Some (i, a)
    /\ find_account_by_number self n2 = Some (j, b)
    /\ (i <> j ->
        accounts self' !! i
        = Some (mkAccount (account_number a) (holder_name a) (status a)
                  (PrimFloat.sub (balance a) amount))
        /\ accounts self' !! j
           = Some (mkAccount (account_number b) (holder_name b) (status b)
                     (PrimFloat.add (balance b) amount))
        /\ forall k, k <> i -> k <> j -> accounts self' !! k = accounts self !! k)
    /\ exists t,
        transactions self' = (transactions self ++ [t])%list
        /\ Transaction.code t = "02"
        /\ Transaction.amount t = amount
        /\ Transaction.misc t = Py.last2 (Py.zfill 5 n2).
Proof.
  intros Hcall.
  apply process_transfer_success in Hcall
    as (_ & i & a & j & b & Hsrc & Htgt & _ & _ & _ & _ & Hbal & ->).
  exists i, a, j, b. repeat split; try done.
  - apply find_user_account_lookup in Hsrc as (Hl & _). simpl.
    rewrite list_lookup_alter_ne, list_lookup_alter_eq, Hl by done.
    simpl. by rewrite withdraw_covered.
  - apply find_account_by_number_lookup in Htgt as (Hl & _). simpl.
    by rewrite list_lookup_alter_eq, list_lookup_alter_ne, Hl.
  - intros k Hki Hkj. simpl. by rewrite !list_lookup_alter_ne.
  - by eexists.
Qed.

Lemma transfer_between_two_accounts_witness :
  exists i a j b,
    find_user_account
      (mkBankingSystem [mkAccount "00001" "Alice" "A" 500; bob] [] true
         false (Some "Alice") 0 0 0)
      (Some "Alice") "00001" = Some (i, a)
    /\ find_account_by_number
         (mkBankingSystem [mkAccount "00001" "Alice" "A" 500; bob] [] true
            false (Some "Alice") 0 0 0)
         "00002" = Some (j, b)
    /\ i <> j.
Proof.
  destruct (transfer_between_two_accounts
              (mkBankingSystem [mkAccount "00001" "Alice" "A" 500; bob] []
                 true false (Some "Alice") 0 0 0)
              "00001" "00002" 300 None _ _ eq_refl)
    as (i & a & j & b & Hsrc & Htgt & _).
  exists i, a, j, b. split; [exact Hsrc|]. split; [exact Htgt|].
  injection Hsrc as <- _. injection Htgt as <- _. discriminate.
Defined.

(** C7. After a successful [process_login] and after a successful
    [process_logout], on any state the controller can be in, the three
    running totals are 0.0. *)
Theorem totals_zero_after_login_and_logout (self : BankingSystem) :
  reachable self ->
  (forall mode user_name self' message,
     process_login self mode user_name = Return self' true message ->
     session_withdrawals self' = 0%float /\ session_transfers self' = 0%float
     /\ session_paybills self' = 0%float)
  /\ (forall self' message,
        process_logout self = Return self' true message ->
        session_withdrawals self' = 0%float /\ session_transfers self' = 0%float
        /\ session_paybills self' = 0%float).
Proof.
  intros Hr. split.
  - intros mode user_name self' message H.
    apply process_login_success in H as (Hout & admin & user & ->). simpl.
    by apply logged_out_totals_zero.
  - intros self' message H.
    by apply process_logout_success in H as (_ & ->).
Qed.

Lemma totals_zero_after_login_and_logout_witness :
  reachable alice_after_withdrawal
  /\ process_logout alice_after_withdrawal
     = Return (mkBankingSystem [mkAccount "00001" "Alice" "A" 500]
                 [Transaction.mkTransaction "01" "Alice" "00001" 500 "  "]
                 false false None 0 0 0)
         true "Session ended. Transaction file ready for download."
  /\ session_withdrawals
       (state_of (process_logout alice_after_withdrawal) alice_after_withdrawal)
     = 0%float.
Proof.
  split; [exact alice_after_withdrawal_reachable|]. split; [reflexivity|].
  exact (proj1 (proj2 (totals_zero_after_login_and_logout alice_after_withdrawal
                         alice_after_withdrawal_reachable)
                  _ _ eq_refl)).
Defined.

(** C8. Each validator answers with the message of the first violated rule
    of its list, and the lists run in the order existence, disabled status,
    domain checks, session cap, balance sufficiency. So a withdrawal against
    a disabled account with too small a balance gets the disabled-account
    message, whatever the amount, the session and the total. *)
Theorem validators_follow_rule_order :
  (forall account amount is_admin total,
     validate_withdrawal account amount is_admin total
     = SpecRules.first_violation
         (SpecRules.withdrawal_rules account amount is_admin total)
     /\ SpecRules.in_spec_order
          (SpecRules.withdrawal_rules account amount is_admin total) = true)
  /\ (forall source target amount is_admin total,
        validate_transfer source target amount is_admin total
        = SpecRules.first_violation
            (SpecRules.transfer_rules source target amount is_admin total)
        /\ SpecRules.in_spec_order
             (SpecRules.transfer_rules source target amount is_admin total) = true)
  /\ (forall account amount company is_admin total,
        validate_paybill account amount company is_admin total
        = SpecRules.first_violation
            (SpecRules.paybill_rules account amount company is_admin total)
        /\ SpecRules.in_spec_order
             (SpecRules.paybill_rules account amount company is_admin total) = true)
  /\ (forall account amount,
        validate_deposit account amount
        = SpecRules.first_violation (SpecRules.deposit_rules account amount)
        /\ SpecRules.in_spec_order (SpecRules.deposit_rules account amount) = true)
  /\ (forall account,
        validate_disable account
        = SpecRules.first_violation (SpecRules.disable_rules account)
        /\ SpecRules.in_spec_order (SpecRules.disable_rules account) = true)
  /\ (forall a amount is_admin total,
        is_disabled a = true -> PrimFloat.ltb (balance a) amount = true ->
        validate_withdrawal (Some a) amount is_admin total
        = Some "Account is disabled.").
Proof.
  split; [|split; [|split; [|split; [|split]]]].
  - intros account amount adm total. split; [|reflexivity].
    unfold validate_withdrawal. destruct account as [a|]; simpl; [|done].
    destruct (is_disabled a); [done|].
    destruct (PrimFloat.leb amount 0); [done|].
    by destruct (negb adm && _).
  - intros source target amount adm total. split; [|reflexivity].
    unfold validate_transfer.
    destruct source as [a|]; simpl; [|done].
    destruct target as [b|]; simpl; [|done].
    destruct (is_disabled a || is_disabled b); [done|].
    destruct (PrimFloat.leb amount 0); [done|].
    by destruct (negb adm && _).
  - intros account amount company adm total. split; [|reflexivity].
    unfold validate_paybill. destruct account as [a|]; simpl; [|done].
    destruct (is_disabled a); [done|].
    destruct (negb (bool_decide _)); [done|].
    destruct (PrimFloat.leb amount 0); [done|].
    by destruct (negb adm && _).
  - intros account amount. split; [|reflexivity].
    unfold validate_deposit. destruct account as [a|]; simpl; [|done].
    by destruct (is_disabled a).
  - intros account. split; [|reflexivity].
    unfold validate_disable. by destruct account as [a|].
  - intros a amount adm total Hdis _. unfold validate_withdrawal.
    by rewrite Hdis.
Qed.

Lemma validators_follow_rule_order_witness :
  validate_withdrawal (Some (mkAccount "00001" "Alice" "D" 10)) 50 false 0
  = Some "Account is disabled.".
Proof.
  exact (proj2 (proj2 (proj2 (proj2 (proj2 validators_follow_rule_order))))
           (mkAccount "00001" "Alice" "D" 10) 50%float false 0%float
           eq_refl eq_refl).
Defined.

(** C9. Every [process_*] operation returns (none raises), and whenever it
    returns with success False, the controller's state (the account list
    with every balance and status, the log, the three totals, the login
    state) is the state before the call. *)
Theorem failure_is_atomic (self : BankingSystem) (r : Request) :
  (exists self' success message, call self r = Return self' success message)
  /\ (forall self' message,
        call self r = Return self' false message -> self' = self).
Proof.
  split; [apply call_returns|].
  intros self' message.
  destruct r; simpl;
    unfold process_login, process_logout, process_withdrawal, process_transfer,
      process_paybill, process_deposit, process_create, process_delete,
      process_disable, process_changeplan;
    repeat case_match; try discriminate; by intros [= <- _].
Qed.

Lemma failure_is_atomic_witness :
  call alice_after_withdrawal (Withdrawal "00001" 1 None)
  = Return alice_after_withdrawal false "Maximum withdrawal per session is $500.00."
  /\ alice_after_withdrawal = alice_after_withdrawal.
Proof.
  split; [reflexivity|].
  apply (proj2 (failure_is_atomic alice_after_withdrawal
                  (Withdrawal "00001" 1 None))
           alice_after_withdrawal "Maximum withdrawal per session is $500.00.").
  reflexivity.
Defined.

(** C10. The number that [_generate_account_number] returns is the number
    of no account in the list, so [process_create] always passes
    [account_exists = False] to [validate_create]: the request of a
    logged-in admin fails exactly when the name is longer than 20
    characters or the balance is negative or above 99999.99, with the
    message of that check, never with the account-exists message. *)
Theorem create_never_finds_its_number (self : BankingSystem) :
  (forall a, a ∈ accounts self ->
             get_account_number a <> _generate_account_number self)
  /\ find_account_by_number self (_generate_account_number self) = None
  /\ (forall h b,
        is_logged_in self = true -> is_admin self = true ->
        exists self' success message,
          process_create self h b = Return self' success message
          /\ (success = false <->
              (MAX_NAME_LENGTH < String.length h)%nat
              \/ PrimFloat.ltb b 0 = true
              \/ PrimFloat.ltb MAX_ACCOUNT_BALANCE b = true)
          /\ message <> "Account number already exists."
          /\ validate_create h b false = (if success then None else Some message)).
Proof.
  split; [intros a; apply AccountNumbers.generated_number_fresh|].
  split; [apply AccountNumbers.generated_number_not_found|].
  intros h b Hin Hadm. unfold process_create.
  rewrite Hin, Hadm, AccountNumbers.generated_number_not_found. simpl.
  unfold validate_create.
  destruct (Nat.ltb_spec MAX_NAME_LENGTH (String.length h)) as [Hlen|Hlen];
    [|destruct (PrimFloat.ltb b 0) eqn:Hneg;
      [|destruct (PrimFloat.ltb MAX_ACCOUNT_BALANCE b) eqn:Hmax]];
    simpl; do 3 eexists; (split; [reflexivity|]); repeat split;
    auto; try discriminate.
  - intros [?|[?|?]]; [lia|discriminate..].
  - destruct (AccountNumbers.generated_number_digits self) as (d & Hd & ->).
    destruct d; [done|..]; discriminate.
Qed.

Lemma create_never_finds_its_number_witness :
  exists self' success message,
    process_create
      (mkBankingSystem [mkAccount "00007" "Carol" "A" 10] [] true true
         (Some "Admin") 0 0 0) "Bob" 50000
    = Return self' success message
    /\ message <> "Account number already exists.".
Proof.
  destruct (proj2 (proj2 (create_never_finds_its_number
                            (mkBankingSystem [mkAccount "00007" "Carol" "A" 10] []
                               true true (Some "Admin") 0 0 0)))
              "Bob" 50000%float eq_refl eq_refl)
    as (self' & success & message & Hcall & _ & Hmsg & _).
  exists self', success, message. split; [exact Hcall | exact Hmsg].
Defined.

(** * Further properties of the code *)

(** ** More notions and facts about the controller *)

Module MoreNotions.
Import Account BankingSystem Session.


(** The requests that write a record when they are accepted, and the code
    of that record. *)
Definition record_code (r : Request) : option string :=
  match r with
  | Login _ _ | Logout => None
  | Withdrawal _ _ _ => Some "01"
  | Transfer _ _ _ _ => Some "02"
  | Paybill _ _ _ _ => Some "03"
  | Deposit _ _ _ => Some "04"
  | Create _ _ => Some "05"
  | Delete _ _ => Some "06"
  | Disable _ _ => Some "07"
  | Changeplan _ _ => Some "08"
  end.

(** The requests reserved to an admin. *)
Definition privileged (r : Request) : bool :=
  match r with
  | Create _ _ | Delete _ _ | Disable _ _ | Changeplan _ _ => true
  | _ => false
  end.

(** The codes of the records that a run of events writes: one per accepted
    request, in the order of the calls. *)
Fixpoint accepted_codes (self : BankingSystem) (events : list Event) : list string :=
  match events with
  | [] => []
  | Load parsed :: rest => accepted_codes (load_accounts self parsed) rest
  | Call r :: rest =>
      match call self r with
      | Return self' true _ =>
          match record_code r with
          | Some c => c :: accepted_codes self' rest
          | None => accepted_codes self' rest
          end
      | Return self' false _ => accepted_codes self' rest
      | Raise _ => []
      end
  end.

End MoreNotions.

Module MoreControllerFacts.
Import Account Validator ValidatorFacts BankingSystem Session Notions MoreNotions.
Import ControllerFacts Invariants.

(** Altering the object that a search found, without touching what the
    search looks at, leaves it the first match. *)
Lemma list_find_alter_found {A} (P : A -> Prop) `{!forall x, Decision (P x)}
    (f : A -> A) (l : list A) (i : nat) (a : A) :
  (forall x, P (f x) <-> P x) ->
  list_find P l = Some (i, a) ->
  list_find P (alter f i l) = Some (i, f a).
Proof.
  intros Hf (Hl & HP & Hfirst)%list_find_Some. apply list_find_Some.
  split; [by rewrite list_lookup_alter_eq, Hl|].
  split; [by apply Hf|].
  intros j y Hj Hlt. rewrite list_lookup_alter_ne in Hj by lia. by eapply Hfirst.
Qed.






(** An admin call without a holder name finds no account. *)
Lemma find_user_account_None self n : find_user_account self None n = None.
Proof.
  unfold find_user_account. apply list_find_None, Forall_forall.
  by intros a _ [? _].
Qed.

End MoreControllerFacts.

(** ** Facts about the string built-ins *)

Module StringFacts.
Import Py.

Lemma length_append (s1 s2 : string) :
  String.length (s1 +:+ s2) = (String.length s1 + String.length s2)%nat.
Proof.
  induction s1 as [|c s1 IH]; [done|].
  rewrite FileFacts.append_cons. simpl. by rewrite IH.
Qed.

Lemma length_replicate_char (n : nat) (c : ascii) :
  String.length (replicate_char n c) = n.
Proof. induction n as [|n IH]; simpl; [done|]. by rewrite IH. Qed.

Lemma length_ljust (w : nat) (s : string) :
  String.length (ljust w s) = Nat.max w (String.length s).
Proof. unfold ljust. rewrite length_append, length_replicate_char. lia. Qed.

Lemma length_slice_to (n : nat) (s : string) :
  String.length (slice_to n s) = Nat.min n (String.length s).
Proof.
  unfold slice_to. revert n. induction s as [|c s IH]; intros [|n]; simpl; try done.
  by rewrite IH.
Qed.

(** [s.ljust(w)[:w]] has exactly [w] characters. *)
Lemma length_field (w : nat) (s : string) :
  String.length (slice_to w (ljust w s)) = w.
Proof. rewrite length_slice_to, length_ljust. lia. Qed.

Lemma length_zfill (w : nat) (s : string) :
  String.length (zfill w s) = Nat.max w (String.length s).
Proof.
  unfold zfill. destruct s as [|c s]; [simpl; rewrite length_replicate_char; lia|].
  destruct (_ || _)%bool.
  - cbn [String.length]. rewrite length_append, length_replicate_char.
    cbn [String.length]. lia.
  - rewrite length_append, length_replicate_char. cbn [String.length]. lia.
Qed.

End StringFacts.

(** ** More facts about account-number generation *)

Module MoreAccountNumbers.
Import Account BankingSystem Notions AccountNumbers.



End MoreAccountNumbers.

(** ** The controller *)

Import MoreNotions MoreControllerFacts.

(** X1. An accepted [process_delete] removes every account that has both
    the given holder name and the given account number, and nothing else:
    the accounts that remain are the others, in their order, at least one
    account is gone, and looking the pair up again finds nothing. *)
Theorem delete_removes_the_matching_accounts (self : BankingSystem)
    (h n : string) (self' : BankingSystem) (message : string) :
  process_delete self h n = Return self' true message ->
  (forall a, a ∈ accounts self' <->
             a ∈ accounts self /\ ~ (holder_name a = h /\ account_number a = n))
  /\ accounts self' `sublist_of` accounts self
  /\ (length (accounts self') < length (accounts self))%nat
  /\ find_user_account self' (Some h) n = None
  /\ exists i a, find_user_account self (Some h) n = Some (i, a).
Proof.
  intros Hcall.
  assert (exists i a, find_user_account self (Some h) n = Some (i, a))
    as (i & a & Hfind).
  { unfold process_delete in Hcall.
    destruct (is_logged_in self), (is_admin self); simpl in Hcall;
      try discriminate.
    destruct (find_user_account self (Some h) n) as [[i a]|]; [eauto|].
    discriminate. }
  apply process_delete_success in Hcall as (_ & _ & ->). simpl.
  pose proof (find_user_account_lookup _ _ _ _ _ Hfind) as (Hl & [= Hh] & Hn).
  unfold get_holder_name, get_account_number in *.
  split; [|split; [|split; [|split]]].
  - intros b. rewrite list_elem_of_filter. tauto.
  - apply sublist_filter.
  - apply (length_filter_lt _ _ a); [by eapply list_elem_of_lookup_2|].
    intros Hnot. by apply Hnot.
  - unfold find_user_account. simpl. apply list_find_None, Forall_forall.
    intros b [Hb _]%list_elem_of_filter [[= Hbh] Hbn]. by apply Hb.
  - by exists i, a.
Qed.

Lemma delete_removes_the_matching_accounts_witness :
  find_user_account
    (state_of (process_delete
                 (mkBankingSystem [alice; bob] [] true true (Some "Admin") 0 0 0)
                 "Alice" "00001")
       __init__)
    (Some "Alice") "00001" = None.
Proof.
  exact (proj1 (proj2 (proj2 (proj2
           (delete_removes_the_matching_accounts
              (mkBankingSystem [alice; bob] [] true true (Some "Admin") 0 0 0)
              "Alice" "00001" _ _ eq_refl))))).
Defined.

(** X2. An accepted [process_disable] sets the status of the account it
    resolved to D and touches nothing else of the account list. From then
    on, as long as the account list stays as it is, the same holder and
    number resolve to that disabled account: in any session acting for that
    holder, a withdrawal, a bill payment or a deposit on it is refused with
    the disabled-account message, and a second disable is refused with the
    already-disabled message. *)
Theorem disable_blocks_the_account (self : BankingSystem) (h n : string)
    (self' : BankingSystem) (message : string) :
  process_disable self h n = Return self' true message ->
  exists i a,
    find_user_account self (Some h) n = Some (i, a)
    /\ is_disabled a = false
    /\ accounts self' !! i = Some (disable a)
    /\ (forall k, k <> i -> accounts self' !! k = accounts self !! k)
    /\ find_user_account self' (Some h) n = Some (i, disable a)
    /\ (forall later h',
          accounts later = accounts self' -> is_logged_in later = true ->
          acting_owner later h' = Some h ->
          (forall amount,
             process_withdrawal later n amount h'
             = Return later false "Account is disabled.")
          /\ (forall amount company,
                process_paybill later n amount company h'
                = Return later false "Account is disabled.")
          /\ (forall amount,
                process_deposit later n amount h'
                = Return later false "Account is disabled."))
    /\ process_disable self' h n = Return self' false "Account is already disabled.".
Proof.
  intros Hcall.
  apply process_disable_success in Hcall as (Hin & Hadm & i & a & Hfind & Hdis & ->).
  pose proof (find_user_account_lookup _ _ _ _ _ Hfind) as (Hl & _).
  assert (find_user_account
            (accepted self (alter disable i (accounts self))
               (Transaction.create_disable h n) (session_withdrawals self)
               (session_transfers self) (session_paybills self))
            (Some h) n = Some (i, disable a)) as Hfind'.
  { unfold find_user_account in *. simpl. by apply list_find_alter_found. }
  exists i, a. split; [done|]. split; [done|]. simpl.
  split; [by rewrite list_lookup_alter_eq, Hl|].
  split; [intros k Hk; by apply list_lookup_alter_ne|].
  split; [done|]. split.
  - intros later h' Hsame Hlater Howner.
    assert (find_user_account later (Some h) n = Some (i, disable a)) as Hlate.
    { unfold find_user_account in *. by rewrite Hsame. }
    unfold process_withdrawal, process_paybill, process_deposit.
    rewrite Hlater, Howner, Hlate. by repeat split.
  - unfold process_disable. simpl. rewrite Hin, Hadm. simpl. by rewrite Hfind'.
Qed.

Lemma disable_blocks_the_account_witness :
  exists i a,
    find_user_account
      (mkBankingSystem [alice; bob] [] true true (Some "Admin") 0 0 0)
      (Some "Bob") "00002" = Some (i, a)
    /\ is_disabled a = false.
Proof.
  destruct (disable_blocks_the_account
              (mkBankingSystem [alice; bob] [] true true (Some "Admin") 0 0 0)
              "Bob" "00002" _ _ eq_refl)
    as (i & a & Hfind & Hdis & _).
  exists i, a. split; [exact Hfind | exact Hdis].
Defined.

(** X3. In every state a controller reaches, the three fields of the login
    state agree: logged out means no admin flag and no current user; logged
    in means a current user with a non-empty name, which is Admin in an
    admin session. *)
Theorem login_state_is_consistent (self : BankingSystem) :
  reachable self ->
  (is_logged_in self = false -> is_admin self = false /\ current_user self = None)
  /\ (is_logged_in self = true ->
      exists user, current_user self = Some user /\ user <> ""
                   /\ (is_admin self = true -> user = "Admin")).
Proof.
  induction 1 as [|self parsed Hr IH|self r self' success message Hr IH Hcall].
  - split; [done|discriminate].
  - exact IH.
  - destruct success; [|apply call_failure in Hcall as ->; exact IH].
    destruct r; simpl in Hcall.
    + unfold process_login in Hcall. destruct (is_logged_in self); [discriminate|].
      destruct (String.eqb mode "admin").
      { injection Hcall as <- _. simpl. split; [discriminate|].
        intros _. by exists "Admin". }
      destruct (String.eqb mode "standard"); [|discriminate].
      destruct user_name as [[|c u]|]; try discriminate.
      injection Hcall as <- _. simpl. split; [discriminate|].
      intros _. exists (String c u). by repeat split.
    + by apply process_logout_success in Hcall as (_ & ->).
    + by apply process_withdrawal_success in Hcall as (_ & ? & ? & _ & _ & _ & _ & _ & ->).
    + by apply process_transfer_success in Hcall
        as (_ & ? & ? & ? & ? & _ & _ & _ & _ & _ & _ & _ & ->).
    + by apply process_paybill_success in Hcall
        as (_ & ? & ? & _ & _ & _ & _ & _ & _ & ->).
    + by apply process_deposit_success in Hcall as (_ & ->).
    + by apply process_create_success in Hcall as (_ & _ & ->).
    + by apply process_delete_success in Hcall as (_ & _ & ->).
    + by apply process_disable_success in Hcall as (_ & _ & ? & ? & _ & _ & ->).
    + by apply process_changeplan_success in Hcall as (_ & _ & ->).
Qed.

Lemma login_state_is_consistent_witness :
  exists user, current_user alice_after_withdrawal = Some user /\ user <> "".
Proof.
  destruct (proj2 (login_state_is_consistent alice_after_withdrawal
                     alice_after_withdrawal_reachable) eq_refl)
    as (user & Huser & Hne & _).
  exists user. split; [exact Huser | exact Hne].
Defined.

(** X4. Nothing is accepted outside the session it needs: a login only
    while logged out, every other request only while logged in, and a
    create, delete, disable or changeplan only in an admin session. *)
Theorem accepted_requests_had_their_session (self : BankingSystem) (r : Request)
    (self' : BankingSystem) (message : string) :
  call self r = Return self' true message ->
  match r with
  | Login _ _ => is_logged_in self = false /\ is_logged_in self' = true
  | Logout => is_logged_in self = true /\ is_logged_in self' = false
  | _ =>
      is_logged_in self = true /\ is_logged_in self' = true
      /\ is_admin self' = is_admin self /\ current_user self' = current_user self
      /\ (privileged r = true -> is_admin self = true)
  end.
Proof.
  intros Hcall. invert_accepted Hcall; simpl; by repeat split.
Qed.

Lemma accepted_requests_had_their_session_witness :
  is_logged_in alice_500 = true.
Proof.
  exact (proj1 (accepted_requests_had_their_session alice_500
                  (Withdrawal "00001" 5 None) _ _ eq_refl)).
Defined.





(** X7. The log after a run of events is the log before it followed by one
    record per accepted transaction request, in the order of the calls and
    with the code of the request (01 withdrawal ... 08 changeplan); logins,
    logouts, loads and refused requests add nothing. *)
Theorem log_follows_the_accepted_requests (events : list Event)
    (self self' : BankingSystem) :
  run self events = Some self' ->
  Transaction.code <$> transactions self'
  = ((Transaction.code <$> transactions self) ++ accepted_codes self events)%list.
Proof.
  revert self. induction events as [|[parsed|r] rest IH]; simpl; intros self Hrun.
  - injection Hrun as <-. by rewrite app_nil_r.
  - by rewrite (IH _ Hrun).
  - destruct (call self r) as [mid success message|] eqn:Hcall; [|discriminate].
    rewrite (IH _ Hrun). destruct success.
    + invert_accepted Hcall; unfold accepted, recorded; simpl;
        rewrite ?fmap_app, <- ?app_assoc; done.
    + by apply call_failure in Hcall as ->.
Qed.

Lemma log_follows_the_accepted_requests_witness :
  Transaction.code <$> transactions alice_after_withdrawal = ["01"].
Proof.
  exact (log_follows_the_accepted_requests
           (alice_session ++ [Call (Withdrawal "00001" 500 None);
                              Call (Withdrawal "00001" 1 None)])
           __init__ alice_after_withdrawal eq_refl).
Defined.



(** X9. An admin has to name the account holder: in an admin session a
    withdrawal, bill payment or deposit called without a holder name is
    refused with the account-not-found message, and a transfer with the
    source-not-found message, whatever the account number and the amount;
    nothing changes. *)
Theorem admin_request_without_holder_is_refused (self : BankingSystem) :
  is_logged_in self = true -> is_admin self = true ->
  (forall n amount,
     process_withdrawal self n amount None = Return self false "Account not found.")
  /\ (forall n1 n2 amount,
        process_transfer self n1 n2 amount None
        = Return self false "Source account not found.")
  /\ (forall n amount company,
        process_paybill self n amount company None
        = Return self false "Account not found.")
  /\ (forall n amount,
        process_deposit self n amount None = Return self false "Account not found.").
Proof.
  intros Hin Hadm.
  unfold process_withdrawal, process_transfer, process_paybill, process_deposit,
    acting_owner.
  rewrite Hin, Hadm. simpl.
  repeat split; intros; by rewrite find_user_account_None.
Qed.

Lemma admin_request_without_holder_is_refused_witness :
  process_withdrawal
    (mkBankingSystem [alice; bob] [] true true (Some "Admin") 0 0 0) "00001" 5 None
  = Return (mkBankingSystem [alice; bob] [] true true (Some "Admin") 0 0 0) false
      "Account not found.".
Proof.
  exact (proj1 (admin_request_without_holder_is_refused
                  (mkBankingSystem [alice; bob] [] true true (Some "Admin") 0 0 0)
                  eq_refl eq_refl) "00001" 5%float).
Defined.

(** X10. What the validators allow a standard user they allow an admin,
    with any running total; and when they refuse an admin, they refuse a
    standard user too, with the same message unless the standard user hits
    the session cap first. *)
Theorem admin_is_allowed_what_a_standard_user_is :
  (forall account amount total total',
     validate_withdrawal account amount false total = None ->
     validate_withdrawal account amount true total' = None)
  /\ (forall source target amount total total',
        validate_transfer source target amount false total = None ->
        validate_transfer source target amount true total' = None)
  /\ (forall account amount company total total',
        validate_paybill account amount company false total = None ->
        validate_paybill account amount company true total' = None)
  /\ (forall account amount total total' error,
        validate_withdrawal account amount true total' = Some error ->
        validate_withdrawal account amount false total = Some error
        \/ validate_withdrawal account amount false total
           = Some "Maximum withdrawal per session is $500.00.")
  /\ (forall source target amount total total' error,
        validate_transfer source target amount true total' = Some error ->
        validate_transfer source target amount false total = Some error
        \/ validate_transfer source target amount false total
           = Some "Maximum transfer per session is $1000.00.")
  /\ (forall account amount company total total' error,
        validate_paybill account amount company true total' = Some error ->
        validate_paybill account amount company false total = Some error
        \/ validate_paybill account amount company false total
           = Some "Maximum paybill per session is $2000.00.").
Proof.
  unfold validate_withdrawal, validate_transfer, validate_paybill.
  repeat split; intros; repeat case_match; simplify_eq/=; auto.
Qed.

Lemma admin_is_allowed_what_a_standard_user_is_witness :
  validate_withdrawal (Some alice) 100 true 450 = None.
Proof.
  exact (proj1 admin_is_allowed_what_a_standard_user_is
           (Some alice) 100%float 0%float 450%float eq_refl).
Defined.

(** X11. An accepted bill payment is for one of the companies EC, CQ and
    FI, takes the amount off the balance of the resolved account and leaves
    the other accounts alone, appends a record with code 03, the amount and
    the company as misc field, and adds the amount to the paybill total
    only. *)
Theorem paybill_debits_and_records (self : BankingSystem) (n : string)
    (amount : float) (company : string) (h : option string)
    (self' : BankingSystem) (message : string) :
  process_paybill self n amount company h = Return self' true message ->
  company ∈ ["EC"; "CQ"; "FI"]
  /\ (exists i a,
        find_user_account self (acting_owner self h) n = Some (i, a)
        /\ accounts self' !! i
           = Some (mkAccount (account_number a) (holder_name a) (status a)
                     (PrimFloat.sub (balance a) amount))
        /\ forall k, k <> i -> accounts self' !! k = accounts self !! k)
  /\ (exists owner,
        acting_owner self h = Some owner
        /\ transactions self'
           = (transactions self
                ++ [Transaction.mkTransaction "03" owner n amount company])%list)
  /\ session_paybills self' = PrimFloat.add (session_paybills self) amount
  /\ session_withdrawals self' = session_withdrawals self
  /\ session_transfers self' = session_transfers self.
Proof.
  intros Hcall.
  apply process_paybill_success in Hcall
    as (_ & i & a & Hfind & _ & Hcomp & _ & _ & Hbal & ->).
  pose proof (find_user_account_lookup _ _ _ _ _ Hfind) as (Hl & Hown & _).
  split; [done|]. simpl. split; [|split].
  - exists i, a. split; [done|]. split.
    + rewrite list_lookup_alter_eq, Hl. simpl. by rewrite withdraw_covered.
    + intros k Hk. by apply list_lookup_alter_ne.
  - exists (get_holder_name a). split; [done|]. by rewrite <- Hown.
  - done.
Qed.

Lemma paybill_debits_and_records_witness :
  session_paybills
    (state_of (process_paybill alice_500 "00001" 40 "EC" None) alice_500)
  = 40%float.
Proof.
  exact (proj1 (proj2 (proj2 (proj2
           (paybill_debits_and_records alice_500 "00001" 40 "EC" None _ _
              eq_refl))))).
Defined.

(** ** Facts about stripping, slicing and searching *)

Module StripFacts.
Import Py.

Lemma length_substring_le (n m : nat) (s : string) :
  (String.length (String.substring n m s) <= m)%nat.
Proof.
  revert n m. induction s as [|c s IH]; intros [|n] [|m]; simpl; try lia.
  - specialize (IH 0%nat m). lia.
  - apply (IH n 0%nat).
  - apply (IH n (S m)).
Qed.

Lemma length_slice_le (a b : nat) (s : string) :
  (String.length (slice a b s) <= b - a)%nat.
Proof. apply length_substring_le. Qed.

Lemma length_str_lstrip_le (s : string) :
  (String.length (str_lstrip s) <= String.length s)%nat.
Proof. induction s as [|c s IH]; simpl; [lia|]. destruct (isspace c); simpl; lia. Qed.

Lemma length_str_rstrip_le (s : string) :
  (String.length (str_rstrip s) <= String.length s)%nat.
Proof.
  induction s as [|c s IH]; simpl; [lia|].
  destruct (str_rstrip s); [destruct (isspace c)|]; simpl in *; lia.
Qed.

Lemma length_str_strip_le (s : string) :
  (String.length (str_strip s) <= String.length s)%nat.
Proof.
  unfold str_strip. pose proof (length_str_rstrip_le (str_lstrip s)).
  pose proof (length_str_lstrip_le s). lia.
Qed.

(** What [str_lstrip] returns is empty or starts with a character that is
    no white space. *)
Lemma str_lstrip_head (s : string) :
  match str_lstrip s with
  | String c _ => isspace c = false
  | EmptyString => True
  end.
Proof. induction s as [|c s IH]; simpl; [done|]. by destruct (isspace c) eqn:?. Qed.

Lemma str_rstrip_idempotent (s : string) : str_rstrip (str_rstrip s) = str_rstrip s.
Proof.
  induction s as [|c s IH]; simpl; [done|].
  destruct (str_rstrip s) as [|c' r] eqn:Hr.
  - destruct (isspace c) eqn:Hc; simpl; [done|]. by rewrite Hc.
  - simpl in *. rewrite IH. done.
Qed.

Lemma str_rstrip_head (c : ascii) (s : string) :
  isspace c = false ->
  exists r, str_rstrip (String c s) = String c r.
Proof.
  intros Hc. simpl. destruct (str_rstrip s); [rewrite Hc|]; eauto.
Qed.

(** Stripping twice is stripping once. *)
Lemma str_strip_idempotent (s : string) : str_strip (str_strip s) = str_strip s.
Proof.
  unfold str_strip. pose proof (str_lstrip_head s) as Hhead.
  destruct (str_lstrip s) as [|c t]; [done|].
  destruct (str_rstrip_head c t Hhead) as [r Hr]. rewrite Hr.
  cbn [str_lstrip]. rewrite Hhead, <- Hr. apply str_rstrip_idempotent.
Qed.

(** A text made of white space only. *)
Fixpoint all_space (s : string) : bool :=
  match s with
  | String c rest => isspace c && all_space rest
  | EmptyString => true
  end.

Lemma str_rstrip_empty (s : string) : str_rstrip s = "" -> all_space s = true.
Proof.
  induction s as [|c s IH]; simpl; [done|].
  destruct (str_rstrip s); [|discriminate].
  destruct (isspace c); [|discriminate]. intros _. by apply IH.
Qed.

Lemma str_lstrip_suffix (s : string) :
  all_space (str_lstrip s) = true -> all_space s = true.
Proof.
  induction s as [|c s IH]; simpl; [done|].
  destruct (isspace c) eqn:Hc; simpl; [done|]. by rewrite Hc.
Qed.

Lemma str_strip_empty (s : string) : str_strip s = "" -> all_space s = true.
Proof. intros H. by apply str_lstrip_suffix, str_rstrip_empty. Qed.

Lemma contains_cons (needle : string) (c : ascii) (s : string) :
  contains needle (String c s)
  = String.prefix needle (String c s) || contains needle s.
Proof. reflexivity. Qed.

(** A blank line does not hold the end marker. *)
Lemma all_space_no_marker (s : string) :
  all_space s = true -> contains "END_OF_FILE" s = false.
Proof.
  induction s as [|c s IH]; [done|].
  intros [Hc Hs]%andb_true_iff. rewrite contains_cons, (IH Hs), orb_false_r.
  change (String.prefix "END_OF_FILE" (String c s))
    with (if Ascii.ascii_dec "E" c then String.prefix "ND_OF_FILE" s else false).
  by destruct (Ascii.ascii_dec "E" c) as [<-|Hne].
Qed.

End StripFacts.

(** ** More facts about the comparisons of floats *)

Module MoreFloatFacts.

Lemma SFcompare_refl (f : spec_float) :
  f <> S754_nan -> SFcompare f f = Some Eq.
Proof.
  destruct f as [s|s| |s m e]; simpl; try done; intros _; try by destruct s.
  rewrite Z.compare_refl.
  change (PosDef.Pos.compare_cont Eq m m) with (Pos.compare m m).
  rewrite Pos.compare_refl. by destruct s.
Qed.

Lemma SFcompare_not_nan (f1 f2 : spec_float) (c : comparison) :
  SFcompare f1 f2 = Some c -> f1 <> S754_nan /\ f2 <> S754_nan.
Proof. destruct f1, f2; simpl; try discriminate; done. Qed.

Lemma is_nan_Prim2SF (x : float) : Prim2SF x <> S754_nan -> is_nan x = false.
Proof.
  intros H. unfold is_nan. rewrite FloatAxioms.eqb_spec. unfold SFeqb.
  by rewrite SFcompare_refl.
Qed.

(** [x < y] excludes [y <= x], and makes both of them numbers. *)
Lemma lt_not_ge (x y : float) :
  PrimFloat.ltb x y = true ->
  PrimFloat.leb y x = false /\ is_nan x = false /\ is_nan y = false.
Proof.
  rewrite FloatAxioms.ltb_spec, FloatAxioms.leb_spec. unfold SFltb, SFleb.
  rewrite (FloatFacts.SFcompare_swap (Prim2SF x) (Prim2SF y)).
  destruct (SFcompare (Prim2SF x) (Prim2SF y)) as [[]|] eqn:Hc; try discriminate.
  intros _. apply SFcompare_not_nan in Hc as [Hx Hy].
  split; [done|]. split; by apply is_nan_Prim2SF.
Qed.

(** [x <= y] excludes [y < x], and makes both of them numbers. *)
Lemma le_not_gt (x y : float) :
  PrimFloat.leb x y = true ->
  PrimFloat.ltb y x = false /\ is_nan x = false /\ is_nan y = false.
Proof.
  rewrite FloatAxioms.ltb_spec, FloatAxioms.leb_spec. unfold SFltb, SFleb.
  rewrite (FloatFacts.SFcompare_swap (Prim2SF x) (Prim2SF y)).
  destruct (SFcompare (Prim2SF x) (Prim2SF y)) as [[]|] eqn:Hc; try discriminate;
    intros _; apply SFcompare_not_nan in Hc as [Hx Hy];
    (split; [done|]); split; by apply is_nan_Prim2SF.
Qed.

End MoreFloatFacts.

(** ** Facts about the loop of the accounts-file parser *)

Module ParserFacts.
Import Py Account FileHandler StripFacts.

Lemma parse_account_line_Some (line : string) (a : Account) :
  parse_account_line line = Some a ->
  (37 <= String.length line)%nat
  /\ account_number a = str_strip (slice 0 5 line)
  /\ holder_name a = str_strip (slice 6 26 line)
  /\ status a = str_strip (slice 27 28 line)
  /\ float_of_str (str_strip (slice 29 37 line)) = Some (balance a).
Proof.
  unfold parse_account_line.
  destruct (Nat.ltb_spec (String.length line) 37) as [|Hlen]; [discriminate|].
  destruct (float_of_str _) as [b|] eqn:Hb; [|discriminate].
  intros [= <-]. by repeat split.
Qed.

(** Every account that the loop gives comes from one of the lines. *)
Lemma parse_account_lines_from_line (lines : list string) (a : Account) :
  a ∈ parse_account_lines lines ->
  exists line, line ∈ lines /\ contains "END_OF_FILE" line = false
               /\ parse_account_line line = Some a.
Proof.
  induction lines as [|line rest IH]; simpl; [by intros ?%elem_of_nil|].
  destruct (String.eqb (str_strip line) "").
  { intros (l & ? & ?)%IH. exists l. split; [by right | done]. }
  destruct (contains "END_OF_FILE" line) eqn:Hm; [by intros ?%elem_of_nil|].
  destruct (parse_account_line line) as [b|] eqn:Hp.
  - intros [->|Hin]%elem_of_cons.
    + exists line. split; [by left | done].
    + apply IH in Hin as (l & ? & ?). exists l. split; [by right | done].
  - intros (l & ? & ?)%IH. exists l. split; [by right | done].
Qed.

Lemma length_parse_account_lines (lines : list string) :
  (length (parse_account_lines lines) <= length lines)%nat.
Proof.
  induction lines as [|line rest IH]; simpl; [lia|].
  repeat case_match; simpl; lia.
Qed.

Lemma all_space_substring (n m : nat) (s : string) :
  all_space s = true -> all_space (String.substring n m s) = true.
Proof.
  revert n m. induction s as [|c s IH]; intros [|n] [|m]; simpl; try done;
    intros [Hc Hs]%andb_true_iff; [rewrite Hc|..]; simpl; by apply IH.
Qed.

Lemma str_lstrip_all_space (s : string) : all_space s = true -> str_lstrip s = "".
Proof.
  induction s as [|c s IH]; simpl; [done|].
  intros [-> Hs]%andb_true_iff. by apply IH.
Qed.

Lemma str_strip_all_space (s : string) : all_space s = true -> str_strip s = "".
Proof. intros H. unfold str_strip. by rewrite str_lstrip_all_space. Qed.

(** A blank line has blank balance columns, which are no number. *)
Lemma blank_line_has_no_balance (line : string) :
  all_space line = true -> float_of_str (str_strip (slice 29 37 line)) = None.
Proof.
  intros H. unfold slice.
  by rewrite (str_strip_all_space _ (all_space_substring _ _ _ H)).
Qed.

End ParserFacts.

(** ** The accounts file and the console's amounts *)

Import MoreFloatFacts StripFacts ParserFacts.

(** X12. Every account that [parse_accounts_file] returns comes from one
    line of the text, at least 37 characters long and without the end
    marker: its number, holder name and status are the stripped columns
    0-4, 6-25 and 27 of that line, so they have at most 5, 20 and 1
    characters and no white space at either end, and its balance is what
    [float] reads in columns 29-36. There are at most as many accounts as
    lines. *)
Theorem parsed_accounts_fit_their_fields (file_content : string) :
  (forall a,
     a ∈ FileHandler.parse_accounts_file file_content ->
     (exists line,
        line ∈ Py.splitlines file_content
        /\ (37 <= String.length line)%nat
        /\ Py.contains "END_OF_FILE" line = false
        /\ account_number a = Py.str_strip (Py.slice 0 5 line)
        /\ holder_name a = Py.str_strip (Py.slice 6 26 line)
        /\ status a = Py.str_strip (Py.slice 27 28 line)
        /\ Py.float_of_str (Py.str_strip (Py.slice 29 37 line)) = Some (balance a))
     /\ (String.length (account_number a) <= 5)%nat
     /\ (String.length (holder_name a) <= 20)%nat
     /\ (String.length (status a) <= 1)%nat
     /\ Py.str_strip (account_number a) = account_number a
     /\ Py.str_strip (holder_name a) = holder_name a
     /\ Py.str_strip (status a) = status a)
  /\ (length (FileHandler.parse_accounts_file file_content)
      <= length (Py.splitlines file_content))%nat.
Proof.
  split; [|apply length_parse_account_lines].
  intros a (line & Hin & Hm & Hp)%parse_account_lines_from_line.
  apply parse_account_line_Some in Hp as (Hlen & Hn & Hh & Hs & Hb).
  split; [by exists line|].
  rewrite Hn, Hh, Hs, !str_strip_idempotent.
  pose proof (length_str_strip_le (Py.slice 0 5 line)).
  pose proof (length_str_strip_le (Py.slice 6 26 line)).
  pose proof (length_str_strip_le (Py.slice 27 28 line)).
  pose proof (length_slice_le 0 5 line).
  pose proof (length_slice_le 6 26 line).
  pose proof (length_slice_le 27 28 line).
  repeat split; lia.
Qed.

Lemma parsed_accounts_fit_their_fields_witness :
  FileHandler.parse_accounts_file
    ("00001 Alice                A 01000.00" +:+ Py.nl
     +:+ "00002 Bob                  D 00050.50" +:+ Py.nl
     +:+ "short line" +:+ Py.nl
     +:+ "END_OF_FILE" +:+ Py.nl
     +:+ "00003 Carol                A 00007.00" +:+ Py.nl)
  = [mkAccount "00001" "Alice" "A" 1000; mkAccount "00002" "Bob" "D" 50.5]
  /\ (String.length (account_number (mkAccount "00001" "Alice" "A" 1000)) <= 5)%nat.
Proof.
  split; [vm_compute; reflexivity|].
  refine (proj1 (proj2 (proj1 (parsed_accounts_fit_their_fields
            ("00001 Alice                A 01000.00" +:+ Py.nl
             +:+ "00002 Bob                  D 00050.50" +:+ Py.nl
             +:+ "short line" +:+ Py.nl
             +:+ "END_OF_FILE" +:+ Py.nl
             +:+ "00003 Carol                A 00007.00" +:+ Py.nl)) _ _))).
  replace (FileHandler.parse_accounts_file _)
    with [mkAccount "00001" "Alice" "A" 1000; mkAccount "00002" "Bob" "D" 50.5]
    by (vm_compute; reflexivity).
  apply list_elem_of_here.
Defined.

(** X13. The loop of [parse_accounts_file] stops at the first line that
    holds END_OF_FILE, whatever follows it; it passes over a blank line, a
    line of fewer than 37 characters and a line whose balance columns are
    no number, without stopping; and an account read from a line before any
    end marker is in the result. *)
Theorem parser_skips_and_stops (before after : list string) (line : string) :
  (Py.contains "END_OF_FILE" line = true ->
   FileHandler.parse_account_lines (before ++ line :: after)
   = FileHandler.parse_account_lines before)
  /\ (Py.str_strip line = ""
      \/ (Py.contains "END_OF_FILE" line = false
          /\ ((String.length line < 37)%nat
              \/ Py.float_of_str (Py.str_strip (Py.slice 29 37 line)) = None)) ->
      FileHandler.parse_account_lines (before ++ line :: after)
      = FileHandler.parse_account_lines (before ++ after))
  /\ (forall a,
        Forall (fun l => Py.contains "END_OF_FILE" l = false) before ->
        Py.contains "END_OF_FILE" line = false ->
        FileHandler.parse_account_line line = Some a ->
        a ∈ FileHandler.parse_account_lines (before ++ line :: after)).
Proof.
  split; [|split].
  - intros Hm. induction before as [|l rest IH]; simpl.
    + destruct (String.eqb_spec (Py.str_strip line) "") as [Hblank|_].
      * apply str_strip_empty, all_space_no_marker in Hblank. congruence.
      * by rewrite Hm.
    + by rewrite IH.
  - intros Hskip. induction before as [|l rest IH]; simpl; [|by rewrite IH].
    destruct (String.eqb_spec (Py.str_strip line) "") as [|Hnb]; [done|].
    destruct Hskip as [|[-> Hbad]]; [done|].
    unfold FileHandler.parse_account_line.
    destruct Hbad as [Hshort| ->].
    + by destruct (Nat.ltb_spec (String.length line) 37); [|lia].
    + by destruct (String.length line <? 37)%nat.
  - intros a Hbefore Hm Hp.
    induction Hbefore as [|l rest Hl _ IH]; simpl.
    + destruct (String.eqb_spec (Py.str_strip line) "") as [Hblank|_].
      * unfold FileHandler.parse_account_line in Hp.
        destruct (Nat.ltb_spec (String.length line) 37) as [|Hlen];
          [discriminate|].
        apply str_strip_empty in Hblank.
        exfalso. clear -Hblank Hlen Hp.
        assert (Py.float_of_str (Py.str_strip (Py.slice 29 37 line)) = None)
          as Hnone by (by apply blank_line_has_no_balance).
        by rewrite Hnone in Hp.
      * rewrite Hm, Hp. by left.
    + rewrite Hl. repeat case_match; try done; by right.
Qed.

Lemma parser_skips_and_stops_witness :
  FileHandler.parse_account_lines
    (["00001 Alice                A 01000.00"]
     ++ "END_OF_FILE" :: ["00003 Carol                A 00007.00"])
  = FileHandler.parse_account_lines ["00001 Alice                A 01000.00"].
Proof.
  exact (proj1 (parser_skips_and_stops
                  ["00001 Alice                A 01000.00"]
                  ["00003 Carol                A 00007.00"] "END_OF_FILE")
           eq_refl).
Defined.

(** X14. An amount that [parse_positive_amount] lets through is a number
    greater than zero, and one that [parse_non_negative_amount] lets through
    is a number not below zero; neither is ever NaN. So for an amount typed
    at the console no validator answers that the amount must be positive,
    and [validate_create] never answers that the balance is negative. *)
Theorem console_amounts_pass_the_sign_checks (text : string) (x : float) :
  (BankingConsole.parse_positive_amount text = Some x ->
   Py.float_of_str text = Some x
   /\ PrimFloat.ltb 0 x = true /\ PrimFloat.leb x 0 = false /\ is_nan x = false
   /\ (forall account is_admin total,
         validate_withdrawal account x is_admin total
         <> Some "Amount must be positive.")
   /\ (forall source target is_admin total,
         validate_transfer source target x is_admin total
         <> Some "Amount must be positive.")
   /\ (forall account company is_admin total,
         validate_paybill account x company is_admin total
         <> Some "Amount must be positive.")
   /\ (forall account,
         validate_deposit account x <> Some "Amount must be positive."))
  /\ (BankingConsole.parse_non_negative_amount text = Some x ->
      Py.float_of_str text = Some x
      /\ PrimFloat.leb 0 x = true /\ PrimFloat.ltb x 0 = false /\ is_nan x = false
      /\ (forall holder account_exists,
            validate_create holder x account_exists
            <> Some "Initial balance cannot be negative.")).
Proof.
  unfold BankingConsole.parse_positive_amount,
    BankingConsole.parse_non_negative_amount.
  destruct (Py.float_of_str text) as [y|]; [|by split].
  split.
  - destruct (PrimFloat.ltb 0 y) eqn:Hlt; [|discriminate]. intros [= ->].
    destruct (lt_not_ge _ _ Hlt) as (Hle & _ & Hnan).
    split; [done|]. split; [done|]. split; [done|]. split; [done|].
    unfold validate_withdrawal, validate_transfer, validate_paybill,
      validate_deposit.
    rewrite Hle. repeat split; intros; repeat case_match; discriminate.
  - destruct (PrimFloat.leb 0 y) eqn:Hle; [|discriminate]. intros [= ->].
    destruct (le_not_gt _ _ Hle) as (Hlt & _ & Hnan).
    split; [done|]. split; [done|]. split; [done|]. split; [done|].
    unfold validate_create. rewrite Hlt. intros; repeat case_match; discriminate.
Qed.

Lemma console_amounts_pass_the_sign_checks_witness :
  BankingConsole.parse_positive_amount "12.50" = Some 12.5%float
  /\ PrimFloat.ltb 0 12.5 = true.
Proof.
  split; [vm_compute; reflexivity|].
  refine (proj1 (proj2 (proj1 (console_amounts_pass_the_sign_checks "12.50" 12.5) _))).
  vm_compute. reflexivity.
Defined.

(** What the console's amount parsers do with the edge cases: words, zero,
    negative numbers and NaN are refused, an infinity is a positive amount,
    and minus zero is a non-negative one. *)
Example console_amount_edge_cases :
  BankingConsole.parse_positive_amount "abc" = None
  /\ BankingConsole.parse_positive_amount "0" = None
  /\ BankingConsole.parse_positive_amount "-5" = None
  /\ BankingConsole.parse_positive_amount "nan" = None
  /\ BankingConsole.parse_positive_amount "inf" = Some infinity
  /\ BankingConsole.parse_positive_amount "1_000.5" = Some 1000.5%float
  /\ BankingConsole.parse_non_negative_amount "0" = Some 0%float
  /\ BankingConsole.parse_non_negative_amount "-0" = Some neg_zero
  /\ BankingConsole.parse_non_negative_amount "-0.01" = None
  /\ BankingConsole.parse_non_negative_amount "nan" = None.
Proof. repeat split; vm_compute; reflexivity. Qed.

(** ** Facts about fixed-width lines *)

Module LineFacts.
Import Py StringFacts StripFacts.

Lemma substring_append_exact (a b : string) (m : nat) :
  String.length a = m -> String.substring 0 m (a +:+ b) = a.
Proof.
  revert m. induction a as [|c a IH]; intros m Hm; simpl in Hm; subst m.
  - by destruct b.
  - rewrite FileFacts.append_cons. simpl. by rewrite IH.
Qed.

Lemma substring_append_skip (a b : string) (k n m : nat) :
  String.length a = k ->
  String.substring (k + n) m (a +:+ b) = String.substring n m b.
Proof.
  revert k. induction a as [|c a IH]; intros k Hk; simpl in Hk; subst k; [done|].
  rewrite FileFacts.append_cons. simpl. by apply IH.
Qed.

Lemma substring_append_from (a b : string) (k n m : nat) :
  String.length a = k -> (k <= n)%nat ->
  String.substring n m (a +:+ b) = String.substring (n - k) m b.
Proof.
  intros Hk Hle. replace n with (k + (n - k))%nat at 1 by lia.
  by apply substring_append_skip.
Qed.

Lemma substring_whole (s : string) (m : nat) :
  String.length s = m -> String.substring 0 m s = s.
Proof.
  intros H. rewrite <- (FileFacts.append_empty_r s) at 1.
  rewrite substring_append_exact; done.
Qed.





(** The marker does not fit into fewer characters than it has. *)
Lemma contains_length (needle s : string) :
  contains needle s = true -> (String.length needle <= String.length s)%nat.
Proof.
  induction s as [|c s IH].
  - destruct needle; [simpl; lia | discriminate].
  - rewrite contains_cons. intros [Hp|Hc]%orb_true_iff.
    + clear IH. revert c s Hp. induction needle as [|a needle IHn]; intros c s Hp.
      * simpl. lia.
      * change (String.prefix (String a needle) (String c s))
          with (if Ascii.ascii_dec a c then String.prefix needle s else false) in Hp.
        destruct (Ascii.ascii_dec a c); [|discriminate].
        destruct s as [|c' s'].
        { destruct needle; [simpl; lia | discriminate]. }
        specialize (IHn c' s' Hp). simpl in *. lia.
    + specialize (IH Hc). simpl. lia.
Qed.

End LineFacts.

(** ** The fixed-width lines *)

Import StringFacts LineFacts.

(** X15. A transaction line has the characters of its code, 25 characters
    for the separators, the name and the misc field, and at least 5 and 8
    for the account number and the amount. When the code has two
    characters, the number at most five and the printed amount at most
    eight, the line has exactly 40 characters and its fields stand in fixed
    columns: code 0-1, name 3-22, account number 24-28, amount 30-37, misc
    38-39. *)
Theorem transaction_line_has_fixed_columns (t : Transaction.Transaction) :
  String.length (Transaction.to_file_string t)
  = (String.length (Transaction.code t) + 25
     + Nat.max 5 (String.length (Transaction.account_number t))
     + Nat.max 8 (String.length (Py.format_2f (Transaction.amount t))))%nat
  /\ (String.length (Transaction.code t) = 2%nat ->
      (String.length (Transaction.account_number t) <= 5)%nat ->
      (String.length (Py.format_2f (Transaction.amount t)) <= 8)%nat ->
      let line := Transaction.to_file_string t in
      String.length line = 40%nat
      /\ Py.slice 0 2 line = Transaction.code t
      /\ Py.slice 3 23 line
         = Py.slice_to 20 (Py.ljust 20 (Transaction.account_holder_name t))
      /\ Py.slice 24 29 line = Py.zfill 5 (Transaction.account_number t)
      /\ Py.slice 30 38 line = Py.zfill 8 (Py.format_2f (Transaction.amount t))
      /\ Py.slice 38 40 line = Py.slice_to 2 (Py.ljust 2 (Transaction.misc t))
      /\ Py.slice 2 3 line = " " /\ Py.slice 23 24 line = " "
      /\ Py.slice 29 30 line = " ").
Proof.
  unfold Transaction.to_file_string.
  set (code := Transaction.code t).
  set (name := Py.slice_to 20 (Py.ljust 20 (Transaction.account_holder_name t))).
  set (num := Py.zfill 5 (Transaction.account_number t)).
  set (amt := Py.zfill 8 (Py.format_2f (Transaction.amount t))).
  set (misc := Py.slice_to 2 (Py.ljust 2 (Transaction.misc t))).
  assert (String.length name = 20%nat) as Hname by apply length_field.
  assert (String.length misc = 2%nat) as Hmisc by apply length_field.
  assert (String.length num
          = Nat.max 5 (String.length (Transaction.account_number t))) as Hnum
    by apply length_zfill.
  assert (String.length amt
          = Nat.max 8 (String.length (Py.format_2f (Transaction.amount t))))
    as Hamt by apply length_zfill.
  split.
  { rewrite !length_append, Hname, Hmisc, Hnum, Hamt. simpl. lia. }
  intros Hcode Hn Ha. cbv zeta.
  assert (String.length num = 5%nat) as Hnum5 by lia.
  assert (String.length amt = 8%nat) as Hamt8 by lia.
  split; [rewrite !length_append, Hname, Hmisc, Hnum5, Hamt8, Hcode; simpl; lia|].
  unfold Py.slice.
  repeat split;
    repeat first
      [ rewrite substring_append_exact by (simpl; lia)
      | rewrite substring_whole by (simpl; lia)
      | rewrite (substring_append_from code _ 2) by (simpl; lia)
      | rewrite (substring_append_from " " _ 1) by (simpl; lia)
      | rewrite (substring_append_from name _ 20) by (simpl; lia)
      | rewrite (substring_append_from num _ 5) by (simpl; lia)
      | rewrite (substring_append_from amt _ 8) by (simpl; lia)
      | progress simpl Nat.sub ];
    try done.
Qed.

Lemma transaction_line_has_fixed_columns_witness :
  String.length
    (Transaction.to_file_string (Transaction.mkTransaction "01" "Alice" "00001" 500 "  "))
  = 40%nat.
Proof.
  exact (proj1 (proj2 (transaction_line_has_fixed_columns
                         (Transaction.mkTransaction "01" "Alice" "00001" 500 "  "))
                  eq_refl (le_n 5) (le_S _ _ (le_S _ _ (le_n 6))))).
Defined.



(** ** The records and the accounts they name *)

Module RecordFacts.
Import Account Validator ValidatorFacts BankingSystem Session Notions ControllerFacts.

Lemma validate_deposit_None account amount :
  validate_deposit account amount = None ->
  exists a, account = Some a /\ is_disabled a = false
            /\ PrimFloat.leb amount 0 = false.
Proof.
  unfold validate_deposit. destruct account as [a|]; [|discriminate].
  destruct (is_disabled a) eqn:E; [discriminate|].
  destruct (PrimFloat.leb amount 0) eqn:E'; [discriminate|]. eauto.
Qed.

Lemma validate_account_exists_None account :
  validate_account_exists account = None -> exists a, account = Some a.
Proof. destruct account as [a|]; [eauto|discriminate]. Qed.

Lemma process_deposit_found self n amount h self' message :
  process_deposit self n amount h = Return self' true message ->
  exists i a, find_user_account self (acting_owner self h) n = Some (i, a)
              /\ is_disabled a = false /\ PrimFloat.leb amount 0 = false.
Proof.
  unfold process_deposit.
  destruct (is_logged_in self); simpl; [|discriminate].
  on_validation Hv; try discriminate.
  - by apply validate_deposit_nonempty in Hv.
  - apply validate_deposit_None in Hv as (a & Ha & Hd & Hpos).
    apply fmap_snd_Some in Ha as [i ->]. eauto.
Qed.

Lemma process_delete_found self h n self' message :
  process_delete self h n = Return self' true message ->
  exists i a, find_user_account self (Some h) n = Some (i, a).
Proof.
  unfold process_delete.
  destruct (is_logged_in self); simpl; [|discriminate].
  destruct (is_admin self); simpl; [|discriminate].
  on_validation Hv; try discriminate.
  - by apply validate_account_exists_nonempty in Hv.
  - apply validate_account_exists_None in Hv as (a & Ha).
    apply fmap_snd_Some in Ha as [i ->]. eauto.
Qed.

Lemma process_changeplan_found self h n self' message :
  process_changeplan self h n = Return self' true message ->
  exists i a, find_user_account self (Some h) n = Some (i, a).
Proof.
  unfold process_changeplan.
  destruct (is_logged_in self); simpl; [|discriminate].
  destruct (is_admin self); simpl; [|discriminate].
  on_validation Hv; try discriminate.
  - by apply validate_account_exists_nonempty in Hv.
  - apply validate_account_exists_None in Hv as (a & Ha).
    apply fmap_snd_Some in Ha as [i ->]. eauto.
Qed.

(** The account that a lookup by holder and number found is named by a
    record written for that owner and number. *)
Lemma found_account_is_named self owner n i a :
  find_user_account self owner n = Some (i, a) ->
  accounts self !! i = Some a
  /\ account_number a = n /\ holder_name a = owner_name owner.
Proof.
  intros H. apply find_user_account_lookup in H as (Hl & Hown & Hn).
  repeat split; try done. by rewrite <- Hown.
Qed.

End RecordFacts.

Import RecordFacts.

(** X17. The record of an accepted request other than a create names an
    account of the list as it was before the call: the record's account
    number and holder name are the number and the holder name of that
    account. For a withdrawal, a transfer, a bill payment, a deposit and a
    disable that account was not disabled; for a transfer the misc field
    holds the last two characters of the zero-filled number of a
    destination account that is in the list and not disabled either. *)
Theorem records_name_existing_accounts (self : BankingSystem) (r : Request)
    (self' : BankingSystem) (message c : string) :
  call self r = Return self' true message ->
  record_code r = Some c ->
  c <> "05" ->
  exists t i a,
    transactions self' = (transactions self ++ [t])%list
    /\ Transaction.code t = c
    /\ accounts self !! i = Some a
    /\ account_number a = Transaction.account_number t
    /\ holder_name a = Transaction.account_holder_name t
    /\ (c ∈ ["01"; "02"; "03"; "04"; "07"] -> is_disabled a = false)
    /\ (c = "02" ->
        exists j b,
          accounts self !! j = Some b /\ is_disabled b = false
          /\ Transaction.misc t = Py.last2 (Py.zfill 5 (account_number b))).
Proof.
  intros Hcall Hcode Hnot.
  destruct r; simpl in Hcall, Hcode; try discriminate;
    injection Hcode as <-; try done.
  - apply process_withdrawal_success in Hcall
      as (_ & i & a & Hfind & Hdis & _ & _ & _ & ->).
    apply found_account_is_named in Hfind as (Hl & Hn & Hh).
    eexists _, i, a. simpl. repeat split; try done.
  - apply process_transfer_success in Hcall
      as (_ & i & a & j & b & Hfind & Hfind' & Hdis & Hdis' & _ & _ & _ & ->).
    apply found_account_is_named in Hfind as (Hl & Hn & Hh).
    apply find_account_by_number_lookup in Hfind' as (Hl' & Hn').
    eexists _, i, a. simpl. repeat split; try done.
    intros _. exists j, b. repeat split; try done.
    unfold get_account_number in Hn'. by rewrite Hn'.
  - apply process_paybill_success in Hcall
      as (_ & i & a & Hfind & Hdis & _ & _ & _ & _ & ->).
    apply found_account_is_named in Hfind as (Hl & Hn & Hh).
    eexists _, i, a. simpl. repeat split; try done.
  - pose proof (process_deposit_found _ _ _ _ _ _ Hcall)
      as (i & a & Hfind & Hdis & _).
    apply process_deposit_success in Hcall as (_ & ->).
    apply found_account_is_named in Hfind as (Hl & Hn & Hh).
    eexists _, i, a. simpl. repeat split; try done.
  - pose proof (process_delete_found _ _ _ _ _ Hcall) as (i & a & Hfind).
    apply process_delete_success in Hcall as (_ & _ & ->).
    apply found_account_is_named in Hfind as (Hl & Hn & Hh).
    eexists _, i, a. simpl. repeat split; try done.
    intros Hin. exfalso. revert Hin. by apply (bool_decide_unpack _).
  - apply process_disable_success in Hcall
      as (_ & _ & i & a & Hfind & Hdis & ->).
    apply found_account_is_named in Hfind as (Hl & Hn & Hh).
    eexists _, i, a. simpl. repeat split; try done.
  - pose proof (process_changeplan_found _ _ _ _ _ Hcall) as (i & a & Hfind).
    apply process_changeplan_success in Hcall as (_ & _ & ->).
    apply found_account_is_named in Hfind as (Hl & Hn & Hh).
    eexists _, i, a. simpl. repeat split; try done.
    intros Hin. exfalso. revert Hin. by apply (bool_decide_unpack _).
Qed.

Lemma records_name_existing_accounts_witness :
  exists t i a,
    transactions (state_of (call alice_500 (Withdrawal "00001" 5 None)) alice_500)
    = (transactions alice_500 ++ [t])%list
    /\ Transaction.code t = "01"
    /\ accounts alice_500 !! i = Some a
    /\ account_number a = Transaction.account_number t
    /\ holder_name a = Transaction.account_holder_name t
    /\ ("01" ∈ ["01"; "02"; "03"; "04"; "07"] -> is_disabled a = false)
    /\ ("01" = "02" ->
        exists j b,
          accounts alice_500 !! j = Some b /\ is_disabled b = false
          /\ Transaction.misc t = Py.last2 (Py.zfill 5 (account_number b))).
Proof.
  exact (records_name_existing_accounts alice_500 (Withdrawal "00001" 5 None)
           _ _ "01" eq_refl eq_refl ltac:(discriminate)).
Defined.

(** ** Facts about binary64 subtraction and addition *)

Module ArithFacts.

(** A result of rounding carries the sign it was given, or is no number. *)
Lemma binary_round_aux_sign (s : bool) (m e : Z) (l : location) :
  match binary_round_aux prec emax s m e l with
  | S754_zero s' | S754_infinity s' | S754_finite s' _ _ => s' = s
  | S754_nan => True
  end.
Proof.
  unfold binary_round_aux.
  destruct (shr_fexp prec emax m e l) as [mrs' e'].
  destruct (shr_fexp prec emax _ e' loc_Exact) as [mrs'' e''].
  destruct (shr_m mrs''); [done| |done]. by destruct (_ <=? _)%Z.
Qed.

Lemma binary_round_sign (s : bool) (m : positive) (e : Z) :
  match binary_round prec emax s m e with
  | S754_zero s' | S754_infinity s' | S754_finite s' _ _ => s' = s
  | S754_nan => True
  end.
Proof.
  unfold binary_round. destruct (shl_align _ _ _) as [mz ez].
  apply binary_round_aux_sign.
Qed.

(** Rounding an integer that is not negative gives nothing below zero. *)
Lemma binary_normalize_not_below_zero (m e : Z) :
  (0 <= m)%Z ->
  SFltb (binary_normalize prec emax m e false) (S754_zero false) = false.
Proof.
  intros Hm. destruct m as [|m|m]; [done| |lia]. simpl.
  pose proof (binary_round_sign false m e) as H.
  by destruct (binary_round prec emax false m e) as [s|s| |s ? ?]; subst.
Qed.

Lemma iter_xO (m d : positive) :
  Z.pos (Pos.iter xO m d) = (Z.pos m * 2 ^ Z.pos d)%Z.
Proof.
  induction d as [|d IH] using Pos.peano_ind.
  - simpl. lia.
  - rewrite Pos.iter_succ, Pos2Z.inj_succ, Z.pow_succ_r by lia.
    rewrite Pos2Z.inj_xO, IH. lia.
Qed.

(** The mantissa aligned to a smaller exponent. *)
Lemma shl_align_value (m : positive) (e e' : Z) :
  (e' <= e)%Z ->
  Z.pos (fst (shl_align m e e')) = (Z.pos m * 2 ^ (e - e'))%Z.
Proof.
  intros H. unfold shl_align.
  destruct (e' - e)%Z as [|d|d] eqn:E; simpl.
  - replace (e - e')%Z with 0%Z by lia. simpl. lia.
  - lia.
  - rewrite iter_xO. f_equal. f_equal. lia.
Qed.

Lemma digits2_pos_bounds (m : positive) :
  (2 ^ (Z.pos (digits2_pos m) - 1) <= Z.pos m < 2 ^ Z.pos (digits2_pos m))%Z.
Proof.
  induction m as [m IH|m IH|]; simpl digits2_pos.
  - rewrite Pos2Z.inj_succ, (Pos2Z.inj_xI m).
    replace (Z.succ (Z.pos (digits2_pos m)) - 1)%Z
      with (Z.succ (Z.pos (digits2_pos m) - 1))%Z by lia.
    rewrite !Z.pow_succ_r by lia. lia.
  - rewrite Pos2Z.inj_succ, (Pos2Z.inj_xO m).
    replace (Z.succ (Z.pos (digits2_pos m)) - 1)%Z
      with (Z.succ (Z.pos (digits2_pos m) - 1))%Z by lia.
    rewrite !Z.pow_succ_r by lia. lia.
  - simpl. lia.
Qed.

(** Of two binary64 values in canonical form, the one with the greater
    exponent has the greater magnitude. *)
Lemma greater_exponent_greater_value (m1 m2 : positive) (e1 e2 : Z) :
  bounded prec emax m1 e1 = true -> bounded prec emax m2 e2 = true ->
  (e2 < e1)%Z ->
  (Z.pos m2 < Z.pos m1 * 2 ^ (e1 - e2))%Z.
Proof.
  unfold bounded, canonical_mantissa, fexp, emin.
  intros [H1 _]%andb_prop [H2 _]%andb_prop He.
  apply Z.eqb_eq in H1, H2.
  pose proof (digits2_pos_bounds m1) as [Hlo _].
  pose proof (digits2_pos_bounds m2) as [_ Hhi].
  assert (Z.pos (digits2_pos m1) = prec) as Hd1 by lia.
  assert (Z.pos (digits2_pos m2) <= prec)%Z as Hd2 by lia.
  rewrite Hd1 in Hlo.
  assert (2 ^ Z.pos (digits2_pos m2) <= 2 ^ prec)%Z
    by (apply Z.pow_le_mono_r; lia).
  assert (2 ^ 1 <= 2 ^ (e1 - e2))%Z by (apply Z.pow_le_mono_r; lia).
  change (2 ^ prec)%Z with (2 ^ (prec - 1) * 2 ^ 1)%Z in *.
  nia.
Qed.

(** The aligned mantissas of a subtraction or an addition. *)
Lemma aligned_values (m1 m2 : positive) (e1 e2 : Z) :
  Z.pos (fst (shl_align m1 e1 (Z.min e1 e2)))
  = (Z.pos m1 * 2 ^ (e1 - Z.min e1 e2))%Z
  /\ Z.pos (fst (shl_align m2 e2 (Z.min e1 e2)))
     = (Z.pos m2 * 2 ^ (e2 - Z.min e1 e2))%Z.
Proof. split; apply shl_align_value; lia. Qed.

(** [x - y] is not below zero unless [x < y]. *)
Lemma SFsub_not_below_zero (x y : spec_float) :
  valid_binary prec emax x = true -> valid_binary prec emax y = true ->
  SFltb x y = false ->
  SFltb (SFsub prec emax x y) (S754_zero false) = false.
Proof.
  destruct x as [sx|sx| |sx mx ex], y as [sy|sy| |sy my ey];
    try done; try (by destruct sx, sy); try (by destruct sx);
    try (by destruct sy).
  simpl valid_binary. intros Hx Hy Hlt.
  unfold SFsub. apply binary_normalize_not_below_zero.
  destruct (aligned_values mx my ex ey) as [-> ->].
  unfold SFltb, SFcompare in Hlt.
  change (PosDef.Pos.compare_cont Eq mx my) with (Pos.compare mx my) in Hlt.
  destruct sx, sy; simpl cond_Zopp; try discriminate; try lia.
  - destruct (Z.compare_spec ex ey) as [->|Hlt'|Hgt]; try discriminate.
    + rewrite Z.min_id, Z.sub_diag. simpl.
      destruct (Pos.compare_spec mx my); simpl in Hlt; try discriminate; lia.
    + rewrite Z.min_l, Z.sub_diag by lia.
      pose proof (greater_exponent_greater_value _ _ _ _ Hy Hx Hlt'). lia.
  - destruct (Z.compare_spec ex ey) as [->|Hlt'|Hgt]; try discriminate.
    + rewrite Z.min_id, Z.sub_diag. simpl.
      destruct (Pos.compare_spec mx my); simpl in Hlt; try discriminate; lia.
    + rewrite Z.min_r, Z.sub_diag by lia.
      pose proof (greater_exponent_greater_value _ _ _ _ Hx Hy Hgt). lia.
Qed.

(** The sum of a value not below zero and a value above zero is not below
    zero. *)
Lemma SFadd_not_below_zero (x y : spec_float) :
  SFltb x (S754_zero false) = false ->
  SFleb y (S754_zero false) = false ->
  SFltb (SFadd prec emax x y) (S754_zero false) = false.
Proof.
  destruct x as [sx|sx| |sx mx ex], y as [sy|sy| |sy my ey];
    try done; try (by destruct sx, sy); try (by destruct sx);
    try (by destruct sy).
  intros Hx Hy. destruct sx; [discriminate|]. destruct sy; [discriminate|].
  unfold SFadd. apply binary_normalize_not_below_zero. simpl. lia.
Qed.

(** [balance - amount] is not below zero unless [balance < amount]. *)
Lemma sub_not_below_zero (x y : float) :
  PrimFloat.ltb x y = false -> PrimFloat.ltb (PrimFloat.sub x y) 0 = false.
Proof.
  rewrite !FloatAxioms.ltb_spec, FloatAxioms.sub_spec.
  apply SFsub_not_below_zero; apply FloatAxioms.Prim2SF_valid.
Qed.

(** [balance + amount] is not below zero when the balance is not and the
    amount is above zero. *)
Lemma add_not_below_zero (x y : float) :
  PrimFloat.ltb x 0 = false -> PrimFloat.leb y 0 = false ->
  PrimFloat.ltb (PrimFloat.add x y) 0 = false.
Proof.
  rewrite !FloatAxioms.ltb_spec, FloatAxioms.leb_spec, FloatAxioms.add_spec.
  apply SFadd_not_below_zero.
Qed.

End ArithFacts.

(** ** Balances below zero *)

Module Overdraft.
Import Account BankingSystem Session Notions ControllerFacts Invariants ArithFacts.

(** An account whose balance is below zero. *)
Definition overdrawn (a : Account) : bool := PrimFloat.ltb (balance a) 0.

Definition none_overdrawn (accounts : list Account) : Prop :=
  Forall (fun a => overdrawn a = false) accounts.

(** [withdraw] refuses what the balance does not cover, so it takes no
    balance below zero. *)
Lemma withdraw_keeps a amount :
  overdrawn a = false -> overdrawn (snd (withdraw a amount)) = false.
Proof.
  unfold withdraw, overdrawn. intros H.
  destruct (PrimFloat.ltb (balance a) amount) eqn:E; simpl; [done|].
  by apply sub_not_below_zero.
Qed.

Lemma deposit_keeps a amount :
  PrimFloat.leb amount 0 = false ->
  overdrawn a = false -> overdrawn (deposit a amount) = false.
Proof. unfold deposit, overdrawn. simpl. intros. by apply add_not_below_zero. Qed.

Lemma call_keeps_none_overdrawn self r self' success message :
  call self r = Return self' success message ->
  none_overdrawn (accounts self) -> none_overdrawn (accounts self').
Proof.
  intros Hcall Hok. destruct success; [|by apply call_failure in Hcall as ->].
  unfold none_overdrawn in *.
  invert_accepted Hcall; unfold accepted, recorded; simpl; try done.
  - apply Forall_alter; [done|]. intros. by apply withdraw_keeps.
  - apply Forall_alter; [apply Forall_alter; [done|]|]; intros.
    + by apply withdraw_keeps.
    + by apply deposit_keeps.
  - apply Forall_alter; [done|]. intros. by apply withdraw_keeps.
  - apply Forall_forall. intros x [_ Hx]%list_elem_of_filter.
    by eapply Forall_forall in Hok.
  - apply Forall_alter; [done|]. by intros.
Qed.

End Overdraft.

Import Overdraft.

(** X18. No operation overdraws an account: when no account of the list
    and no account of a loaded file has a balance below zero, no account
    has one after any run of loads and calls, accepted or refused, in a
    standard or an admin session. *)
Theorem no_run_overdraws (self : BankingSystem) (events : list Event)
    (self' : BankingSystem) :
  none_overdrawn (accounts self) ->
  (forall parsed, Load parsed ∈ events -> none_overdrawn parsed) ->
  run self events = Some self' ->
  none_overdrawn (accounts self').
Proof.
  revert self. induction events as [|[parsed|r] rest IH]; simpl;
    intros self Hok Hloads Hrun.
  - by injection Hrun as <-.
  - apply (IH (load_accounts self parsed)); [|by auto using list_elem_of_further|done].
    apply Hloads, list_elem_of_here.
  - destruct (call self r) as [self1 success message|] eqn:Hcall; [|done].
    apply (IH self1); [|by auto using list_elem_of_further|done].
    by eapply call_keeps_none_overdrawn.
Qed.

Lemma no_run_overdraws_witness : none_overdrawn (accounts alice_after_withdrawal).
Proof.
  apply (no_run_overdraws __init__
           (alice_session ++ [Call (Withdrawal "00001" 500 None)])).
  - constructor.
  - intros parsed H. unfold alice_session in H. simpl in H.
    apply elem_of_cons in H as [[= ->]|H]; [by repeat constructor|].
    apply elem_of_cons in H as [[=]|H].
    apply elem_of_cons in H as [[=]|H].
    by apply elem_of_nil in H.
  - reflexivity.
Defined.

(** ** Facts about the console *)

Module ConsoleFacts.
Import Account Validator BankingSystem Session Notions ControllerFacts.
Import BankingConsole ConsoleNotions.

Lemma written_app (a b : list Output) : written (a ++ b) = (written a ++ written b)%list.
Proof. apply omap_app. Qed.

Lemma written_print (outs : list Output) (line : string) :
  written (outs ++ [Print line]) = written outs.
Proof. rewrite written_app. simpl. by rewrite app_nil_r. Qed.

Lemma written_prompt (outs : list Output) (text : string) :
  written (outs ++ [Prompt text]) = written outs.
Proof. rewrite written_app. simpl. by rewrite app_nil_r. Qed.

(** A request other than a logout writes no file. *)
Lemma files_of_request s r :
  r <> Logout -> files_of s [Call r] = [].
Proof.
  intros Hr. simpl. destruct (call s r) as [s' ok msg|]; [|done].
  by destruct r.
Qed.

Lemma run_app s events rest :
  Session.run s (events ++ rest)
  = match Session.run s events with
    | Some s' => Session.run s' rest
    | None => None
    end.
Proof.
  revert s. induction events as [|[parsed|r] events IH]; intros s; simpl; [done|done|].
  by destruct (call s r).
Qed.

Lemma files_of_app s events s' rest :
  Session.run s events = Some s' ->
  files_of s (events ++ rest) = (files_of s events ++ files_of s' rest)%list.
Proof.
  revert s. induction events as [|[parsed|r] events IH]; intros s; simpl.
  - by intros [= ->].
  - apply IH.
  - destruct (call s r) as [s1 ok msg|]; [|done]. intros Hrun.
    rewrite (IH _ Hrun). by destruct r, ok.
Qed.

Lemma call_extends_log s r s' ok msg :
  call s r = Return s' ok msg -> transactions s `prefix_of` transactions s'.
Proof.
  intros Hcall. destruct ok; [|by apply call_failure in Hcall as ->].
  Invariants.invert_accepted Hcall; unfold accepted, recorded; simpl;
    first [done | by apply prefix_app_r].
Qed.

Lemma run_extends_log s events s' :
  Session.run s events = Some s' -> transactions s `prefix_of` transactions s'.
Proof.
  revert s. induction events as [|[parsed|r] events IH]; intros s; simpl.
  - by intros [= ->].
  - intros Hrun. by apply IH in Hrun.
  - destruct (call s r) as [s1 ok msg|] eqn:Hcall; [|done]. intros Hrun.
    etrans; [by eapply call_extends_log|by apply IH].
Qed.

Lemma increasing_head log log' logs :
  log `prefix_of` log' -> increasing (log' :: logs) -> increasing (log :: logs).
Proof.
  intros Hp. destruct logs as [|next logs]; [done|]. simpl.
  intros [Hp' Hrest]. split; [by etrans|done].
Qed.

Lemma increasing_tail log logs : increasing (log :: logs) -> increasing logs.
Proof. destruct logs; [done|]. by intros [_ H]. Qed.

(** The files of a run are made from logs that grow from the log at the
    start to the log at the end. *)
Lemma files_of_logs s events s' :
  Session.run s events = Some s' ->
  exists logs,
    files_of s events = FileHandler.generate_transaction_file <$> logs
    /\ increasing (transactions s :: logs ++ [transactions s']).
Proof.
  revert s. induction events as [|[parsed|r] events IH]; intros s; simpl.
  - intros [= ->]. by exists [].
  - intros Hrun. by apply IH in Hrun.
  - destruct (call s r) as [s1 ok msg|] eqn:Hcall; [|done]. intros Hrun.
    destruct (IH _ Hrun) as (logs & Hfiles & Hinc).
    pose proof (call_extends_log _ _ _ _ _ Hcall) as Hext.
    assert (exists logs',
              files_of s1 events = FileHandler.generate_transaction_file <$> logs'
              /\ increasing (transactions s :: logs' ++ [transactions s']))
      as Hsame by (exists logs; split; [done|by eapply increasing_head]).
    destruct r; try done. destruct ok; [|done].
    exists (transactions s1 :: logs). split; [by rewrite Hfiles|]. by split.
Qed.

(** The record of an accepted request of the console has an amount of the
    sign that its code asks for. *)
Lemma console_request_amount s r s' ok msg :
  console_request s r -> call s r = Return s' ok msg ->
  Forall amount_ok (transactions s) -> Forall amount_ok (transactions s').
Proof.
  intros Hreq Hcall Hlog. destruct ok; [|by apply call_failure in Hcall as ->].
  Invariants.invert_accepted Hcall; unfold accepted, recorded; simpl; try done;
    apply Forall_app; (split; [done|]); apply Forall_singleton;
    unfold amount_ok; simpl in *; try done; try (by destruct Hreq as (_ & ? & _)).
  by destruct Hreq.
Qed.

Lemma turn_events_amounts s events s' :
  turn_events s events -> Session.run s events = Some s' ->
  Forall amount_ok (transactions s) -> Forall amount_ok (transactions s').
Proof.
  intros [|r Hreq|content mode user_name Hout Hmode]; simpl.
  - by intros [= ->].
  - destruct (call s r) as [s1 ok msg|] eqn:Hcall; [|done]. intros [= <-].
    by eapply console_request_amount.
  - destruct (process_login _ mode user_name) as [s1 ok msg|] eqn:Hcall; [|done].
    intros [= <-]. apply (call_extends_log _ (Login mode user_name)) in Hcall as Hp.
    destruct ok; [|by apply (call_failure _ (Login mode user_name)) in Hcall as ->].
    by apply process_login_success in Hcall as (_ & admin & user & ->).
Qed.

Lemma console_run_amounts s events s' :
  console_run s events -> Session.run s events = Some s' ->
  Forall amount_ok (transactions s) -> Forall amount_ok (transactions s').
Proof.
  intros Hc. revert s'. induction Hc as [s|s events s1 rest Ht Hrun Hc IH];
    intros s' Hrun' Hlog.
  - by injection Hrun' as <-.
  - rewrite run_app, Hrun in Hrun'. apply (IH _ Hrun').
    by eapply turn_events_amounts.
Qed.

Section Console.
Context {World : Type}.
Variable read_file : string -> World -> (string + string) * World.
Variable write_file : string -> string -> World -> option string * World.
Variable today : World -> string * World.

(** What a turn leaves behind. *)
Definition turn_post (self : BankingConsole) (io : IO World)
    (r : result World BankingConsole) : Prop :=
  match r with
  | Ok self' io' =>
      flow_ok self' /\ (length (stdin io') <= length (stdin io))%nat
      /\ exists events,
          turn_events (system self) events
          /\ Session.run (system self) events = Some (system self')
          /\ written (stdout io')
             = (written (stdout io) ++ files_of (system self) events)%list
          /\ (forall parsed rest, events = Load parsed :: rest ->
              exists line lines content,
                stdin io = line :: lines /\ stdin io' = lines
                /\ read_file (Py.str_strip line) (world io) = (inl content, world io')
                /\ parsed = FileHandler.parse_accounts_file content)
  | Raised exc io' =>
      (exc = "EOFError" /\ stdin io' = []
       /\ written (stdout io') = written (stdout io))
      \/ (exists file_path w,
            write_file (generate_transaction_file (system self)) file_path w
            = (Some exc, world io')
            /\ written (stdout io')
               = (written (stdout io)
                    ++ [generate_transaction_file (system self)])%list)
  end.

(** A turn that sends nothing to the controller and writes no file. *)
Lemma quiet_turn self self' (io io' : IO World) :
  system self' = system self -> flow_ok self' ->
  (length (stdin io') <= length (stdin io))%nat ->
  written (stdout io') = written (stdout io) ->
  turn_post self io (Ok self' io').
Proof.
  intros Hs Hf Hin Hout. simpl. split; [done|]. split; [done|].
  exists []. split; [constructor|]. simpl. by rewrite Hs, Hout, app_nil_r.
Qed.

(** The end of a flow that sends one request. *)
Lemma finish_spec self r (io : IO World) :
  console_request (system self) r -> r <> Logout ->
  turn_post self io (finish self (call (system self) r) io).
Proof.
  intros Hreq Hr.
  destruct (call_returns (system self) r) as (s' & ok & msg & Hcall).
  rewrite Hcall. unfold finish, bind, returned, ret, report, out, err, print, write.
  destruct ok; simpl.
  all: split; [done|]; split; [done|]; exists [Call r];
    (split; [by constructor|]); rewrite files_of_request by done;
    simpl; rewrite Hcall; split; [done|]; by rewrite written_print, app_nil_r.
Qed.


Lemma quiet_print self self' line (io : IO World) :
  system self' = system self -> flow_ok self' ->
  turn_post self io (bind (print line) (fun _ => ret self') io).
Proof.
  intros Hs Hf. apply quiet_turn; simpl; try done. apply written_print.
Qed.

Lemma ask_next_spec self key text next question (io : IO World) :
  flow_ok (set_flow (set_item self key text) (Some next)) ->
  turn_post self io (ask_next self key text next question io).
Proof. intros Hf. by apply quiet_print. Qed.

(** The flows by name, with the tests of the handlers decided. *)
Ltac eval_flows :=
  repeat match goal with
    | |- context [is_flow (Some ?a) ?b] =>
        let v := eval vm_compute in (is_flow (Some a) b) in
        change (is_flow (Some a) b) with v
    end;
  cbn [orb]; cbv beta iota.

Ltac each_key Hk :=
  repeat (apply elem_of_cons in Hk as [->|Hk]);
  [..|by apply elem_of_nil in Hk].

Ltac in_prompts :=
  repeat first [apply list_elem_of_here | apply list_elem_of_further].

(** The state after an answer was stored is one of the flow's prompts. *)
Ltac next_prompt Hkeys Hholder :=
  unfold flow_ok; simpl; right; split; [done|];
  eexists _, _; split; [in_prompts|]; split;
  [ let k := fresh "k" in let Hk := fresh "Hk" in
    intros k Hk; each_key Hk;
    rewrite ?lookup_insert_eq, ?lookup_insert_ne by done;
    first [done | by eauto | apply Hkeys; by repeat constructor]
  | rewrite ?lookup_insert_eq, ?lookup_insert_ne by done;
    repeat case_match; simplify_eq; by eauto ].

Lemma stored_item self key (io : IO World) :
  is_Some (flow_data self !! key) ->
  exists value, flow_data self !! key = Some value /\ item self key io = Ok value io.
Proof. intros [value H]. exists value. unfold item. by rewrite H. Qed.

Lemma parse_positive_amount_Some text amount :
  parse_positive_amount text = Some amount -> PrimFloat.ltb 0 amount = true.
Proof.
  unfold parse_positive_amount. destruct (Py.float_of_str text) as [x|]; [|done].
  destruct (PrimFloat.ltb 0 x) eqn:E; [|done]. by intros [= <-].
Qed.

Lemma parse_non_negative_amount_Some text amount :
  parse_non_negative_amount text = Some amount -> PrimFloat.leb 0 amount = true.
Proof.
  unfold parse_non_negative_amount. destruct (Py.float_of_str text) as [x|]; [|done].
  destruct (PrimFloat.leb 0 x) eqn:E; [|done]. by intros [= <-].
Qed.

(** Reads a stored answer in the goal. *)
Ltac read_item Hkeys key :=
  let value := fresh "value" in
  let Hv := fresh "Hv" in
  let Hi := fresh "Hi" in
  match goal with
  | |- turn_post ?self ?io _ =>
      destruct (stored_item self key io) as (value & Hv & Hi);
      [apply Hkeys; by repeat constructor|];
      unfold bind at 1; rewrite Hi
  end.

Lemma handle_transaction_flow_spec self text (io : IO World) flow keys holder :
  current_flow self = Some flow ->
  is_logged_in (system self) = true ->
  (flow, (keys, holder)) ∈ prompts ->
  (forall k, k ∈ keys -> is_Some (flow_data self !! k)) ->
  match holder with
  | Asking => is_admin (system self) = true
  | Settled =>
      if is_admin (system self)
      then is_Some (flow_data self !! "name")
      else flow_data self !! "name" = None
  | Answer => True
  end ->
  flow_ok self ->
  turn_post self io (handle_transaction_flow self text io).
Proof.
  intros Hflow Hin Hp Hkeys Hholder Hok. unfold prompts in Hp.
  repeat (apply elem_of_cons in Hp as [[= -> -> ->]|Hp]);
    [..|by apply elem_of_nil in Hp];
    unfold handle_transaction_flow; rewrite Hflow; eval_flows.
  all: try (apply ask_next_spec; next_prompt Hkeys Hholder).
  all: try (destruct (parse_positive_amount text) as [amount|] eqn:Hamount;
            [apply parse_positive_amount_Some in Hamount
            |by apply quiet_print]).
  all: try (destruct (parse_non_negative_amount text) as [amount|] eqn:Hamount;
            [apply parse_non_negative_amount_Some in Hamount
            |by apply quiet_print]).
  - read_item Hkeys "account".
    apply (finish_spec self (Withdrawal value amount (flow_data self !! "name")));
      [|done]. simpl. by repeat split.
  - read_item Hkeys "source". read_item Hkeys "target".
    apply (finish_spec self (Transfer value value0 amount (flow_data self !! "name")));
      [|done]. simpl. by repeat split.
  - read_item Hkeys "account". read_item Hkeys "company".
    apply (finish_spec self (Paybill value amount value0 (flow_data self !! "name")));
      [|done]. simpl. by repeat split.
  - read_item Hkeys "account".
    apply (finish_spec self (Deposit value amount (flow_data self !! "name")));
      [|done]. simpl. by repeat split.
  - read_item Hkeys "name".
    apply (finish_spec self (Create value amount)); [|done]. simpl. by repeat split.
  - read_item Hkeys "name".
    apply (finish_spec self (Delete value text)); [|done]. done.
  - read_item Hkeys "name".
    apply (finish_spec self (Disable value text)); [|done]. done.
  - read_item Hkeys "name".
    apply (finish_spec self (Changeplan value text)); [|done]. done.
Qed.


Ltac eval_eqb :=
  repeat match goal with
    | |- context [String.eqb ?a ?b] =>
        let v := eval vm_compute in (String.eqb a b) in
        match v with
        | true => change (String.eqb a b) with true
        | false => change (String.eqb a b) with false
        end
    end;
  cbv beta iota.

Lemma start_transaction_flow_spec self command (io : IO World) :
  flow_ok self -> command ∈ transaction_commands ->
  turn_post self io (start_transaction_flow self command io).
Proof.
  intros Hok Hc. unfold start_transaction_flow.
  destruct (is_logged_in (system self)) eqn:Hin; simpl negb; cbv iota;
    [|by apply quiet_print].
  unfold transaction_commands in Hc. each_key Hc; eval_eqb.
  all: cbn [system]; destruct (is_admin (system self)) eqn:Hadm;
    (apply quiet_print; [done|]);
    unfold flow_ok; simpl; right; (split; [done|]);
    eexists _, _; (split; [in_prompts|]); (split; [by intros k Hk; each_key Hk|]);
    rewrite ?Hadm; done.
Qed.

Lemma handle_command_spec self command (io : IO World) :
  flow_ok self -> current_flow self = None ->
  turn_post self io (handle_command write_file today self command io).
Proof.
  intros Hok Hflow. unfold handle_command.
  destruct (String.eqb command "login").
  { destruct (is_logged_in (system self)) eqn:Hin; apply quiet_print; try done.
    unfold flow_ok. simpl. left. split; [|done]. apply list_elem_of_here. }
  destruct (String.eqb command "logout").
  { unfold process_logout.
    destruct (is_logged_in (system self)) eqn:Hin; simpl negb; cbv iota.
    - unfold bind, returned, ret, out, print, write, write_transaction_file. simpl.
      destruct (today (world io)) as [date w1].
      destruct (write_file _ _ w1) as [[exc|] w2] eqn:Hw; simpl.
      + right. exists ("transaction_file_" +:+ date +:+ ".txt"), w1.
        split; [done|]. by rewrite written_app, written_print.
      + split; [unfold flow_ok; simpl; by rewrite Hflow|]. split; [done|].
        exists [Call Logout]. split; [by constructor|]. simpl.
        unfold process_logout. rewrite Hin. simpl. split; [done|].
        by rewrite written_print, written_app, written_print.
    - unfold bind, returned, ret, err, print, write. cbn [negb].
      apply quiet_turn; simpl; [done| |done|apply written_print].
      unfold flow_ok. simpl. by rewrite Hflow. }
  case_bool_decide; [by apply start_transaction_flow_spec|].
  by apply quiet_print.
Qed.

Lemma load_and_login_spec self mode user_name (io : IO World) :
  is_logged_in (system self) = false ->
  (mode = "admin" /\ user_name = None)
  \/ (mode = "standard" /\ exists name, user_name = Some name /\ name <> "") ->
  turn_post self io (load_and_login read_file self mode user_name io).
Proof.
  intros Hout Hmode. unfold load_and_login, load_accounts, bind at 1 2, input.
  destruct (stdin io) as [|line rest] eqn:Hstdin.
  { left. simpl. split; [done|]. split; [done|]. apply written_prompt. }
  destruct (String.eqb (Py.str_strip line) "").
  { unfold bind, err, print, write, ret. simpl.
    split; [done|]. split; [rewrite Hstdin; simpl; lia|]. exists []. split; [constructor|].
    simpl. split; [done|]. by rewrite written_print, written_prompt, app_nil_r. }
  simpl. destruct (read_file _ (world io)) as [[content|exc] w'] eqn:Hread.
  - unfold bind at 1, out, print, write, ret. simpl.
    set (system' := BankingSystem.load_accounts (system self)
                      (FileHandler.parse_accounts_file content)).
    destruct (call_returns system' (Login mode user_name)) as (s' & ok & msg & Hcall).
    simpl in Hcall. unfold finish, bind, returned. simpl. rewrite Hcall.
    unfold ret, report, out, err, print, write.
    destruct ok; simpl.
    all: split; [done|]; split; [rewrite Hstdin; simpl; lia|];
      exists [Load (FileHandler.parse_accounts_file content);
              Call (Login mode user_name)];
      (split; [by constructor|]); simpl; fold system'; rewrite Hcall;
      (split; [done|]);
      (split; [by rewrite !written_print, written_prompt, app_nil_r|]);
      intros parsed rest' [= <- <-]; by exists line, rest, content.
  - unfold bind, err, print, write, ret. simpl.
    split; [done|]. split; [rewrite Hstdin; simpl; lia|]. exists []. split; [constructor|].
    simpl. split; [done|]. by rewrite written_print, written_prompt, app_nil_r.
Qed.

Lemma prompt_is_no_login_flow flow keys holder :
  (flow, (keys, holder)) ∈ prompts ->
  is_flow (Some flow) "login_mode" = false /\ is_flow (Some flow) "login_name" = false.
Proof.
  intros Hp. unfold prompts in Hp.
  repeat (apply elem_of_cons in Hp as [[= -> -> ->]|Hp]);
    [..|by apply elem_of_nil in Hp]; by vm_compute.
Qed.

Lemma handle_flow_input_spec self text (io : IO World) flow :
  flow_ok self -> current_flow self = Some flow -> text <> "" ->
  turn_post self io (handle_flow_input read_file self text io).
Proof.
  intros Hok Hflow Htext. pose proof Hok as Hok'.
  unfold flow_ok in Hok'. rewrite Hflow in Hok'.
  destruct Hok' as [[Hm Hout]|(Hin & keys & holder & Hp & Hkeys & Hholder)].
  - unfold handle_flow_input. rewrite Hflow. each_key Hm; eval_flows.
    + destruct (String.eqb (Py.str_lower text) "admin");
        [apply load_and_login_spec; by auto|].
      destruct (String.eqb (Py.str_lower text) "standard");
        [|by apply quiet_print].
      apply quiet_print; [done|]. unfold flow_ok. simpl. left.
      split; [|done]. apply list_elem_of_further, list_elem_of_here.
    + apply load_and_login_spec; [done|]. right. by eauto.
  - unfold handle_flow_input. rewrite Hflow.
    destruct (prompt_is_no_login_flow _ _ _ Hp) as [-> ->].
    by eapply handle_transaction_flow_spec.
Qed.

Lemma turn_spec self text (io : IO World) :
  flow_ok self -> turn_post self io (turn read_file write_file today self text io).
Proof.
  intros Hok. unfold turn.
  destruct (String.eqb_spec text "") as [->|Htext]; [by apply quiet_turn|].
  destruct (current_flow self) as [[|c flow]|] eqn:Hflow.
  - exfalso. unfold flow_ok in Hok. rewrite Hflow in Hok.
    destruct Hok as [[Hm _]|(_ & keys & holder & Hp & _)].
    + repeat (apply elem_of_cons in Hm as [[=]|Hm]). by apply elem_of_nil in Hm.
    + unfold prompts in Hp.
      repeat (apply elem_of_cons in Hp as [[=]|Hp]). by apply elem_of_nil in Hp.
  - by eapply handle_flow_input_spec.
  - by apply handle_command_spec.
Qed.


(** What the loop leaves behind: the events of its turns, and the files of
    the accepted logouts among them. *)
Definition run_post (self : BankingConsole) (io : IO World)
    (r : result World BankingConsole) : Prop :=
  match r with
  | Ok self' io' =>
      stdin io' = [] /\ flow_ok self'
      /\ exists events,
          console_run (system self) events
          /\ Session.run (system self) events = Some (system self')
          /\ written (stdout io')
             = (written (stdout io) ++ files_of (system self) events)%list
  | Raised exc io' =>
      exists events s',
        console_run (system self) events
        /\ Session.run (system self) events = Some s'
        /\ ((exc = "EOFError" /\ stdin io' = []
             /\ written (stdout io')
                = (written (stdout io) ++ files_of (system self) events)%list)
            \/ (exists file_path w,
                  write_file (generate_transaction_file s') file_path w
                  = (Some exc, world io')
                  /\ written (stdout io')
                     = (written (stdout io) ++ files_of (system self) events
                          ++ [generate_transaction_file s'])%list))
  end.

Lemma console_run_one s events s' :
  turn_events s events -> Session.run s events = Some s' -> console_run s events.
Proof.
  intros Ht Hrun. rewrite <- (app_nil_r events).
  eapply console_run_turn; [done..|constructor].
Qed.

(** A turn followed by the rest of the loop. *)
Lemma run_post_turn self self1 (io io1 io0 : IO World) r :
  written (stdout io0) = written (stdout io) ->
  turn_post self io0 (Ok self1 io1) -> run_post self1 io1 r -> run_post self io r.
Proof.
  intros Hw (_ & _ & events & Ht & Hrun & Hfiles & _) Hrest.
  destruct r as [self' io'|exc io']; simpl in *.
  - destruct Hrest as (Hin & Hok & rest & Hc & Hrun' & Hfiles').
    split; [done|]. split; [done|]. exists (events ++ rest)%list.
    split; [by eapply console_run_turn|].
    split; [by rewrite run_app, Hrun|].
    by rewrite Hfiles', Hfiles, Hw, (files_of_app _ _ _ _ Hrun), app_assoc.
  - destruct Hrest as (rest & s' & Hc & Hrun' & Hexc).
    exists (events ++ rest)%list, s'.
    split; [by eapply console_run_turn|].
    split; [by rewrite run_app, Hrun|].
    destruct Hexc as [(-> & Hin & Hfiles')|(file_path & w & Hwrite & Hfiles')].
    + left. split; [done|]. split; [done|].
      by rewrite Hfiles', Hfiles, Hw, (files_of_app _ _ _ _ Hrun), app_assoc.
    + right. exists file_path, w. split; [done|].
      by rewrite Hfiles', Hfiles, Hw, (files_of_app _ _ _ _ Hrun), !app_assoc.
Qed.

Lemma loop_spec turns self (io : IO World) :
  (length (stdin io) < turns)%nat -> flow_ok self ->
  exists r, loop read_file write_file today turns self io = Some r
            /\ run_post self io r.
Proof.
  revert self io. induction turns as [|turns IH]; intros self io Hlen Hok; [lia|].
  simpl. unfold input.
  destruct (stdin io) as [|line rest] eqn:Hstdin.
  { simpl. eexists. split; [done|]. simpl. split; [done|]. split; [done|].
    exists []. split; [constructor|]. simpl. split; [done|].
    by rewrite written_print, written_prompt, app_nil_r. }
  set (io0 := mkIO rest (stdout io ++ [Prompt "> "]) (world io)).
  pose proof (turn_spec self (Py.str_strip line) io0 Hok) as Hturn.
  destruct (turn read_file write_file today self (Py.str_strip line) io0)
    as [self1 io1|exc io1] eqn:Hres.
  - pose proof Hturn as (Hok1 & Hlen1 & _).
    destruct (IH self1 io1) as (r & Hloop & Hpost); [simpl in *; lia|done|].
    exists r. split; [done|].
    eapply (run_post_turn self self1 io io1 io0); [apply written_prompt|done..].
  - eexists. split; [done|]. simpl.
    exists [], (system self). split; [constructor|]. split; [done|].
    destruct Hturn as [(-> & Hin & Hw)|(file_path & w & Hwrite & Hw)].
    + left. split; [done|]. split; [done|].
      rewrite Hw. simpl. by rewrite written_prompt, app_nil_r.
    + right. exists file_path, w. split; [done|].
      rewrite Hw. simpl. by rewrite written_prompt.
Qed.

Lemma flow_ok_init : flow_ok __init__.
Proof. done. Qed.

Lemma main_spec (lines : list string) (w : World) :
  exists r, main read_file write_file today (mkIO lines [] w) = Some r
            /\ run_post __init__ (mkIO lines [] w) r.
Proof.
  unfold main, run, bind, out, print, write. simpl.
  set (io0 := mkIO lines _ w).
  destruct (loop_spec (S (length lines)) __init__ io0) as (r & Hloop & Hpost);
    [simpl; lia|apply flow_ok_init|].
  exists r. split; [done|].
  destruct r as [self' io'|exc io']; simpl in *; done.
Qed.

End Console.
End ConsoleFacts.

Import Account Validator BankingSystem Session Notions Fixtures.
Import ControllerFacts BankingConsole ConsoleNotions ConsoleFixtures ConsoleFacts.

(** ** The console *)

(** X19. The console ends on every input, within a number of turns of its
    loop that is one above the number of input lines. It ends in one of
    three ways: [run] returns when [input] finds no line at the command
    prompt; or [EOFError] escapes from the prompt for the accounts file
    when the input ends there; or a logout raises what
    [FileHandler.write_file] raised. The console never looks up an answer
    that its flow has not stored ([KeyError]), and no controller call
    raises. *)
Theorem console_ends {World : Type}
    (read_file : string -> World -> (string + string) * World)
    (write_file : string -> string -> World -> option string * World)
    (today : World -> string * World) (lines : list string) (w : World) :
  exists r,
    main read_file write_file today (mkIO lines [] w) = Some r
    /\ match r with
       | Ok self io' => stdin io' = []
       | Raised exc io' =>
           (exc = "EOFError" /\ stdin io' = [])
           \/ exists content file_path w',
                write_file content file_path w' = (Some exc, world io')
       end.
Proof.
  destruct (main_spec read_file write_file today lines w) as (r & Hmain & Hpost).
  exists r. split; [done|]. destruct r as [self io'|exc io']; simpl in Hpost.
  - by destruct Hpost.
  - destruct Hpost as (events & s' & _ & _ & [(-> & Hin & _)|(p & w' & Hw & _)]);
      [by left|right; by eauto].
Qed.

(** X20. What the console does to the controller is a run of requests:
    when [run] returns, the controller is in the state that the events of
    the turns lead to from [BankingSystem.__init__], so a state that the
    controller reaches. In these events a login always follows the load of
    a file just read, and comes with mode admin, or with mode standard and
    a non-empty name; no transaction is requested while logged out; every
    amount has passed [parse_positive_amount] ([parse_non_negative_amount]
    for a create); a withdrawal, a transfer, a bill payment and a deposit
    carry a holder name in an admin session and none in a standard one.
    The texts handed to [FileHandler.write_file] are the transaction files
    of the accepted logouts, in their order. *)
Theorem console_drives_the_controller {World : Type}
    (read_file : string -> World -> (string + string) * World)
    (write_file : string -> string -> World -> option string * World)
    (today : World -> string * World) (lines : list string) (w : World)
    (self : BankingConsole) (io' : IO World) :
  main read_file write_file today (mkIO lines [] w) = Some (Ok self io') ->
  exists events,
    console_run BankingSystem.__init__ events
    /\ Session.run BankingSystem.__init__ events = Some (system self)
    /\ reachable (system self)
    /\ written (stdout io') = files_of BankingSystem.__init__ events.
Proof.
  intros Hmain.
  destruct (main_spec read_file write_file today lines w) as (r & Hmain' & Hpost).
  rewrite Hmain in Hmain'. injection Hmain' as <-.
  destruct Hpost as (_ & _ & events & Hc & Hrun & Hfiles).
  exists events. split; [done|]. split; [done|].
  split; [by eapply run_reachable; [constructor|]|done].
Qed.

Lemma console_drives_the_controller_witness :
  reachable
    (mkBankingSystem
       [mkAccount "00001" "Alice" "A" 895; mkAccount "00002" "Bob" "A" 50]
       [Transaction.mkTransaction "01" "Alice" "00001" 100 "  ";
        Transaction.mkTransaction "03" "Alice" "00001" 5 "EC"]
       false false None 0 0 0).
Proof.
  edestruct (console_drives_the_controller sample_read sample_write sample_today
               alice_lines tt) as (events & _ & _ & Hreach & _);
    [vm_compute; reflexivity|].
  exact Hreach.
Defined.

(** X21. A session of the console always starts on the accounts file: a
    turn of the loop that takes the controller from logged out to logged
    in has read a path from the input and the file at that path, and the
    account list is then what [parse_accounts_file] makes of the file's
    text, whatever the list was before; the log is kept. So no balance
    changed in an earlier session is carried into the next one by the
    program itself. *)
Theorem console_login_reloads {World : Type}
    (read_file : string -> World -> (string + string) * World)
    (write_file : string -> string -> World -> option string * World)
    (today : World -> string * World)
    (self : BankingConsole) (text : string) (io : IO World)
    (self' : BankingConsole) (io' : IO World) :
  flow_ok self ->
  turn read_file write_file today self text io = Ok self' io' ->
  is_logged_in (system self) = false ->
  is_logged_in (system self') = true ->
  exists line lines content,
    stdin io = line :: lines /\ stdin io' = lines
    /\ read_file (Py.str_strip line) (world io) = (inl content, world io')
    /\ accounts (system self') = FileHandler.parse_accounts_file content
    /\ transactions (system self') = transactions (system self).
Proof.
  intros Hok Hturn Hout Hin.
  pose proof (turn_spec read_file write_file today self text io Hok) as Hpost.
  rewrite Hturn in Hpost.
  destruct Hpost as (_ & _ & events & Ht & Hrun & _ & Hread).
  destruct Ht as [|r Hreq|content mode user_name _ Hmode].
  - simpl in Hrun. injection Hrun as Hs. rewrite <- Hs in Hin. by rewrite Hout in Hin.
  - simpl in Hrun.
    destruct (call (system self) r) as [s' ok msg|] eqn:Hcall; [|done].
    injection Hrun as Hs. rewrite <- Hs in Hin. exfalso.
    destruct r; simpl in Hreq; try done; try (by rewrite Hout in Hreq);
      try (by apply proj1 in Hreq; rewrite Hout in Hreq).
    simpl in Hcall. unfold process_logout in Hcall. rewrite Hout in Hcall.
    injection Hcall as <- _ _. by rewrite Hout in Hin.
  - destruct (Hread _ _ eq_refl) as (line & lines & content' & Hl & Hl' & Hr & Hp).
    exists line, lines, content'. repeat (split; [done|]).
    simpl in Hrun.
    destruct (process_login _ mode user_name) as [s' ok msg|] eqn:Hcall; [|done].
    injection Hrun as Hs. rewrite <- Hs in *.
    destruct ok.
    + apply process_login_success in Hcall as (_ & admin & user & ->). simpl.
      by rewrite Hp.
    + apply (call_failure _ (Login mode user_name)) in Hcall as ->.
      simpl in Hin. by rewrite Hout in Hin.
Qed.

Lemma console_login_reloads_witness :
  accounts
    (system
       (match turn sample_read sample_write sample_today at_login_mode "admin"
                (mkIO ["accounts.txt"] [] tt) with
        | Ok self' _ => self'
        | Raised _ _ => at_login_mode
        end))
  = FileHandler.parse_accounts_file accounts_txt.
Proof.
  edestruct (console_login_reloads sample_read sample_write sample_today
               at_login_mode "admin" (mkIO ["accounts.txt"] [] tt))
    as (line & lines & content & Hl & _ & Hr & Ha & _);
    [by left; split; [apply list_elem_of_here|]
    |vm_compute; reflexivity|reflexivity|reflexivity|].
  injection Hl as <- <-. injection Hr as <-. exact Ha.
Defined.

(** X22. No record written through the console carries an amount that is
    not a number, or an amount of the wrong sign: when [run] returns, every
    record of the log with code 01 to 04 has an amount above zero, every
    record with code 05 an amount not below zero, and every other record
    the amount zero. *)
Theorem console_log_has_checked_amounts {World : Type}
    (read_file : string -> World -> (string + string) * World)
    (write_file : string -> string -> World -> option string * World)
    (today : World -> string * World) (lines : list string) (w : World)
    (self : BankingConsole) (io' : IO World) :
  main read_file write_file today (mkIO lines [] w) = Some (Ok self io') ->
  Forall amount_ok (transactions (system self))
  /\ forall t, t ∈ transactions (system self) ->
               PrimFloat.is_nan (Transaction.amount t) = false.
Proof.
  intros Hmain.
  destruct (main_spec read_file write_file today lines w) as (r & Hmain' & Hpost).
  rewrite Hmain in Hmain'. injection Hmain' as <-.
  destruct Hpost as (_ & _ & events & Hc & Hrun & _).
  assert (Forall amount_ok (transactions (system self))) as Hall
    by (by eapply console_run_amounts; [done..|constructor]).
  split; [done|]. intros t Ht.
  eapply Forall_forall in Hall; [|done]. unfold amount_ok in Hall.
  destruct (bool_decide _);
    [|destruct (String.eqb _ _); [|by rewrite Hall]].
  - by apply MoreFloatFacts.lt_not_ge in Hall as (_ & _ & Hnan).
  - by apply MoreFloatFacts.le_not_gt in Hall as (_ & _ & Hnan).
Qed.

Lemma console_log_has_checked_amounts_witness :
  Forall amount_ok
    [Transaction.mkTransaction "01" "Alice" "00001" 100 "  ";
     Transaction.mkTransaction "03" "Alice" "00001" 5 "EC"].
Proof.
  edestruct (console_log_has_checked_amounts sample_read sample_write sample_today
               alice_lines tt) as [Hall _];
    [vm_compute; reflexivity|].
  exact Hall.
Defined.

(** X23. Every transaction file that the console writes repeats the files
    written before it: the texts handed to [FileHandler.write_file] in one
    run of the program, up to its return or to the exception that ends it,
    are the transaction files of logs of which each begins with the one
    before. The records of a session are written again at the logout of
    every later session. *)
Theorem console_files_repeat_earlier_sessions {World : Type}
    (read_file : string -> World -> (string + string) * World)
    (write_file : string -> string -> World -> option string * World)
    (today : World -> string * World) (lines : list string) (w : World)
    (r : result World BankingConsole) :
  main read_file write_file today (mkIO lines [] w) = Some r ->
  exists logs,
    written (stdout (match r with Ok _ io' | Raised _ io' => io' end))
    = FileHandler.generate_transaction_file <$> logs
    /\ increasing logs.
Proof.
  intros Hmain.
  destruct (main_spec read_file write_file today lines w) as (r' & Hmain' & Hpost).
  rewrite Hmain in Hmain'. injection Hmain' as <-.
  destruct r as [self io'|exc io']; simpl in Hpost.
  - destruct Hpost as (_ & _ & events & _ & Hrun & ->).
    destruct (files_of_logs _ _ _ Hrun) as (logs & -> & Hinc).
    exists logs. split; [done|].
    apply increasing_tail in Hinc. revert Hinc. clear.
    induction logs as [|log [|next logs] IH]; simpl; try done.
    intros [Hp Hinc]. split; [done|]. by apply IH.
  - destruct Hpost as (events & s' & _ & Hrun & Hexc).
    destruct (files_of_logs _ _ _ Hrun) as (logs & Hfiles & Hinc).
    apply increasing_tail in Hinc.
    destruct Hexc as [(_ & _ & ->)|(file_path & w' & _ & ->)]; simpl.
    + exists logs. split; [done|]. revert Hinc. clear.
      induction logs as [|log [|next logs] IH]; simpl; try done.
      intros [Hp Hinc]. split; [done|]. by apply IH.
    + exists (logs ++ [transactions s'])%list. split; [|done].
      by rewrite Hfiles, fmap_app.
Qed.

Lemma console_files_repeat_earlier_sessions_witness :
  exists logs,
    ["01 Alice                00001 00100.00  " +:+ Py.nl
     +:+ "03 Alice                00001 00005.00EC" +:+ Py.nl
     +:+ "00                      00000 00000.00  " +:+ Py.nl]
    = FileHandler.generate_transaction_file <$> logs
    /\ increasing logs.
Proof.
  edestruct (console_files_repeat_earlier_sessions sample_read sample_write
               sample_today alice_lines tt) as (logs & Hfiles & Hinc);
    [vm_compute; reflexivity|].
  exists logs. split; [|done]. rewrite <- Hfiles. vm_compute. reflexivity.
Defined.

(** The flows of the three privileged transactions that name an account
    pass from the prompt for the name to the prompt for the number. *)
Example delete_flow_after_the_name :
  Py.replace "_name" "_account" "delete_name" = "delete_account"
  /\ Py.replace "_name" "_account" "changeplan_name" = "changeplan_account"
  /\ Py.str_lower " StanDARD" = " standard" /\ Py.str_upper "ec" = "EC".
Proof. repeat split; reflexivity. Qed.
